(** * Verification of the AIC SDK download script

    A shallow embedding of [build/download_c_libaries.py]: the parser of
    VERSIONS.txt, the chunked SHA-256 of the downloaded file, archive format
    detection and the download / verify / extract pipeline with its scoped
    temporary directory.

    Modelling conventions.
    - A Python [str] is a [string]; a character is an 8-bit code point.
    - A [dict] is a [gmap]; the nested table is a [gmap] of [gmap]s.
    - [bytes] are [list byte].
    - The file system is a finite map from paths to nodes; a path is
      absolute, the list of its components from the root, and its text
      starts with a slash.  Effects are threaded through a
      state-and-exception monad.
    - [hashlib.sha256] is modelled by its algorithm (FIPS 180-4) behind the
      incremental interface [new] / [update] / [hexdigest].
    - What the script does to the outside is recorded in a trace: each line
      sent to stdout by [print], and each URL asked of the network.
    - The network, the two archive decoders and the name [tempfile] picks
      are parameters of the pipeline. *)

From Stdlib Require Import ZArith Lia List.
From Stdlib Require Import DecimalString.
From Stdlib.Strings Require Import String Ascii Byte.
From stdpp Require Import gmap strings list fin_maps.
From Equations Require Import Equations.

(** ** SHA-256 behind the interface of [hashlib] *)

Module SHA256.

Local Open Scope Z_scope.

Definition w32 (x : Z) : Z := x mod 2 ^ 32.
Definition add32 (x y : Z) : Z := w32 (x + y).
Definition rotr (n x : Z) : Z := Z.lor (Z.shiftr x n) (w32 (Z.shiftl x (32 - n))).
Definition not32 (x : Z) : Z := Z.lxor x 0xffffffff.

Definition Ch (x y z : Z) : Z := Z.lxor (Z.land x y) (Z.land (not32 x) z).
Definition Maj (x y z : Z) : Z :=
  Z.lxor (Z.lxor (Z.land x y) (Z.land x z)) (Z.land y z).
Definition Sigma0 (x : Z) : Z := Z.lxor (Z.lxor (rotr 2 x) (rotr 13 x)) (rotr 22 x).
Definition Sigma1 (x : Z) : Z := Z.lxor (Z.lxor (rotr 6 x) (rotr 11 x)) (rotr 25 x).
Definition sigma0 (x : Z) : Z := Z.lxor (Z.lxor (rotr 7 x) (rotr 18 x)) (Z.shiftr x 3).
Definition sigma1 (x : Z) : Z := Z.lxor (Z.lxor (rotr 17 x) (rotr 19 x)) (Z.shiftr x 10).

(** The constants of the standard are derived from the first sixty-four
    primes: the first 32 bits of the fractional parts of their cube roots
    (round constants) and, for the first eight, of their square roots
    (initial chaining value). *)
Definition is_prime (n : nat) : bool :=
  forallb (fun d => negb (Nat.eqb (Nat.modulo n d) 0)) (seq 2 (n - 2)).

Definition primes : list Z :=
  Eval vm_compute in map Z.of_nat (List.filter is_prime (seq 2 310)).

(** Integer cube root, one bit of the result at a time. *)
Fixpoint cbrt_bits (n : nat) (x r : Z) : Z :=
  match n with
  | O => r
  | S n' =>
      let r' := r + 2 ^ Z.of_nat n' in
      if r' * r' * r' <=? x then cbrt_bits n' x r' else cbrt_bits n' x r
  end.

Definition K : list Z :=
  Eval vm_compute in map (fun p => w32 (cbrt_bits 40 (p * 2 ^ 96) 0)) primes.

Definition H0 : list Z :=
  Eval vm_compute in map (fun p => w32 (Z.sqrt (p * 2 ^ 64))) (firstn 8 primes).

Definition byte_val (b : byte) : Z := Z.of_N (Byte.to_N b).

Definition byte_of_Z (z : Z) : byte :=
  match Byte.of_N (Z.to_N (z mod 256)) with
  | Some b => b
  | None => x00
  end.

(** Big-endian words of a block. *)
Fixpoint words_of (bs : list byte) : list Z :=
  match bs with
  | b0 :: b1 :: b2 :: b3 :: rest =>
      (byte_val b0 * 2 ^ 24 + byte_val b1 * 2 ^ 16 + byte_val b2 * 2 ^ 8 + byte_val b3)
        :: words_of rest
  | _ => []
  end.

(** Message schedule: [n] further words computed from a window holding
    the last sixteen. *)
Fixpoint schedule (n : nat) (window : list Z) : list Z :=
  match n with
  | O => []
  | S n' =>
      let w := add32 (add32 (sigma1 (nth 14 window 0)) (nth 9 window 0))
                     (add32 (sigma0 (nth 1 window 0)) (nth 0 window 0)) in
      w :: schedule n' (tl window ++ [w])
  end.

Definition round (s : list Z) (kw : Z * Z) : list Z :=
  match s with
  | [a; b; c; d; e; f; g; h] =>
      let t1 := add32 (add32 (add32 h (Sigma1 e)) (add32 (Ch e f g) (fst kw))) (snd kw) in
      let t2 := add32 (Sigma0 a) (Maj a b c) in
      [add32 t1 t2; a; b; c; add32 d t1; e; f; g]
  | _ => s
  end.

Fixpoint zip_with {A B C} (f : A -> B -> C) (l : list A) (k : list B) : list C :=
  match l, k with
  | x :: l', y :: k' => f x y :: zip_with f l' k'
  | _, _ => []
  end.

(** One application of the compression function to a 64-byte block. *)
Definition compress (h : list Z) (block : list byte) : list Z :=
  let w16 := words_of block in
  let w := w16 ++ schedule 48 w16 in
  zip_with add32 h (fold_left round (zip_with pair K w) h).

(** Padding for a message of [len] bytes: 0x80, zeros, and the bit length
    on eight bytes. *)
Definition be64 (x : Z) : list byte :=
  map (fun i => byte_of_Z (Z.shiftr x (8 * i))) [7; 6; 5; 4; 3; 2; 1; 0].

Definition padding (len : N) : list byte :=
  let k := Z.to_nat ((119 - Z.of_N len mod 64) mod 64) in
  x80 :: repeat x00 k ++ be64 (8 * Z.of_N len).

(** Consume every complete 64-byte block of [bs]; what is left (fewer
    than 64 bytes) stays pending. *)
Equations? absorb (h : list Z) (bs : list byte) : list Z * list byte
  by wf (length bs) lt :=
  absorb h bs with le_lt_dec 64 (length bs) := {
    | left _ => absorb (compress h (firstn 64 bs)) (skipn 64 bs)
    | right _ => (h, bs) }.
Proof. rewrite length_skipn. lia. Qed.

(** The hash object: chaining value, pending bytes, bytes fed so far. *)
Record hasher := mk_hasher { chain : list Z; pending : list byte; fed : N }.

Definition new : hasher := mk_hasher H0 [] 0%N.

Definition update (st : hasher) (data : list byte) : hasher :=
  let '(h, rest) := absorb (chain st) (pending st ++ data) in
  mk_hasher h rest (fed st + N.of_nat (length data))%N.

Definition hex_digit (z : Z) : ascii :=
  nth (Z.to_nat z)
      (list_ascii_of_string "0123456789abcdef") "0"%char.

Definition hex32 (w : Z) : string :=
  string_of_list_ascii
    (map (fun i => hex_digit (Z.shiftr w (4 * i) mod 16)) [7; 6; 5; 4; 3; 2; 1; 0]).

Definition hex_of_chain (h : list Z) : string :=
  fold_right (fun w acc => String.append (hex32 w) acc) EmptyString h.

Definition hexdigest (st : hasher) : string :=
  hex_of_chain (fst (absorb (chain st) (pending st ++ padding (fed st)))).

(** The digest of a whole message, as FIPS 180-4 defines it: pad the
    message, cut it into blocks, fold the compression function. *)
Definition sha256_hex (msg : list byte) : string :=
  hex_of_chain (fst (absorb H0 (msg ++ padding (N.of_nat (length msg))))).

End SHA256.

Definition bytes_of_string (s : string) : list byte := list_byte_of_string s.


(** ** Python string methods used by the script *)

Module Py.

(** [str.isspace] on code points below 256. *)
Definition isspace (c : ascii) : bool :=
  let n := N_of_ascii c in
  ((9 <=? n) && (n <=? 13) || (28 <=? n) && (n <=? 32)
   || (n =? 133) || (n =? 160))%N.

Fixpoint lstrip (s : string) : string :=
  match s with
  | EmptyString => EmptyString
  | String c s' => if isspace c then lstrip s' else s
  end.

Fixpoint rstrip (s : string) : string :=
  match s with
  | EmptyString => EmptyString
  | String c s' =>
      match rstrip s' with
      | EmptyString => if isspace c then EmptyString else String c EmptyString
      | r => String c r
      end
  end.

(** [s.strip()] *)
Definition strip (s : string) : string := lstrip (rstrip s).

(** [s.split(sep)] for a one-character separator: never empty, one more
    piece than there are separators. *)
Fixpoint split (sep : ascii) (s : string) : list string :=
  match s with
  | EmptyString => [EmptyString]
  | String c s' =>
      if Ascii.eqb c sep then EmptyString :: split sep s'
      else match split sep s' with
           | piece :: pieces => String c piece :: pieces
           | [] => [String c EmptyString]
           end
  end.

(** [s.startswith(p)] and [s.endswith(p)] *)
Definition startswith (s p : string) : bool := String.prefix p s.

Fixpoint endswith (s p : string) : bool :=
  if String.eqb s p then true
  else match s with
       | EmptyString => false
       | String _ s' => endswith s' p
       end.

(** [s.rfind(c)] for a character; [None] stands for -1. *)
Fixpoint rfind (c : ascii) (s : string) : option nat :=
  match s with
  | EmptyString => None
  | String a s' =>
      match rfind c s' with
      | Some i => Some (S i)
      | None => if Ascii.eqb a c then Some 0 else None
      end
  end.

(** The slice [s[i:]]. *)
Fixpoint slice_from (i : nat) (s : string) : string :=
  match i, s with
  | O, _ => s
  | S i', String _ s' => slice_from i' s'
  | S _, EmptyString => EmptyString
  end.

(** An [int] inside an f-string. *)
Definition str_of_int (n : nat) : string := NilEmpty.string_of_uint (Nat.to_uint n).

Definition tab : ascii := ascii_of_nat 9.
Definition newline : string := String (ascii_of_nat 10) EmptyString.

End Py.

(** ** Exceptions and results *)

Inductive exn : Type :=
| RuntimeError (msg : string)
| ValueError (msg : string)
| OSError (msg : string)
| ArchiveError (msg : string).

(** [str(e)] *)
Definition str_of_exn (e : exn) : string :=
  match e with
  | RuntimeError m | ValueError m | OSError m | ArchiveError m => m
  end.

Inductive result (A : Type) : Type :=
| Ok (a : A)
| Raise (e : exn).
Arguments Ok {A} a.
Arguments Raise {A} e.

(** ** [load_platform_config] *)

(** The nested dict [{version: {platform: (archive_ext, hash)}}]. *)
Abbreviation platforms := (gmap string (string * string)).
Abbreviation version_table := (gmap string (gmap string (string * string))).

(** A text file as the script sees it: the text of its path, and the lines
    that iterating over the open file yields ([None] when the file does not
    exist).  A file that exists is taken to open and to decode to its end;
    [reading] below covers the file that does not. *)
Record text_file := { tf_name : string; tf_lines : option (list string) }.

(** The body of the [try] block for one stripped line. *)
Definition parse_row (line : string) (config : version_table) : result version_table :=
  let parts := Py.split Py.tab line in
  if negb (length parts =? 2) then
    Raise (ValueError "Expected format: version\tplatform, ext, hash")
  else
    let version := Py.strip (nth 0 parts EmptyString) in
    let platform_info := Py.strip (nth 1 parts EmptyString) in
    let platform_parts := map Py.strip (Py.split "," platform_info) in
    match platform_parts with
    | [platform_triplet; archive_ext; hash_value] =>
        let config :=
          match config !! version with
          | None => <[version := ∅]> config
          | Some _ => config
          end in
        Ok (alter (insert platform_triplet (archive_ext, hash_value)) version config)
    | _ => Raise (ValueError "Expected format: platform, ext, hash")
    end.

(** The [for line_num, line in enumerate(f, 1)] loop. *)
Fixpoint load_lines (line_num : nat) (lines : list string) (config : version_table)
  : result version_table :=
  match lines with
  | [] => Ok config
  | line :: rest =>
      let line := Py.strip line in
      if String.eqb line EmptyString || Py.startswith line "#" then
        load_lines (S line_num) rest config
      else
        match parse_row line config with
        | Ok config' => load_lines (S line_num) rest config'
        | Raise e =>
            Raise (RuntimeError ("Error parsing VERSIONS.txt line "
                                 +:+ Py.str_of_int line_num +:+ ": " +:+ str_of_exn e))
        end
  end.

Definition load_platform_config (versions_file : text_file) : result version_table :=
  match tf_lines versions_file with
  | None => Raise (RuntimeError ("VERSIONS.txt file not found: " +:+ tf_name versions_file))
  | Some lines => load_lines 1 lines ∅
  end.

(** ** Paths, the file system and the observable trace *)

Abbreviation path := (list string).

Inductive node : Type :=
| Dir
| File (content : list byte).

Abbreviation fs_map := (gmap (list string) node).

Inductive event : Type :=
| Printed (line : string)
| UrlRetrieve (url : string).

Record world := mk_world { fs : gmap (list string) node; trace : list event }.

Module Path.

(** [str(p)] *)
Definition str (p : path) : string :=
  match p with
  | [] => "/"
  | _ => fold_right (fun c acc => "/" +:+ c +:+ acc) EmptyString p
  end.

(** [p / s]: the components of [s], empty and [.] components dropped. *)
Definition join (p : path) (s : string) : path :=
  p ++ filter (fun c => c ≠ EmptyString ∧ c ≠ ".") (Py.split "/" s).

(** [p.name] *)
Definition name (p : path) : string := List.last p EmptyString.

(** [p.parent] *)
Definition parent (p : path) : path := removelast p.

(** [p.suffix]: the text from the last dot of the name, when that dot is
    neither its first nor its last character. *)
Definition suffix (p : path) : string :=
  let name := name p in
  match Py.rfind "." name with
  | Some i =>
      if (0 <? i) && (i <? String.length name - 1) then Py.slice_from i name
      else EmptyString
  | None => EmptyString
  end.

(** The path itself and the directories above it, outermost first. *)
Definition ancestors (p : path) : list path :=
  map (fun n => take n p) (seq 1 (length p)).

(** Where the components of [name] lead from [p] once the operating
    system resolves them: [..] steps back to the parent (the root is its
    own parent), [.] and an empty component stay where they are. *)
Definition reach (p : path) (name : list string) : path :=
  fold_left (fun here c =>
               if String.eqb c ".." then removelast here
               else if String.eqb c "." || String.eqb c EmptyString then here
               else here ++ [c])
            name p.

End Path.

Definition is_file (f : fs_map) (p : path) : bool :=
  match f !! p with Some (File _) => true | _ => false end.

Definition is_dir (f : fs_map) (p : path) : bool :=
  match p, f !! p with
  | [], _ => true
  | _, Some Dir => true
  | _, _ => false
  end.

(** Create [p] and every missing directory above it. *)
Definition make_dirs (p : path) (f : fs_map) : fs_map :=
  fold_right (fun d m => <[d := Dir]> m) f (Path.ancestors p).

(** Remove [p] and everything below it. *)
Definition rmtree (p : path) (f : fs_map) : fs_map :=
  filter (fun kv => ¬ p `prefix_of` kv.1) f.

(** Create or truncate the file [p]; its directory has to exist. *)
Definition write_file (p : path) (content : list byte) (f : fs_map) : result fs_map :=
  if is_dir f p then Raise (OSError ("[Errno 21] Is a directory: " +:+ Path.str p))
  else if is_dir f (Path.parent p) then Ok (<[p := File content]> f)
  else Raise (OSError ("[Errno 2] No such file or directory: " +:+ Path.str p)).

(** ** The monad of the script: state and exceptions *)

Definition M (A : Type) : Type := world -> result A * world.

Definition ret {A} (a : A) : M A := fun w => (Ok a, w).
Definition raise {A} (e : exn) : M A := fun w => (Raise e, w).
Definition bind {A B} (m : M A) (k : A -> M B) : M B :=
  fun w => match m w with
           | (Ok a, w') => k a w'
           | (Raise e, w') => (Raise e, w')
           end.
Definition lift {A} (r : result A) : M A := fun w => (r, w).

Notation "x <- m ;; k" := (bind m (fun x => k))
  (at level 100, m at next level, right associativity).
Notation "m ;; k" := (bind m (fun _ => k))
  (at level 100, right associativity).

Definition print (line : string) : M unit :=
  fun w => (Ok tt, mk_world (fs w) (trace w ++ [Printed line])).

Definition set_fs (f : fs_map) : M unit := fun w => (Ok tt, mk_world f (trace w)).

Definition get_fs : M fs_map := fun w => (Ok (fs w), w).

(** [try: m except Exception as e: raise wrap(e)] *)
Definition try_except {A} (m : M A) (wrap : exn -> exn) : M A :=
  fun w => match m w with
           | (Ok a, w') => (Ok a, w')
           | (Raise e, w') => (Raise (wrap e), w')
           end.

(** ** [calculate_file_hash] *)

Definition inspect {A} (x : A) : {y : A | x = y} := exist _ x eq_refl.

(** [for chunk in iter(lambda: f.read(size), b""): h.update(chunk)] over
    the unread part of the open file. *)
Equations? hash_chunks (size : nat) (unread : list byte) (h : SHA256.hasher)
  : SHA256.hasher by wf (length unread) lt :=
  hash_chunks size unread h with inspect (take size unread) := {
    | exist _ nil _ => h
    | exist _ (cons b bs) _ =>
        hash_chunks size (drop size unread) (SHA256.update h (cons b bs)) }.
Proof.
  destruct size as [|size]; [rewrite take_0 in *; discriminate |].
  destruct unread as [|b0 unread]; [discriminate |].
  rewrite length_drop. simpl. lia.
Qed.

Definition read_size : nat := 4096.

Definition calculate_file_hash (file_path : path) : M string :=
  fun w =>
    match fs w !! file_path with
    | Some (File content) =>
        (Ok (SHA256.hexdigest (hash_chunks read_size content SHA256.new)), w)
    | Some Dir => (Raise (OSError ("[Errno 21] Is a directory: " +:+ Path.str file_path)), w)
    | None =>
        (Raise (OSError ("[Errno 2] No such file or directory: " +:+ Path.str file_path)), w)
    end.

(** ** The pipeline *)

(** What unpacking an archive does to the file system: the members it
    writes, in order, each under the components of the name the library
    joins to the destination, and the error that stops it, if any (what
    was written before the error stays).  [zipfile] removes
    [..] components and a leading slash from a name before it joins it;
    [tarfile.extractall], called without a filter, does not: the name of
    a tar member can hold [..] components, and a name that starts at the
    root is one that climbs above every directory first. *)
Record extraction := { members : list (list string * node); failure : option string }.

(** One member is written where its name leads from the destination,
    which is outside the destination when the name climbs; the
    directories above the target are created on the way. *)
Definition write_member (dest : path) (m : list string * node) (f : fs_map) : fs_map :=
  let target := Path.reach dest m.1 in
  match m.2 with
  | Dir => make_dirs target f
  | File content => <[target := File content]> (make_dirs (Path.parent target) f)
  end.

(** [archive.extractall(dest)] *)
Definition extractall (x : extraction) (dest : path) : M unit :=
  f <- get_fs;;
  set_fs (fold_left (fun f m => write_member dest m f) (members x) f);;
  match failure x with
  | Some msg => raise (ArchiveError msg)
  | None => ret tt
  end.

Definition read_file (p : path) : M (list byte) :=
  fun w =>
    match fs w !! p with
    | Some (File content) => (Ok content, w)
    | Some Dir => (Raise (OSError ("[Errno 21] Is a directory: " +:+ Path.str p)), w)
    | None => (Raise (OSError ("[Errno 2] No such file or directory: " +:+ Path.str p)), w)
    end.

(** [output_dir.mkdir(parents=True, exist_ok=True)] *)
Definition mkdir_parents (p : path) : M unit :=
  fun w =>
    if existsb (is_file (fs w)) (Path.ancestors p) then
      (Raise (OSError ("[Errno 17] File exists: " +:+ Path.str p)), w)
    else (Ok tt, mk_world (make_dirs p (fs w)) (trace w)).

Definition archive_filename (platform_triplet version archive_ext : string) : string :=
  "aic-sdk-" +:+ platform_triplet +:+ "-" +:+ version +:+ "." +:+ archive_ext.

Definition download_url (version filename : string) : string :=
  "https://github.com/ai-coustics/aic-sdk-c/releases/download/"
    +:+ version +:+ "/" +:+ filename.

Section Pipeline.

(** The world outside the script: what a URL serves (or the transport
    error), how the two archive formats unpack, and the name
    [tempfile] picks for a new directory. *)
Variable urlopen : string -> string + list byte.
Variable unzip : list byte -> extraction.
Variable untar_gz : list byte -> extraction.
Variable mkdtemp : gmap (list string) node -> list string.

(** [urllib.request.urlretrieve(url, dest_path)] *)
Definition urlretrieve (url : string) (dest_path : path) : M unit :=
  fun w =>
    let w := mk_world (fs w) (trace w ++ [UrlRetrieve url]) in
    match urlopen url with
    | inl err => (Raise (OSError err), w)
    | inr body =>
        match write_file dest_path body (fs w) with
        | Ok f => (Ok tt, mk_world f (trace w))
        | Raise e => (Raise e, w)
        end
    end.

Definition download_file (url : string) (dest_path : path) : M unit :=
  print ("Downloading " +:+ url +:+ "...");;
  try_except
    (urlretrieve url dest_path;;
     print ("Downloaded to " +:+ Path.str dest_path))
    (fun e => RuntimeError ("Failed to download " +:+ url +:+ ": " +:+ str_of_exn e)).

Definition verify_hash (file_path : path) (expected_hash : string) : M unit :=
  print "Verifying SHA256 hash...";;
  actual_hash <- calculate_file_hash file_path;;
  if negb (String.eqb actual_hash expected_hash) then
    raise (RuntimeError ("Hash verification failed!" +:+ Py.newline
                         +:+ "Expected: " +:+ expected_hash +:+ Py.newline
                         +:+ "Actual:   " +:+ actual_hash))
  else print "Hash verification passed".

Definition extract_archive (archive_path extract_to : path) : M unit :=
  print ("Extracting " +:+ Path.str archive_path +:+ " to " +:+ Path.str extract_to +:+ "...");;
  (if String.eqb (Path.suffix archive_path) ".zip" then
     content <- read_file archive_path;;
     extractall (unzip content) extract_to
   else if String.eqb (Path.suffix archive_path) ".gz"
           && Py.endswith (Path.name archive_path) ".tar.gz" then
     content <- read_file archive_path;;
     extractall (untar_gz content) extract_to
   else
     raise (RuntimeError ("Unsupported archive format: " +:+ Path.str archive_path)));;
  print ("Extracted to " +:+ Path.str extract_to).

(** [with tempfile.TemporaryDirectory() as temp_dir: body] *)
Definition with_TemporaryDirectory {A} (body : path -> M A) : M A :=
  fun w =>
    let temp_dir := mkdtemp (fs w) in
    let '(r, w') := body temp_dir (mk_world (<[temp_dir := Dir]> (fs w)) (trace w)) in
    (r, mk_world (rmtree temp_dir (fs w')) (trace w')).

Definition download_aic_sdk (version : string) (output_dir : path)
           (platform_triplet : string) (versions_file : text_file) : M unit :=
  print ("Platform: " +:+ platform_triplet);;
  config <- lift (load_platform_config versions_file);;
  match config !! version with
  | None =>
      raise (RuntimeError ("Version " +:+ version +:+ " not found in "
                           +:+ tf_name versions_file))
  | Some supported =>
      match supported !! platform_triplet with
      | None =>
          raise (RuntimeError ("Platform " +:+ platform_triplet
                               +:+ " not supported for version " +:+ version))
      | Some (archive_ext, expected_hash) =>
          let filename := archive_filename platform_triplet version archive_ext in
          let url := download_url version filename in
          print ("Download URL: " +:+ url);;
          mkdir_parents output_dir;;
          with_TemporaryDirectory (fun temp_dir =>
            let temp_path := Path.join temp_dir filename in
            download_file url temp_path;;
            verify_hash temp_path expected_hash;;
            extract_archive temp_path output_dir);;
          print ("AIC SDK " +:+ version +:+ " successfully downloaded and extracted to "
                 +:+ Path.str output_dir)
      end
  end.

End Pipeline.

(** ** The configuration format, in the words of the specification *)

(** Every notion of this module is read on the line after
    [line.strip()], as the script does: leading and trailing whitespace
    of the line, tabs included, is gone before the line is classified
    and before its fields are counted. *)
Module Format.

(** Blank lines and lines starting with [#] are ignored: after
    stripping, the line is empty or starts with [#]. *)
Definition ignored (line : string) : bool :=
  let s := Py.strip line in
  String.eqb s EmptyString || Py.startswith s "#".

(** A record is [VERSION<TAB>PLATFORM, EXTENSION, CHECKSUM]: exactly two
    tab-separated fields, the second made of exactly three
    comma-separated sub-fields, whitespace around the fields trimmed.
    The result pairs the key (version, platform) with the value
    (extension, checksum). *)
Definition fields (line : string) : option (string * string * (string * string)) :=
  match Py.split Py.tab (Py.strip line) with
  | [v; info] =>
      match Py.split "," (Py.strip info) with
      | [p; e; h] => Some (Py.strip v, Py.strip p, (Py.strip e, Py.strip h))
      | _ => None
      end
  | _ => None
  end.

(** A row the loader rejects: after stripping it is neither blank nor a
    comment, and it is not a record.  The fields are counted on the
    stripped line: a tab at either end of the line as written adds no
    field. *)
Definition malformed (line : string) : bool :=
  negb (ignored line) && negb (bool_decide (is_Some (fields line))).

Definition well_formed (lines : list string) : Prop :=
  Forall (fun line => malformed line = false) lines.

(** The records of a file, in file order. *)
Definition records (lines : list string) : list (string * string * (string * string)) :=
  omap (fun line => if ignored line then None else fields line) lines.

(** The value of the last record for a key. *)
Fixpoint last_value (key : string * string)
         (recs : list (string * string * (string * string))) : option (string * string) :=
  match recs with
  | [] => None
  | r :: rest =>
      match last_value key rest with
      | Some x => Some x
      | None => if decide (r.1 = key) then Some r.2 else None
      end
  end.

End Format.

(** [config[version][platform_triplet]], when both keys are present. *)
Definition resolve (config : version_table) (version platform_triplet : string)
  : option (string * string) :=
  match config !! version with
  | Some supported => supported !! platform_triplet
  | None => None
  end.

(** The two statements of [parse_row] that update the table. *)
Definition record_row (version platform_triplet : string) (value : string * string)
           (config : version_table) : version_table :=
  alter (insert platform_triplet value) version
        (match config !! version with
         | None => <[version := ∅]> config
         | Some _ => config
         end).

(** ** Notions used to state the properties of the pipeline *)

(** [tempfile] hands out a directory that did not exist: nothing of the
    file system lies at or below [tmp]. *)
Definition fresh_dir (tmp : path) (f : fs_map) : bool :=
  bool_decide (map_Forall (fun k _ => ¬ tmp `prefix_of` k) f).

(** The error of a checksum mismatch, and the error of an unrecognised
    archive suffix, told apart by the text they carry. *)
Definition is_integrity_error (e : exn) : bool :=
  match e with
  | RuntimeError msg => Py.startswith msg "Hash verification failed!"
  | _ => false
  end.

Definition is_unsupported_format_error (e : exn) : bool :=
  match e with
  | RuntimeError msg => Py.startswith msg "Unsupported archive format: "
  | _ => false
  end.

Definition is_print (ev : event) : Prop :=
  match ev with Printed _ => True | UrlRetrieve _ => False end.

(** The template of the specification,
    [https://<host>/<org>/<repo>/releases/download/<version>/<repo>-<platform>-<version>.<ext>]. *)
Definition url_template (host org repo version platform ext : string) : string :=
  "https://" +:+ host +:+ "/" +:+ org +:+ "/" +:+ repo +:+ "/releases/download/"
    +:+ version +:+ "/" +:+ repo +:+ "-" +:+ platform +:+ "-" +:+ version +:+ "." +:+ ext.

(** The segments of a URL: after the scheme and the empty segment of
    [//] come host, organisation and repository. *)
Definition repo_segment (url : string) : string := nth 4 (Py.split "/" url) EmptyString.
Definition final_segment (url : string) : string := List.last (Py.split "/" url) EmptyString.

(** The property of the output directory on a failed run: every path at
    or below it holds what it held before the call. *)
Definition output_dir_untouched (run : M unit) (output_dir : path) (w : world) : Prop :=
  forall e w',
    run w = (Raise e, w') ->
    is_integrity_error e = true \/ is_unsupported_format_error e = true ->
    forall p : list string, output_dir `prefix_of` p -> fs w' !! p = fs w !! p.

(** The property of a URL whose archive file name begins with the name of
    the repository it is downloaded from. *)
Definition filename_begins_with_repo (url : string) : Prop :=
  Py.startswith (final_segment url) (repo_segment url) = true.

(** ** Concrete inputs *)

Module Demo.

Definition hello : list byte := bytes_of_string "hello".

(** Three platforms of one version: a correct checksum, a wrong one, and
    an archive format the script does not know. *)
Definition versions : text_file :=
  {| tf_name := "VERSIONS.txt";
     tf_lines := Some [
       "# version, then platform, extension, sha256" +:+ Py.newline;
       "1.0.0" +:+ String Py.tab
         ("x86_64-unknown-linux-gnu, tar.gz, "
          +:+ "2cf24dba5fb0a30e26e83b2ac5b9e29e1b161e5c1fa7425e73043362938b9824")
         +:+ Py.newline;
       "1.0.0" +:+ String Py.tab "x86_64-pc-windows-msvc, zip, 0000" +:+ Py.newline;
       "1.0.0" +:+ String Py.tab
         ("aarch64-apple-darwin, 7z, "
          +:+ "2cf24dba5fb0a30e26e83b2ac5b9e29e1b161e5c1fa7425e73043362938b9824")
         +:+ Py.newline ] |}.

Definition table : version_table :=
  match load_platform_config versions with
  | Ok config => config
  | Raise _ => ∅
  end.

Definition supported : gmap string (string * string) := default ∅ (table !! "1.0.0").

Definition urlopen (url : string) : string + list byte := inr hello.

Definition unpack (content : list byte) : extraction :=
  {| members := [(["lib"; "libaic.a"], File content)]; failure := None |}.

Definition mkdtemp (f : gmap (list string) node) : list string := ["tmp"; "tmpq3k8xw"].

Definition out : list string := ["build"; "sdk"].

Definition start : world := mk_world ∅ [].

Definition fetch (version platform_triplet : string) : M unit :=
  download_aic_sdk urlopen unpack unpack mkdtemp version out platform_triplet versions.

End Demo.

(** The scenario of the specification: one record for version 1.0.0. *)
Definition scenario_file : text_file :=
  {| tf_name := "VERSIONS.txt";
     tf_lines := Some [
       "# AIC SDK versions" +:+ Py.newline;
       Py.newline;
       "1.0.0" +:+ String Py.tab
         ("x86_64-unknown-linux-gnu, tar.gz, "
          +:+ "2cf24dba5fb0a30e26e83b2ac5b9e29e1b161e5c1fa7425e73043362938b9824")
         +:+ Py.newline ] |}.

(** A file with two rows for one (version, platform) pair. *)
Definition duplicate_file : text_file :=
  {| tf_name := "VERSIONS.txt";
     tf_lines := Some [
       "0.7.0" +:+ String Py.tab "x86_64-unknown-linux-gnu, tar.gz, aaaa" +:+ Py.newline;
       "0.7.0" +:+ String Py.tab "x86_64-pc-windows-msvc, zip, bbbb" +:+ Py.newline;
       "0.7.0" +:+ String Py.tab "x86_64-unknown-linux-gnu, zip, cccc" +:+ Py.newline ] |}.

(** A file whose third line lacks the checksum. *)
Definition broken_file : text_file :=
  {| tf_name := "VERSIONS.txt";
     tf_lines := Some [
       "# AIC SDK versions" +:+ Py.newline;
       "0.7.0" +:+ String Py.tab "x86_64-unknown-linux-gnu, tar.gz, aaaa" +:+ Py.newline;
       "0.7.0" +:+ String Py.tab "x86_64-pc-windows-msvc, zip" +:+ Py.newline ] |}.

(** A world with one small file. *)
Definition hello_world : world :=
  mk_world {[ ["tmp"; "hello.bin"] := File (bytes_of_string "hello") ]} [].

(** Unfold the plumbing of the monad and the projections of the world. *)
Ltac run_step :=
  cbv beta iota zeta delta
      [fs trace bind print lift ret raise get_fs set_fs try_except fst snd].


(** The table a file loads to (empty when it does not load). *)
Definition duplicate_table_of (f : text_file) : version_table :=
  match load_platform_config f with
  | Ok config => config
  | Raise _ => ∅
  end.


(** ** Writing a record line *)

(** Whitespace only. *)
Definition blank (s : string) : bool := forallb Py.isspace (list_ascii_of_string s).

(** The character does not occur. *)
Definition lacks (c : ascii) (s : string) : bool :=
  forallb (fun a => negb (Ascii.eqb a c)) (list_ascii_of_string s).

(** A field as it can be written on a record line and read back: not
    empty, no whitespace at either end, no tab and no comma inside. *)
Definition writable_field (s : string) : bool :=
  negb (String.eqb s EmptyString) && String.eqb (Py.strip s) s
  && lacks Py.tab s && lacks "," s.

(** Whitespace that may surround the fields: no tab, since a tab
    separates the version from the rest. *)
Definition filler (s : string) : bool := blank s && lacks Py.tab s.

(** The eight places of a record line where whitespace may stand. *)
Record spacing := {
  sp_start : string; sp_after_version : string;
  sp_before_platform : string; sp_after_platform : string;
  sp_before_ext : string; sp_after_ext : string;
  sp_before_hash : string; sp_end : string }.

Definition spacing_ok (sp : spacing) : bool :=
  blank (sp_start sp) && filler (sp_after_version sp)
  && filler (sp_before_platform sp) && filler (sp_after_platform sp)
  && filler (sp_before_ext sp) && filler (sp_after_ext sp)
  && filler (sp_before_hash sp) && blank (sp_end sp).

(** [VERSION<TAB>PLATFORM,EXTENSION,CHECKSUM] with whitespace around the
    fields. *)
Definition record_line (sp : spacing) (v p e h : string) : string :=
  sp_start sp +:+ v +:+ sp_after_version sp
    +:+ String Py.tab
          (sp_before_platform sp +:+ p +:+ sp_after_platform sp
             +:+ String ","
                   (sp_before_ext sp +:+ e +:+ sp_after_ext sp
                      +:+ String "," (sp_before_hash sp +:+ h +:+ sp_end sp))).

(** The spacing of the usual way to write a line:
    [VERSION<TAB>PLATFORM, EXTENSION, CHECKSUM] and a newline. *)
Definition usual_spacing : spacing :=
  {| sp_start := ""; sp_after_version := "";
     sp_before_platform := ""; sp_after_platform := "";
     sp_before_ext := " "; sp_after_ext := "";
     sp_before_hash := " "; sp_end := Py.newline |}.


(** A record with the spacing it is written with; what makes it
    writable; and the lines of a file written from such records. *)
Definition row_ok (r : spacing * (string * string * (string * string))) : bool :=
  let '(sp, (v, p, (e, h))) := r in
  spacing_ok sp && writable_field v && writable_field p && writable_field e
  && writable_field h && negb (Py.startswith v "#").

Definition write_rows (rows : list (spacing * (string * string * (string * string))))
  : list string :=
  map (fun r => let '(sp, (v, p, (e, h))) := r in record_line sp v p e h) rows.

Definition two_rows : list (spacing * (string * string * (string * string))) :=
  [ (usual_spacing, ("0.7.0", "x86_64-unknown-linux-gnu", ("tar.gz", "aaaa")));
    ({| sp_start := "  "; sp_after_version := " ";
        sp_before_platform := " "; sp_after_platform := " ";
        sp_before_ext := ""; sp_after_ext := "";
        sp_before_hash := ""; sp_end := " " +:+ Py.newline |},
     ("0.7.0", "x86_64-pc-windows-msvc", ("zip", "bbbb"))) ].


(** Made of the digits [0]-[9] and the letters [a]-[f] only. *)
Definition lower_hex (s : string) : bool :=
  forallb (fun c => existsb (Ascii.eqb c) (list_ascii_of_string "0123456789abcdef"))
          (list_ascii_of_string s).


(** What [extract_archive] does once the format is recognised: the line
    before, the unpacking, the line after. *)
Definition unpack_with (x : extraction) (archive_path extract_to : list string) (w : world)
  : result unit * world :=
  let w1 := mk_world (fs w)
              (trace w ++ [Printed ("Extracting " +:+ Path.str archive_path +:+ " to "
                                    +:+ Path.str extract_to +:+ "...")]) in
  match extractall x extract_to w1 with
  | (Ok _, w2) =>
      (Ok tt, mk_world (fs w2) (trace w2 ++ [Printed ("Extracted to "
                                                      +:+ Path.str extract_to)]))
  | (Raise e, w2) => (Raise e, w2)
  end.

(** The URLs that a trace asks for, in order. *)
Definition requests (t : list event) : list string :=
  omap (fun ev => match ev with UrlRetrieve url => Some url | Printed _ => None end) t.

(** A world where a zip archive and a compressed tar archive wait in a
    temporary directory. *)
Definition archives_world : world :=
  mk_world {[ ["tmp"; "t"] := Dir;
              ["tmp"; "t"; "sdk.v1.zip"] := File Demo.hello;
              ["tmp"; "t"; ".tar.gz"] := File Demo.hello ]} [].


(** ** [main] *)

(** The arguments as [parser.parse_args()] hands them over. *)
Record namespace := {
  ns_version : string; ns_output : list string;
  ns_platform : string; ns_versions_file : text_file }.

Section Entry_point.

Variable urlopen : string -> string + list byte.
Variable unzip : list byte -> extraction.
Variable untar_gz : list byte -> extraction.
Variable mkdtemp : gmap (list string) node -> list string.

(** [main] once the arguments are parsed: the exit status of the process,
    the lines written to stderr, and the world it leaves. *)
Definition main (args : namespace) (w : world) : nat * list string * world :=
  match download_aic_sdk urlopen unzip untar_gz mkdtemp
          (ns_version args) (ns_output args) (ns_platform args) (ns_versions_file args) w
  with
  | (Ok _, w') => (0%nat, [], w')
  | (Raise e, w') => (1%nat, ["Error: " +:+ str_of_exn e], w')
  end.

End Entry_point.


(** A server that refuses every request. *)
Definition refusing (url : string) : string + list byte := inl "HTTP Error 404: Not Found".


(** * The symbol renaming script, [build/rename_rust_symbols.py] *)

Module Rename.

Definition RUST_SYMBOLS_TO_RENAME : list string :=
  [ "rust_eh_personality"; "rust_begin_unwind"; "rust_panic"; "rust_oom";
    "__rust_alloc"; "__rust_dealloc"; "__rust_realloc"; "__rust_alloc_zeroed";
    "__rust_alloc_error_handler" ].

(** [for tool in candidates: if shutil.which(tool): return tool] and
    [return None] after the loop. *)
Fixpoint first_available (which : string -> bool) (candidates : list string)
  : option string :=
  match candidates with
  | [] => None
  | tool :: rest => if which tool then Some tool else first_available which rest
  end.

Definition objcopy_candidates : list string :=
  [ "llvm-objcopy"; "llvm-objcopy-18"; "llvm-objcopy-17"; "llvm-objcopy-16"; "objcopy" ].

Definition ar_candidates : list string :=
  [ "llvm-ar"; "llvm-ar-18"; "llvm-ar-17"; "llvm-ar-16"; "ar" ].

Definition find_objcopy_tool (which : string -> bool) : option string :=
  first_available which objcopy_candidates.

Definition find_ar_tool (which : string -> bool) : option string :=
  first_available which ar_candidates.

(** Step 3: the [--redefine-sym] arguments, two pairs for each symbol. *)
Definition redefine_args (prefix : string) : list string :=
  fold_left
    (fun args symbol =>
       let new_symbol := prefix +:+ symbol in
       (args ++ ["--redefine-sym"; symbol +:+ "=" +:+ new_symbol])
         ++ ["--redefine-sym"; "DW.ref." +:+ symbol +:+ "=DW.ref." +:+ new_symbol])
    RUST_SYMBOLS_TO_RENAME [].

(** [temp_path.glob("*" + suffix)] over the names in the directory. *)
Definition glob_suffix (suffix : string) (names : list string) : list string :=
  List.filter (fun name => Py.endswith name suffix) names.

(** Step 2: the three listings, one after the other. *)
Definition object_files (names : list string) : list string :=
  glob_suffix ".o" names ++ glob_suffix ".obj" names ++ glob_suffix ".rcgu.o" names.

(** What the script does to the outside: lines on stdout and stderr, the
    traceback it prints, and the processes it starts. *)
Inductive event : Type :=
| Out (line : string)
| Err (line : string)
| Traceback
| Run (argv : list string) (cwd : option (list string)).

Record state := mk_state { files : gmap (list string) node; log : list event }.

Definition emit (ev : event) (s : state) : state := mk_state (files s) (log s ++ [ev]).

(** What [CalledProcessError] carries: its text, and the captured output. *)
Record process_failure := { pf_text : string; pf_stdout : string; pf_stderr : string }.

(** How the [try] block ends: normally, with [CalledProcessError], or with
    another exception. *)
Inductive outcome : Type :=
| Done
| Called (failure : process_failure)
| Other (e : exn).

(** The names directly inside a directory. *)
Definition listdir (f : gmap (list string) node) (d : list string) : list string :=
  omap (fun kv : list string * node =>
          if decide (kv.1 <> [] /\ removelast kv.1 = d)
          then Some (List.last kv.1 EmptyString) else None)
       (map_to_list f).

Definition file_content (f : gmap (list string) node) (p : list string)
  : option (list byte) :=
  match f !! p with
  | Some (File content) => Some content
  | _ => None
  end.

(** [shutil.copy2(src, dst)]: into [dst] when it is a directory; refused
    when source and target are the same file. *)
Definition copy2 (src dst : list string) (s : state) : result unit * state :=
  match files s !! src with
  | Some (File content) =>
      let target := if is_dir (files s) dst then dst ++ [Path.name src] else dst in
      if decide (target = src) then
        (Raise (OSError (Path.str src +:+ " and " +:+ Path.str target
                         +:+ " are the same file")), s)
      else
        match write_file target content (files s) with
        | Ok f => (Ok tt, mk_state f (log s))
        | Raise e => (Raise e, s)
        end
  | Some Dir => (Raise (OSError ("[Errno 21] Is a directory: " +:+ Path.str src)), s)
  | None => (Raise (OSError ("[Errno 2] No such file or directory: " +:+ Path.str src)), s)
  end.

Section Tools.

(** The programs of the machine: what is on the search path, what
    [ar x], [objcopy] and [ar rcs] do, and the name [tempfile] picks. *)
Variable which : string -> bool.
Variable ar_extract :
  string -> option (list byte) -> process_failure + list (string * list byte).
Variable objcopy_run : string -> list string -> list byte -> option (list byte).
Variable ar_create :
  string -> list (string * option (list byte)) -> process_failure + list byte.
Variable mkdtemp : gmap (list string) node -> list string.

(** Step 4, one object file: [subprocess.run(..., check=False)] and the
    count of the runs that returned 0. *)
Definition rename_in_object (objcopy : string) (args : list string) (temp_path : list string)
           (acc : state * nat) (name : string) : state * nat :=
  let s := emit (Run ([objcopy] ++ args ++ [Path.str (temp_path ++ [name])]) None) acc.1 in
  match file_content (files s) (temp_path ++ [name]) with
  | Some content =>
      match objcopy_run objcopy args content with
      | Some renamed =>
          (mk_state (<[temp_path ++ [name] := File renamed]> (files s)) (log s),
           S acc.2)
      | None => (s, acc.2)
      end
  | None => (s, acc.2)
  end.

(** The body of the [try] block. *)
Definition try_block (ar objcopy : string) (lib_path output_path : list string)
           (prefix : string) (temp_path : list string) (s : state) : outcome * state :=
  let s := emit (Out ("Extracting objects from " +:+ Path.str lib_path +:+ "...")) s in
  let s := emit (Run [ar; "x"; Path.str lib_path] (Some temp_path)) s in
  match ar_extract ar (file_content (files s) lib_path) with
  | inl failure => (Called failure, s)
  | inr extracted =>
      let s := mk_state
                 (fold_left (fun f m => <[temp_path ++ [m.1] := File m.2]> f)
                            extracted (files s))
                 (log s) in
      let obj_files := object_files (listdir (files s) temp_path) in
      match obj_files with
      | [] =>
          let s := emit (Err "Warning: No object files found in archive") s in
          match copy2 lib_path output_path s with
          | (Ok _, s) => (Done, s)
          | (Raise e, s) => (Other e, s)
          end
      | _ =>
          let s := emit (Out ("Found " +:+ Py.str_of_int (length obj_files)
                              +:+ " object files")) s in
          let args := redefine_args prefix in
          let s := emit (Out "Renaming Rust symbols in object files...") s in
          let '(s, renamed_count) :=
            fold_left (rename_in_object objcopy args temp_path) obj_files (s, 0%nat) in
          let s := emit (Out ("Processed " +:+ Py.str_of_int renamed_count
                              +:+ " object files")) s in
          let s := emit (Out ("Creating new archive " +:+ Path.str output_path +:+ "...")) s in
          if existsb (is_file (files s)) (Path.ancestors (Path.parent output_path)) then
            (Other (OSError ("[Errno 17] File exists: "
                             +:+ Path.str (Path.parent output_path))), s)
          else
            let s := mk_state (make_dirs (Path.parent output_path) (files s)) (log s) in
            match files s !! output_path with
            | Some Dir =>
                (Other (OSError ("[Errno 21] Is a directory: " +:+ Path.str output_path)), s)
            | _ =>
                let s := mk_state (delete output_path (files s)) (log s) in
                let s := emit (Run ([ar; "rcs"; Path.str output_path] ++ obj_files)
                                   (Some temp_path)) s in
                match ar_create ar (map (fun name =>
                                           (name, file_content (files s) (temp_path ++ [name])))
                                        obj_files) with
                | inl failure => (Called failure, s)
                | inr archive =>
                    let s := mk_state (<[output_path := File archive]> (files s)) (log s) in
                    let s := emit (Out ("✓ Successfully renamed Rust symbols in "
                                        +:+ Path.str output_path)) s in
                    let s := emit (Out ("  Symbols renamed: "
                                        +:+ String.concat ", "
                                              (map (fun sym => sym +:+ " → " +:+ prefix +:+ sym)
                                                   (firstn 3 RUST_SYMBOLS_TO_RENAME))
                                        +:+ "...")) s in
                    (Done, s)
                end
            end
      end
  end.

Definition rename_symbols_in_archive (lib_path output_path : list string) (prefix : string)
           (s : state) : result unit * state :=
  match find_objcopy_tool which, find_ar_tool which with
  | Some objcopy, Some ar =>
      let s := emit (Out ("Using " +:+ ar +:+ " and " +:+ objcopy
                          +:+ " to rename Rust symbols...")) s in
      let temp_path := mkdtemp (files s) in
      let s := mk_state (<[temp_path := Dir]> (files s)) (log s) in
      let '(r, s) :=
        match try_block ar objcopy lib_path output_path prefix temp_path s with
        | (Done, s) => (Ok tt, s)
        | (Called failure, s) =>
            let s := emit (Err ("Error processing archive: " +:+ pf_text failure)) s in
            let s := emit (Err ("stdout: " +:+ pf_stdout failure)) s in
            let s := emit (Err ("stderr: " +:+ pf_stderr failure)) s in
            let s := emit (Err "Falling back to copying library as-is.") s in
            copy2 lib_path output_path s
        | (Other e, s) =>
            let s := emit (Err ("Unexpected error: " +:+ str_of_exn e)) s in
            let s := emit Traceback s in
            copy2 lib_path output_path s
        end in
      (r, mk_state (rmtree temp_path (files s)) (log s))
  | objcopy, ar =>
      let s := emit (Err "Error: Required tools not found.") s in
      let s := emit (Err ("  objcopy: " +:+ default "NOT FOUND" objcopy)) s in
      let s := emit (Err ("  ar: " +:+ default "NOT FOUND" ar)) s in
      let s := emit (Err "Cannot rename symbols. Copying library as-is.") s in
      copy2 lib_path output_path s
  end.

(** [main] once the arguments are parsed: the exit status and the state
    it leaves. *)
Definition main (input output : list string) (prefix : string) (s : state) : nat * state :=
  match files s !! input with
  | None => (1%nat, emit (Err ("Error: Input file not found: " +:+ Path.str input)) s)
  | Some _ =>
      match rename_symbols_in_archive input output prefix s with
      | (Ok _, s) => (0%nat, s)
      | (Raise e, s) => (1%nat, emit (Err ("Error: " +:+ str_of_exn e)) s)
      end
  end.

End Tools.

End Rename.


(** How often a name occurs in a list of names. *)
Definition occurrences (name : string) (names : list string) : nat :=
  length (List.filter (String.eqb name) names).


(** A search path that holds the GNU tools only. *)
Definition gnu_only (tool : string) : bool := String.eqb tool "objcopy" || String.eqb tool "ar".


(** Concrete tools and a concrete library for the renaming script. *)
Module Rename_demo.

Definition lib : list string := ["build"; "libaic.a"].
Definition out : list string := ["dist"; "libaic.a"].

Definition start : Rename.state :=
  Rename.mk_state {[ ["build"] := Dir; ["dist"] := Dir; lib := File Demo.hello ]} [].

Definition nothing_found (tool : string) : bool := false.

Definition broken_ar (tool : string) (content : option (list byte))
  : Rename.process_failure + list (string * list byte) :=
  inl {| Rename.pf_text := "Command '['ar', 'x', '/build/libaic.a']' returned non-zero exit status 1.";
         Rename.pf_stdout := "";
         Rename.pf_stderr := "ar: /build/libaic.a: file format not recognized" |}.

Definition working_ar (tool : string) (content : option (list byte))
  : Rename.process_failure + list (string * list byte) :=
  inr [("aic.o", Demo.hello); ("core.rcgu.o", Demo.hello)].

Definition objcopy_run (tool : string) (args : list string) (content : list byte)
  : option (list byte) := None.

Definition ar_create (tool : string) (ms : list (string * option (list byte)))
  : Rename.process_failure + list byte := inr Demo.hello.

Definition mkdtemp (f : gmap (list string) node) : list string := ["tmp"; "tmpr7"].

End Rename_demo.


(** The [objcopy] command line for one object file of the temporary
    directory. *)
Definition objcopy_call (objcopy : string) (args : list string) (tmp : list string)
           (name : string) : Rename.event :=
  Rename.Run ([objcopy] ++ args ++ [Path.str (tmp ++ [name])]) None.


(** ** A row as it is written *)

(** The specification counts the fields of a row: exactly two
    tab-separated fields, the second with exactly three comma-separated
    sub-fields.  Here the count is made on the line as the file has it,
    before any stripping. *)
Definition record_as_written (line : string) : bool :=
  match Py.split Py.tab line with
  | [_; info] => (length (Py.split "," info) =? 3)%nat
  | _ => false
  end.

(** A non-blank, non-comment row with the wrong field count, each of the
    three read on the line as written. *)
Definition miscounted_as_written (line : string) : bool :=
  negb (blank line) && negb (Py.startswith line "#") && negb (record_as_written line).

(** The property that a file with such a row does not load: the load
    fails with the error that names the line of such a row. *)
Definition miscounted_rows_reported (versions_file : text_file) : Prop :=
  forall lines i line,
    tf_lines versions_file = Some lines ->
    lines !! i = Some line ->
    miscounted_as_written line = true ->
    exists j bad reason,
      lines !! j = Some bad
      /\ miscounted_as_written bad = true
      /\ load_platform_config versions_file
         = Raise (RuntimeError ("Error parsing VERSIONS.txt line "
                                +:+ Py.str_of_int (S j) +:+ ": " +:+ reason)).

(** A file whose only row ends in a tab: three tab-separated fields as
    written, the last one empty. *)
Definition padded_file : text_file :=
  {| tf_name := "VERSIONS.txt";
     tf_lines := Some [
       "0.7.0" +:+ String Py.tab "x86_64-unknown-linux-gnu, tar.gz, aaaa"
         +:+ String Py.tab Py.newline ] |}.


(** ** The loader on a path in any state *)

(** [open] and the iteration over the file stand outside the [try]
    block of the loader, so what they raise leaves the loader as it is:
    the error of [open] for a directory or a file without read
    permission, and the error of the decoder in the middle of the file.
    [Absent]: [exists()] is false.  [Yields lines fault]: the iteration
    yields [lines] and then ends ([None]) or raises ([Some e]); when
    [exists()] or [open] raises, no line is yielded first. *)
Inductive reading : Type :=
| Absent
| Yields (lines : list string) (fault : option exn).

(** What a text file that opens and decodes gives. *)
Definition reading_of (f : text_file) : reading :=
  match tf_lines f with
  | None => Absent
  | Some lines => Yields lines None
  end.

(** [load_platform_config] for the path with text [name] in the state
    [r]: each yielded line is handled before the next is asked for, so
    the wrapped error of a line comes before a later fault. *)
Definition load_platform_config_from (name : string) (r : reading)
  : result version_table :=
  match r with
  | Absent => Raise (RuntimeError ("VERSIONS.txt file not found: " +:+ name))
  | Yields lines fault =>
      match load_lines 1 lines ∅, fault with
      | Raise e, _ => Raise e
      | Ok config, None => Ok config
      | Ok _, Some e => Raise e
      end
  end.

(** A file whose second chunk does not decode. *)
Definition undecodable : reading :=
  Yields ["# AIC SDK versions" +:+ Py.newline;
          "0.7.0" +:+ String Py.tab "x86_64-unknown-linux-gnu, tar.gz, aaaa" +:+ Py.newline]
         (Some (ValueError
                  "'utf-8' codec can't decode byte 0xff in position 61: invalid start byte")).


(** ** Member names that stay inside the destination *)



(** * Properties *)

(** ** Test vectors of SHA-256 *)

Example sha256_constants :
  length SHA256.K = 64%nat
  /\ nth 0 SHA256.K 0%Z = 0x428a2f98%Z
  /\ nth 63 SHA256.K 0%Z = 0xc67178f2%Z
  /\ nth 0 SHA256.H0 0%Z = 0x6a09e667%Z
  /\ nth 7 SHA256.H0 0%Z = 0x5be0cd19%Z.
Proof. vm_compute. repeat split. Qed.

Example sha256_empty :
  SHA256.sha256_hex [] = "e3b0c44298fc1c149afbf4c8996fb92427ae41e4649b934ca495991b7852b855".
Proof. vm_compute. reflexivity. Qed.

Example sha256_abc :
  SHA256.sha256_hex (bytes_of_string "abc")
  = "ba7816bf8f01cfea414140de5dae2223b00361a396177a9cb410ff61f20015ad".
Proof. vm_compute. reflexivity. Qed.

Example sha256_hello :
  SHA256.sha256_hex (bytes_of_string "hello")
  = "2cf24dba5fb0a30e26e83b2ac5b9e29e1b161e5c1fa7425e73043362938b9824".
Proof. vm_compute. reflexivity. Qed.

Example sha256_two_blocks :
  SHA256.sha256_hex (repeat "a"%byte 56)
  = "b35439a4ac6f0948b6d6f9e3c6af0f5f590ce20f1bde7090ef7970686ec6738a".
Proof. vm_compute. reflexivity. Qed.

(** ** The incremental interface of the hash object *)

Module SHA256_facts.
Import SHA256.

Lemma absorb_short h bs : (length bs < 64)%nat -> absorb h bs = (h, bs).
Proof.
  intros Hlt. rewrite absorb_equation_1.
  destruct (le_lt_dec 64 (length bs)); simpl; [lia | reflexivity].
Qed.

Lemma absorb_block h bs :
  (64 <= length bs)%nat -> absorb h bs = absorb (compress h (firstn 64 bs)) (skipn 64 bs).
Proof.
  intros Hle. rewrite absorb_equation_1 at 1.
  destruct (le_lt_dec 64 (length bs)); simpl; [reflexivity | lia].
Qed.

(** Absorbing a concatenation is absorbing the first part and carrying
    its pending bytes over to the second. *)
Lemma absorb_app bs : forall h cs,
  absorb h (bs ++ cs) = absorb (absorb h bs).1 ((absorb h bs).2 ++ cs).
Proof.
  induction bs as [bs IH] using (induction_ltof1 _ (@length byte)).
  unfold ltof in IH. intros h cs.
  destruct (le_lt_dec 64 (length bs)) as [Hle | Hlt].
  - rewrite (absorb_block h bs Hle).
    rewrite (absorb_block h (bs ++ cs)) by (rewrite length_app; lia).
    rewrite firstn_app, skipn_app.
    replace (64 - length bs)%nat with 0%nat by lia.
    rewrite firstn_O, skipn_O, app_nil_r.
    apply IH. rewrite length_skipn. lia.
  - rewrite (absorb_short h bs Hlt). reflexivity.
Qed.

Lemma absorb_pending_short bs : forall h, (length (absorb h bs).2 < 64)%nat.
Proof.
  induction bs as [bs IH] using (induction_ltof1 _ (@length byte)).
  unfold ltof in IH. intros h.
  destruct (le_lt_dec 64 (length bs)) as [Hle | Hlt].
  - rewrite (absorb_block h bs Hle). apply IH. rewrite length_skipn. lia.
  - rewrite (absorb_short h bs Hlt). exact Hlt.
Qed.

(** [h.update(a); h.update(b)] is [h.update(a + b)]. *)
Lemma update_app st a b : update (update st a) b = update st (a ++ b).
Proof.
  unfold update.
  rewrite (app_assoc (pending st) a b), (absorb_app (pending st ++ a)).
  destruct (absorb (chain st) (pending st ++ a)) as [h rest]; simpl.
  destruct (absorb h (rest ++ b)) as [h' rest'].
  f_equal. rewrite length_app. lia.
Qed.

(** Feeding nothing does not change the digest. *)
Lemma hexdigest_update_nil st : hexdigest (update st []) = hexdigest st.
Proof.
  unfold hexdigest, update. rewrite app_nil_r.
  rewrite (absorb_app (pending st)).
  destruct (absorb (chain st) (pending st)) as [h rest]; simpl.
  rewrite N.add_0_r. reflexivity.
Qed.

(** One call of [update] on a new object, then [hexdigest], is the
    digest of the padded message. *)
Lemma hexdigest_one_pass msg : hexdigest (update new msg) = sha256_hex msg.
Proof.
  unfold hexdigest, update, sha256_hex, new; simpl.
  rewrite (absorb_app msg).
  destruct (absorb H0 msg) as [h rest]; simpl. reflexivity.
Qed.

Lemma hexdigest_fold_update chunks : forall st,
  hexdigest (fold_left update chunks st) = hexdigest (update st (concat chunks)).
Proof.
  induction chunks as [|c chunks IH]; intros st; simpl.
  - symmetry. apply hexdigest_update_nil.
  - rewrite IH, update_app. reflexivity.
Qed.

End SHA256_facts.

(** The read loop feeds the whole unread content, whatever the size of
    the reads. *)
Lemma hash_chunks_digest size unread : forall h,
  (0 < size)%nat ->
  SHA256.hexdigest (hash_chunks size unread h) = SHA256.hexdigest (SHA256.update h unread).
Proof.
  induction unread as [unread IH] using (induction_ltof1 _ (@length byte)).
  unfold ltof in IH. intros h Hsize.
  rewrite hash_chunks_equation_1.
  destruct (inspect (take size unread)) as [[|b bs] E]; simpl.
  - destruct size; [lia |]. destruct unread; [| discriminate].
    symmetry. apply SHA256_facts.hexdigest_update_nil.
  - rewrite IH; [| | exact Hsize].
    + rewrite SHA256_facts.update_app, <- E, take_drop. reflexivity.
    + destruct size; [lia |]. destruct unread; [discriminate |].
      rewrite length_drop. simpl. lia.
Qed.

(** ** Loading the version table *)

Lemma parse_row_fields line config v p x :
  Format.fields line = Some (v, p, x) ->
  parse_row (Py.strip line) config = Ok (record_row v p x config).
Proof.
  unfold Format.fields, parse_row, record_row. intros Hf.
  destruct (Py.split Py.tab (Py.strip line)) as [|a [|b [|c parts]]]; try discriminate.
  simpl in *.
  destruct (Py.split "," (Py.strip b)) as [|p' [|e' [|h' [|q qs]]]]; try discriminate.
  simpl. injection Hf as <- <- <-. reflexivity.
Qed.

Lemma parse_row_no_fields line config :
  Format.fields line = None ->
  parse_row (Py.strip line) config
    = Raise (ValueError "Expected format: version\tplatform, ext, hash")
  \/ parse_row (Py.strip line) config
    = Raise (ValueError "Expected format: platform, ext, hash").
Proof.
  unfold Format.fields, parse_row. intros Hf.
  destruct (Py.split Py.tab (Py.strip line)) as [|a [|b [|c parts]]];
    try (left; reflexivity).
  right. simpl in *.
  destruct (Py.split "," (Py.strip b)) as [|p' [|e' [|h' [|q qs]]]];
    try discriminate; reflexivity.
Qed.

Lemma resolve_record_row v p x config v' p' :
  resolve (record_row v p x config) v' p'
  = if decide ((v, p) = (v', p')) then Some x else resolve config v' p'.
Proof.
  unfold resolve, record_row.
  destruct (decide (v = v')) as [<- | Hv].
  - rewrite lookup_alter_eq.
    destruct (config !! v) as [supported|] eqn:Hc.
    + rewrite Hc. simpl. rewrite lookup_insert.
      destruct (decide (p = p')) as [<- | Hp].
      * rewrite decide_True; reflexivity.
      * rewrite (decide_False (P := (v, p) = (v, p'))); [reflexivity | congruence].
    + rewrite lookup_insert_eq. simpl. rewrite lookup_insert.
      destruct (decide (p = p')) as [<- | Hp].
      * rewrite decide_True; reflexivity.
      * rewrite (decide_False (P := (v, p) = (v, p'))); [| congruence].
        apply lookup_empty.
  - rewrite lookup_alter_ne by exact Hv.
    rewrite (decide_False (P := (v, p) = (v', p'))) by congruence.
    destruct (config !! v) eqn:Hc; [reflexivity |].
    rewrite lookup_insert_ne by exact Hv. reflexivity.
Qed.

(** A file without malformed rows loads, and the table answers every
    lookup with the value of the last record for the key. *)
Lemma load_lines_well_formed lines : forall n config,
  Format.well_formed lines ->
  exists table,
    load_lines n lines config = Ok table
    /\ forall v p, resolve table v p
                   = match Format.last_value (v, p) (Format.records lines) with
                     | Some x => Some x
                     | None => resolve config v p
                     end.
Proof.
  induction lines as [|line lines IH]; intros n config Hwf.
  - exists config. split; [reflexivity |]. intros v p. reflexivity.
  - apply Forall_cons in Hwf as [Hline Hwf].
    unfold Format.malformed in Hline. simpl.
    unfold Format.records. simpl. fold (Format.records lines).
    destruct (Format.ignored line) eqn:Hig.
    + unfold Format.ignored in Hig. simpl in Hig. rewrite Hig.
      apply (IH (S n) config Hwf).
    + unfold Format.ignored in Hig. simpl in Hig. rewrite Hig.
      simpl in Hline. apply negb_false_iff, bool_decide_eq_true in Hline.
      destruct Hline as [[[v p] x] Hf]. rewrite Hf.
      rewrite (parse_row_fields line config v p x Hf).
      destruct (IH (S n) (record_row v p x config) Hwf) as (table & Hload & Hres).
      exists table. split; [exact Hload |].
      intros v' p'. rewrite Hres. simpl.
      destruct (Format.last_value (v', p') (Format.records lines)); [reflexivity |].
      rewrite resolve_record_row. destruct (decide ((v, p) = (v', p'))); reflexivity.
Qed.

Lemma last_value_absent recs : forall key,
  (forall j y, recs !! j <> Some (key, y)) -> Format.last_value key recs = None.
Proof.
  induction recs as [|[k y] recs IH]; intros key Habs; [reflexivity |].
  simpl. rewrite IH.
  - destruct (decide (k = key)) as [-> |]; [| reflexivity].
    exfalso. apply (Habs 0%nat y). reflexivity.
  - intros j y'. apply (Habs (S j) y').
Qed.

Lemma last_value_at recs : forall i key x,
  recs !! i = Some (key, x) ->
  (forall j y, (i < j)%nat -> recs !! j <> Some (key, y)) ->
  Format.last_value key recs = Some x.
Proof.
  induction recs as [|r recs IH]; intros i key x Hi Hlast; [discriminate |].
  simpl. destruct i as [|i].
  - injection Hi as ->. simpl.
    rewrite last_value_absent.
    + rewrite decide_True; reflexivity.
    + intros j y. apply (Hlast (S j) y). lia.
  - rewrite (IH i key x Hi); [reflexivity |].
    intros j y Hj. apply (Hlast (S j) y). lia.
Qed.

Lemma last_value_elem recs : forall key x,
  Format.last_value key recs = Some x -> (key, x) ∈ recs.
Proof.
  induction recs as [|[k y] recs IH]; intros key x; simpl; [discriminate |].
  destruct (Format.last_value key recs) as [z|] eqn:Hl.
  - intros [= ->]. right. apply IH. exact Hl.
  - destruct (decide (k = key)) as [-> |]; [| discriminate].
    intros [= ->]. left.
Qed.

Lemma records_app a b : Format.records (a ++ b) = Format.records a ++ Format.records b.
Proof. unfold Format.records. apply omap_app. Qed.

Lemma records_row line r :
  Format.ignored line = false -> Format.fields line = Some r -> Format.records [line] = [r].
Proof. intros Hig Hf. unfold Format.records. simpl. rewrite Hig, Hf. reflexivity. Qed.

Lemma last_value_app key a : forall b,
  Format.last_value key (a ++ b)
  = match Format.last_value key b with
    | Some x => Some x
    | None => Format.last_value key a
    end.
Proof.
  induction a as [|r a IH]; intros b; simpl.
  - destruct (Format.last_value key b); reflexivity.
  - rewrite IH. destruct (Format.last_value key b); reflexivity.
Qed.

(** The first malformed row stops the load, and the error carries its
    line number. *)
Lemma load_lines_first_malformed lines : forall n config,
  Exists (fun line => Format.malformed line = true) lines ->
  exists j bad reason,
    lines !! j = Some bad
    /\ Format.malformed bad = true
    /\ (forall k l, (k < j)%nat -> lines !! k = Some l -> Format.malformed l = false)
    /\ load_lines n lines config
       = Raise (RuntimeError ("Error parsing VERSIONS.txt line "
                              +:+ Py.str_of_int (n + j) +:+ ": " +:+ reason)).
Proof.
  induction lines as [|line lines IH]; intros n config Hex.
  - inversion Hex.
  - destruct (Format.malformed line) eqn:Hm.
    + unfold Format.malformed in Hm. apply andb_true_iff in Hm as [Hig Hf].
      apply negb_true_iff in Hig. apply negb_true_iff, bool_decide_eq_false in Hf.
      assert (Format.fields line = None) as Hnone.
      { destruct (Format.fields line); [exfalso; apply Hf; eauto | reflexivity]. }
      assert (Format.malformed line = true) as Hm'.
      { unfold Format.malformed. rewrite Hig, Hnone. reflexivity. }
      unfold Format.ignored in Hig. simpl in Hig.
      destruct (parse_row_no_fields line config Hnone) as [Hp | Hp].
      * exists 0%nat, line, "Expected format: version\tplatform, ext, hash".
        repeat split; [exact Hm' | intros; lia |].
        simpl. rewrite Hig, Hp, Nat.add_0_r. reflexivity.
      * exists 0%nat, line, "Expected format: platform, ext, hash".
        repeat split; [exact Hm' | intros; lia |].
        simpl. rewrite Hig, Hp, Nat.add_0_r. reflexivity.
    + apply Exists_cons in Hex as [Hex | Hex]; [congruence |].
      assert (exists config', load_lines n (line :: lines) config
                              = load_lines (S n) lines config') as [config' Hstep].
      { simpl. unfold Format.malformed in Hm.
        destruct (Format.ignored line) eqn:Hig; unfold Format.ignored in Hig;
          simpl in Hig; rewrite Hig.
        - exists config. reflexivity.
        - simpl in Hm. apply negb_false_iff, bool_decide_eq_true in Hm.
          destruct Hm as [[[v p] x] Hf].
          rewrite (parse_row_fields line config v p x Hf). eauto. }
      destruct (IH (S n) config' Hex) as (j & bad & reason & Hj & Hbad & Hfirst & Hload).
      exists (S j), bad, reason. repeat split; [exact Hj | exact Hbad | |].
      * intros k l Hk Hl. destruct k as [|k]; [injection Hl as <-; exact Hm |].
        apply (Hfirst k l); [lia | exact Hl].
      * rewrite Hstep, Hload. replace (n + S j)%nat with (S n + j)%nat by lia. reflexivity.
Qed.

(** ** Claims on the version table *)

(** C4. For every well-formed configuration file, loading succeeds, and
    looking up any (version, platform) pair listed in the file returns
    exactly the (extension, checksum) recorded on the file's row for that
    pair: the row that no later row for the same pair follows.  Nothing
    else is in the table. *)
Theorem load_then_lookup (versions_file : text_file) (lines : list string) :
  tf_lines versions_file = Some lines ->
  Format.well_formed lines ->
  exists table,
    load_platform_config versions_file = Ok table
    /\ (forall i v p x,
          Format.records lines !! i = Some (v, p, x) ->
          (forall j y, (i < j)%nat -> Format.records lines !! j <> Some (v, p, y)) ->
          resolve table v p = Some x)
    /\ (forall v p x, resolve table v p = Some x -> (v, p, x) ∈ Format.records lines).
Proof.
  intros Hlines Hwf. unfold load_platform_config. rewrite Hlines.
  destruct (load_lines_well_formed lines 1 ∅ Hwf) as (table & Hload & Hres).
  exists table. split; [exact Hload |]. split.
  - intros i v p x Hi Hlast. rewrite Hres.
    rewrite (last_value_at _ i (v, p) x Hi Hlast). reflexivity.
  - intros v p x. rewrite Hres.
    destruct (Format.last_value (v, p) (Format.records lines)) as [y|] eqn:Hl.
    + intros [= ->]. apply last_value_elem. exact Hl.
    + unfold resolve. rewrite lookup_empty. discriminate.
Qed.

Lemma load_then_lookup_witness :
  exists table,
    load_platform_config scenario_file = Ok table
    /\ (forall i v p x,
          Format.records (default [] (tf_lines scenario_file)) !! i = Some (v, p, x) ->
          (forall j y, (i < j)%nat ->
             Format.records (default [] (tf_lines scenario_file)) !! j <> Some (v, p, y)) ->
          resolve table v p = Some x)
    /\ (forall v p x, resolve table v p = Some x ->
          (v, p, x) ∈ Format.records (default [] (tf_lines scenario_file))).
Proof.
  apply (load_then_lookup scenario_file (default [] (tf_lines scenario_file))).
  - reflexivity.
  - repeat constructor.
Defined.

(** The scenario itself, evaluated. *)
Example scenario_resolves :
  (fun r => match r with Ok table => resolve table "1.0.0" "x86_64-unknown-linux-gnu"
                    | Raise _ => None end) (load_platform_config scenario_file)
  = Some ("tar.gz", SHA256.sha256_hex (bytes_of_string "hello")).
Proof. vm_compute. reflexivity. Qed.

(** C9. When a file holds two (or more) well-formed rows for the same
    (version, platform) pair, loading does not fail, and the table maps
    the pair to the value of the last of them in file order. *)
Theorem duplicate_rows_last_wins (versions_file : text_file)
        (before between after : list string) (earlier later : string)
        (v p : string) (x_earlier x_later : string * string) :
  tf_lines versions_file = Some (before ++ earlier :: between ++ later :: after) ->
  Format.well_formed (before ++ earlier :: between ++ later :: after) ->
  Format.ignored earlier = false -> Format.fields earlier = Some (v, p, x_earlier) ->
  Format.ignored later = false -> Format.fields later = Some (v, p, x_later) ->
  (forall y, (v, p, y) ∉ Format.records after) ->
  exists table,
    load_platform_config versions_file = Ok table
    /\ resolve table v p = Some x_later.
Proof.
  intros Hlines Hwf Hig1 Hf1 Hig2 Hf2 Hafter.
  unfold load_platform_config. rewrite Hlines.
  destruct (load_lines_well_formed _ 1 ∅ Hwf) as (table & Hload & Hres).
  exists table. split; [exact Hload |].
  rewrite Hres.
  change (earlier :: between ++ later :: after)
    with ([earlier] ++ between ++ [later] ++ after).
  rewrite !records_app, (records_row later _ Hig2 Hf2), !last_value_app.
  assert (Format.last_value (v, p) (Format.records after) = None) as ->.
  { destruct (Format.last_value (v, p) (Format.records after)) as [y|] eqn:Hl;
      [| reflexivity].
    apply last_value_elem in Hl. exfalso. exact (Hafter y Hl). }
  simpl. rewrite decide_True; reflexivity.
Qed.

Lemma duplicate_rows_last_wins_witness :
  exists table,
    load_platform_config duplicate_file = Ok table
    /\ resolve table "0.7.0" "x86_64-unknown-linux-gnu" = Some ("zip", "cccc").
Proof.
  apply (duplicate_rows_last_wins duplicate_file []
           ["0.7.0" +:+ String Py.tab "x86_64-pc-windows-msvc, zip, bbbb" +:+ Py.newline] []
           ("0.7.0" +:+ String Py.tab "x86_64-unknown-linux-gnu, tar.gz, aaaa" +:+ Py.newline)
           ("0.7.0" +:+ String Py.tab "x86_64-unknown-linux-gnu, zip, cccc" +:+ Py.newline)
           "0.7.0" "x86_64-unknown-linux-gnu" ("tar.gz", "aaaa") ("zip", "cccc")).
  - reflexivity.
  - repeat constructor.
  - reflexivity.
  - reflexivity.
  - reflexivity.
  - reflexivity.
  - intros y Hy. inversion Hy.
Defined.

(** C5, as the code has it.  The fields of a row are counted after the
    line has been stripped.  A file that contains a row which, stripped,
    is neither blank nor a comment and has the wrong field count does not
    load: the load fails with the error that names the line number of the
    first such row. *)
Theorem malformed_row_reported (versions_file : text_file) (lines : list string)
        (i : nat) (line : string) :
  tf_lines versions_file = Some lines ->
  lines !! i = Some line ->
  Format.malformed line = true ->
  exists j bad reason,
    (j <= i)%nat
    /\ lines !! j = Some bad
    /\ Format.malformed bad = true
    /\ (forall k l, (k < j)%nat -> lines !! k = Some l -> Format.malformed l = false)
    /\ load_platform_config versions_file
       = Raise (RuntimeError ("Error parsing VERSIONS.txt line "
                              +:+ Py.str_of_int (S j) +:+ ": " +:+ reason)).
Proof.
  intros Hlines Hi Hbad. unfold load_platform_config. rewrite Hlines.
  assert (Exists (fun l => Format.malformed l = true) lines) as Hex.
  { apply Exists_exists. exists line. split; [| exact Hbad].
    apply list_elem_of_lookup. eauto. }
  destruct (load_lines_first_malformed lines 1 ∅ Hex)
    as (j & bad & reason & Hj & Hm & Hfirst & Hload).
  exists j, bad, reason. repeat split; try assumption.
  destruct (le_lt_dec j i) as [Hle | Hlt]; [exact Hle |].
  rewrite (Hfirst i line Hlt Hi) in Hbad. discriminate.
Qed.

Lemma malformed_row_reported_witness :
  exists j bad reason,
    (j <= 2)%nat
    /\ default [] (tf_lines broken_file) !! j = Some bad
    /\ Format.malformed bad = true
    /\ (forall k l, (k < j)%nat -> default [] (tf_lines broken_file) !! k = Some l ->
                    Format.malformed l = false)
    /\ load_platform_config broken_file
       = Raise (RuntimeError ("Error parsing VERSIONS.txt line "
                              +:+ Py.str_of_int (S j) +:+ ": " +:+ reason)).
Proof.
  apply (malformed_row_reported broken_file (default [] (tf_lines broken_file)) 2
           ("0.7.0" +:+ String Py.tab "x86_64-pc-windows-msvc, zip" +:+ Py.newline)).
  - reflexivity.
  - reflexivity.
  - reflexivity.
Defined.

(** C5, as the specification states it, fails: a row that ends in a tab
    has three tab-separated fields as written, yet the loader strips the
    line before it counts, and the file loads with the row as a record. *)
Lemma row_with_trailing_tab_loads :
  ~ miscounted_rows_reported padded_file
  /\ miscounted_as_written
       ("0.7.0" +:+ String Py.tab "x86_64-unknown-linux-gnu, tar.gz, aaaa"
          +:+ String Py.tab Py.newline) = true
  /\ exists config,
       load_platform_config padded_file = Ok config
       /\ resolve config "0.7.0" "x86_64-unknown-linux-gnu" = Some ("tar.gz", "aaaa").
Proof.
  assert (exists config,
             load_platform_config padded_file = Ok config
             /\ resolve config "0.7.0" "x86_64-unknown-linux-gnu" = Some ("tar.gz", "aaaa"))
    as Hloaded by (eexists; split; reflexivity).
  split; [| split; [reflexivity | exact Hloaded]].
  intros Hclaim. destruct Hloaded as (config & Hok & _).
  destruct (Hclaim _ 0%nat _ eq_refl eq_refl eq_refl) as (j & bad & reason & _ & _ & Hload).
  rewrite Hok in Hload. discriminate Hload.
Qed.

Example broken_file_error :
  load_platform_config broken_file
  = Raise (RuntimeError
             "Error parsing VERSIONS.txt line 3: Expected format: platform, ext, hash").
Proof. vm_compute. reflexivity. Qed.

(** ** The file system *)

Lemma fold_insert_dir_lookup (dirs : list (list string)) (f : fs_map) (q : list string) :
  fold_right (fun d m => <[d := Dir]> m) f dirs !! q
  = if decide (q ∈ dirs) then Some Dir else f !! q.
Proof.
  induction dirs as [|d dirs IH]; simpl.
  - destruct (decide (q ∈ [])) as [Hin | _]; [| reflexivity].
    exfalso. revert Hin. apply not_elem_of_nil.
  - rewrite lookup_insert, IH.
    destruct (decide (d = q)) as [-> | Hne].
    + destruct (decide (q ∈ q :: dirs)) as [_ | Hnin]; [reflexivity |].
      exfalso. apply Hnin. left.
    + destruct (decide (q ∈ dirs)) as [Hin | Hnin];
        destruct (decide (q ∈ d :: dirs)) as [Hin' | Hnin']; try reflexivity.
      * exfalso. apply Hnin'. right. exact Hin.
      * exfalso. apply elem_of_cons in Hin' as [-> | Hin']; [congruence | auto].
Qed.

Lemma make_dirs_lookup (p : list string) (f : fs_map) (q : list string) :
  make_dirs p f !! q = if decide (q ∈ Path.ancestors p) then Some Dir else f !! q.
Proof. apply fold_insert_dir_lookup. Qed.

Lemma ancestors_prefix (p q : list string) : q ∈ Path.ancestors p -> q `prefix_of` p.
Proof.
  unfold Path.ancestors. intros Hin.
  apply list_elem_of_fmap in Hin as (n & -> & _). apply prefix_take.
Qed.

Lemma rmtree_lookup (tmp : list string) (f : fs_map) (k : list string) :
  rmtree tmp f !! k = if decide (tmp `prefix_of` k) then None else f !! k.
Proof.
  unfold rmtree. rewrite map_lookup_filter.
  destruct (f !! k) as [n|]; simpl.
  - destruct (decide (tmp `prefix_of` k)) as [Hp | Hp].
    + rewrite option_guard_False; [reflexivity | tauto].
    + rewrite option_guard_True; [reflexivity | exact Hp].
  - destruct (decide (tmp `prefix_of` k)); reflexivity.
Qed.

Lemma fresh_dir_lookup (tmp : list string) (f : fs_map) (k : list string) :
  fresh_dir tmp f = true -> tmp `prefix_of` k -> f !! k = None.
Proof.
  unfold fresh_dir. intros Hf Hp. apply bool_decide_eq_true in Hf.
  destruct (f !! k) as [n|] eqn:Hk; [| reflexivity].
  exfalso. exact (Hf k n Hk Hp).
Qed.

(** Removing a fresh directory undoes whatever happened below it. *)
Lemma rmtree_restore (tmp : list string) (f f' : fs_map) :
  fresh_dir tmp f = true ->
  (forall k, ¬ tmp `prefix_of` k -> f' !! k = f !! k) ->
  rmtree tmp f' = f.
Proof.
  intros Hfresh Hsame. apply map_eq. intros k. rewrite rmtree_lookup.
  destruct (decide (tmp `prefix_of` k)) as [Hp | Hp].
  - symmetry. apply (fresh_dir_lookup tmp f k Hfresh Hp).
  - apply Hsame. exact Hp.
Qed.

Lemma fresh_dir_make_dirs (tmp p : list string) (f : fs_map) :
  fresh_dir tmp (make_dirs p f) = true -> fresh_dir tmp f = true.
Proof.
  unfold fresh_dir. intros Hf. apply bool_decide_eq_true in Hf.
  apply bool_decide_eq_true. intros k n Hk.
  destruct (decide (k ∈ Path.ancestors p)) as [Hin | Hnin].
  - apply (Hf k Dir). rewrite make_dirs_lookup, decide_True; [reflexivity | exact Hin].
  - apply (Hf k n). rewrite make_dirs_lookup, decide_False; [exact Hk | exact Hnin].
Qed.

(** ** Archive names *)

Lemma endswith_refl s : Py.endswith s s = true.
Proof. destruct s; simpl; [reflexivity |]. rewrite Ascii.eqb_refl, String.eqb_refl. reflexivity. Qed.

Lemma endswith_slice i : forall s, Py.endswith s (Py.slice_from i s) = true.
Proof.
  induction i as [|i IH]; intros s.
  - simpl. destruct s; apply endswith_refl.
  - destruct s as [|c s]; [reflexivity |].
    change (Py.slice_from (S i) (String c s)) with (Py.slice_from i s).
    change (Py.endswith (String c s) (Py.slice_from i s))
      with (if String.eqb (String c s) (Py.slice_from i s) then true
            else Py.endswith s (Py.slice_from i s)).
    rewrite IH. destruct (String.eqb (String c s) (Py.slice_from i s)); reflexivity.
Qed.

(** A non-empty [suffix] is the end of the name. *)
Lemma suffix_endswith (p : list string) (s : string) :
  Path.suffix p = s -> s <> EmptyString -> Py.endswith (Path.name p) s = true.
Proof.
  unfold Path.suffix. intros Hs Hne.
  destruct (Py.rfind "." (Path.name p)) as [i|]; [| congruence].
  destruct ((0 <? i) && (i <? String.length (Path.name p) - 1)); [| congruence].
  subst s. apply endswith_slice.
Qed.

(** C7. Extraction is attempted only for a file whose name ends in
    [.zip] or in [.tar.gz]: for any other name, a bare [.gz] or a name
    without a suffix included, [extract_archive] raises the error
    "Unsupported archive format" and writes nothing. *)
Theorem unsupported_suffix_rejected (unzip untar_gz : list byte -> extraction)
        (archive_path extract_to : list string) (w : world) :
  Py.endswith (Path.name archive_path) ".zip" = false ->
  Py.endswith (Path.name archive_path) ".tar.gz" = false ->
  extract_archive unzip untar_gz archive_path extract_to w
  = (Raise (RuntimeError ("Unsupported archive format: " +:+ Path.str archive_path)),
     mk_world (fs w)
              (trace w ++ [Printed ("Extracting " +:+ Path.str archive_path +:+ " to "
                                  +:+ Path.str extract_to +:+ "...")])).
Proof.
  intros Hzip Htar. unfold extract_archive, bind, print. simpl.
  destruct (String.eqb (Path.suffix archive_path) ".zip") eqn:Hs.
  - apply String.eqb_eq in Hs.
    rewrite (suffix_endswith archive_path ".zip" Hs) in Hzip; discriminate.
  - rewrite Htar, andb_false_r. reflexivity.
Qed.

Lemma unsupported_suffix_rejected_witness :
  extract_archive (fun _ => Build_extraction [] None) (fun _ => Build_extraction [] None)
                  ["tmp"; "tmpk3"; "aic-sdk.gz"] ["sdk"] (mk_world ∅ [])
  = (Raise (RuntimeError "Unsupported archive format: /tmp/tmpk3/aic-sdk.gz"),
     mk_world ∅ [Printed "Extracting /tmp/tmpk3/aic-sdk.gz to /sdk..."]).
Proof.
  apply (unsupported_suffix_rejected _ _ ["tmp"; "tmpk3"; "aic-sdk.gz"] ["sdk"]
           (mk_world ∅ [])).
  - reflexivity.
  - reflexivity.
Defined.

Example missing_suffix_rejected :
  (extract_archive (fun _ => Build_extraction [] None) (fun _ => Build_extraction [] None)
                   ["tmp"; "archive"] ["sdk"] (mk_world ∅ [])).1
  = Raise (RuntimeError "Unsupported archive format: /tmp/archive").
Proof. reflexivity. Qed.

Lemma calculate_file_hash_spec (file_path : list string) (content : list byte)
      (w : world) :
  fs w !! file_path = Some (File content) ->
  calculate_file_hash file_path w = (Ok (SHA256.sha256_hex content), w).
Proof.
  intros Hfile. unfold calculate_file_hash. rewrite Hfile.
  rewrite hash_chunks_digest by (unfold read_size; lia).
  rewrite SHA256_facts.hexdigest_one_pass. reflexivity.
Qed.

(** C10. The hash that [calculate_file_hash] computes by reading the file
    in chunks of 4096 bytes and updating a running SHA-256 object is the
    SHA-256 digest of the whole content; the same holds for any other way
    of cutting the content into chunks. *)
Theorem chunked_hash_is_one_pass_hash (file_path : list string) (content : list byte)
        (w : world) :
  fs w !! file_path = Some (File content) ->
  calculate_file_hash file_path w = (Ok (SHA256.sha256_hex content), w)
  /\ SHA256.hexdigest (SHA256.update SHA256.new content) = SHA256.sha256_hex content
  /\ (forall size, (0 < size)%nat ->
        SHA256.hexdigest (hash_chunks size content SHA256.new) = SHA256.sha256_hex content)
  /\ (forall chunks, concat chunks = content ->
        SHA256.hexdigest (fold_left SHA256.update chunks SHA256.new)
        = SHA256.sha256_hex content).
Proof.
  intros Hfile. repeat split.
  - apply calculate_file_hash_spec. exact Hfile.
  - apply SHA256_facts.hexdigest_one_pass.
  - intros size Hsize. rewrite hash_chunks_digest by exact Hsize.
    apply SHA256_facts.hexdigest_one_pass.
  - intros chunks <-. rewrite SHA256_facts.hexdigest_fold_update.
    apply SHA256_facts.hexdigest_one_pass.
Qed.

Lemma chunked_hash_is_one_pass_hash_witness :
  calculate_file_hash ["tmp"; "hello.bin"] hello_world
  = (Ok (SHA256.sha256_hex (bytes_of_string "hello")), hello_world).
Proof.
  apply (chunked_hash_is_one_pass_hash ["tmp"; "hello.bin"] (bytes_of_string "hello")
           hello_world).
  reflexivity.
Defined.

(** Reads of three bytes over a message that spans several blocks. *)
Example chunked_hash_three_by_three :
  SHA256.hexdigest (hash_chunks 3 (repeat "a"%byte 200) SHA256.new)
  = "c2a908d98f5df987ade41b5fce213067efbcc21ef2240212a41e54b5e7c28ae5".
Proof. vm_compute. reflexivity. Qed.

(** ** Claims on the pipeline *)

Lemma not_found_messages_differ (version platform_triplet file_name : string) :
  "Version " +:+ version +:+ " not found in " +:+ file_name
  <> "Platform " +:+ platform_triplet +:+ " not supported for version " +:+ version.
Proof. discriminate. Qed.

Lemma write_file_inv (p : list string) (content : list byte) (f f' : fs_map) :
  write_file p content f = Ok f' -> f' = <[p := File content]> f.
Proof.
  unfold write_file. destruct (is_dir f p); [discriminate |].
  destruct (is_dir f (Path.parent p)); [| discriminate]. intros [= <-]. reflexivity.
Qed.

(** A file directly inside a directory that was just created fresh can be
    written. *)
Lemma write_file_in_fresh_dir (tmp : list string) (name : string) (content : list byte)
      (f : fs_map) :
  fresh_dir tmp f = true ->
  write_file (tmp ++ [name]) content (<[tmp := Dir]> f)
  = Ok (<[tmp ++ [name] := File content]> (<[tmp := Dir]> f)).
Proof.
  intros Hfresh. unfold write_file.
  assert (is_dir (<[tmp := Dir]> f) (tmp ++ [name]) = false) as ->.
  { unfold is_dir. destruct (tmp ++ [name]) as [|c rest] eqn:E.
    - destruct tmp; discriminate.
    - rewrite <- E. rewrite lookup_insert_ne.
      + rewrite (fresh_dir_lookup tmp f (tmp ++ [name]) Hfresh); [reflexivity |].
        apply prefix_app_r. reflexivity.
      + intros Heq. apply (f_equal length) in Heq. rewrite length_app in Heq.
        simpl in Heq. lia. }
  unfold Path.parent. rewrite removelast_last.
  assert (is_dir (<[tmp := Dir]> f) tmp = true) as ->; [| reflexivity].
  unfold is_dir. destruct tmp; [reflexivity |]. rewrite lookup_insert_eq. reflexivity.
Qed.

Section Steps.

Variable urlopen : string -> string + list byte.
Variable unzip : list byte -> extraction.
Variable untar_gz : list byte -> extraction.
Variable mkdtemp : gmap (list string) node -> list string.

(** What a call of [download_file] can do: it asks for [url] once, it
    touches no path but [dest_path], and its error is neither of the
    two errors of the later steps. *)
Lemma download_file_spec (url : string) (dest_path : list string) (w w' : world)
      (r : result unit) :
  download_file urlopen url dest_path w = (r, w') ->
  (exists ps, trace w' = trace w ++ Printed ("Downloading " +:+ url +:+ "...")
                                 :: UrlRetrieve url :: ps
              /\ Forall is_print ps)
  /\ (forall k, k <> dest_path -> fs w' !! k = fs w !! k)
  /\ (forall e, r = Raise e ->
         is_integrity_error e = false /\ is_unsupported_format_error e = false).
Proof.
  unfold download_file, try_except, urlretrieve, bind, print. simpl.
  destruct (urlopen url) as [err | body].
  - intros [= <- <-]. simpl. split; [| split].
    + exists []. rewrite <- app_assoc. split; [reflexivity | constructor].
    + reflexivity.
    + intros e [= <-]. split; reflexivity.
  - destruct (write_file dest_path body (fs w)) as [f' | e'] eqn:Hw.
    + apply write_file_inv in Hw. subst f'.
      intros [= <- <-]. simpl. split; [| split].
      * exists [Printed ("Downloaded to " +:+ Path.str dest_path)].
        rewrite <- !app_assoc. split; [reflexivity |]. repeat constructor.
      * intros k Hk. rewrite lookup_insert_ne by congruence. reflexivity.
      * intros e He; discriminate.
    + intros [= <- <-]. simpl. split; [| split].
      * exists []. rewrite <- app_assoc. split; [reflexivity | constructor].
      * reflexivity.
      * intros e [= <-]. split; reflexivity.
Qed.

Lemma download_file_ok (url : string) (dest_path : list string) (body : list byte)
      (f' : fs_map) (w : world) :
  urlopen url = inr body ->
  write_file dest_path body (fs w) = Ok f' ->
  download_file urlopen url dest_path w
  = (Ok tt, mk_world f' (trace w ++ [Printed ("Downloading " +:+ url +:+ "...");
                                     UrlRetrieve url;
                                     Printed ("Downloaded to " +:+ Path.str dest_path)])).
Proof.
  intros Hopen Hwrite.
  unfold download_file, try_except, urlretrieve, bind, print. simpl.
  rewrite Hopen, Hwrite. simpl. rewrite <- !app_assoc. reflexivity.
Qed.

(** [verify_hash] leaves the file system alone and only prints. *)
Lemma verify_hash_spec (file_path : list string) (expected_hash : string) (w w' : world)
      (r : result unit) :
  verify_hash file_path expected_hash w = (r, w') ->
  fs w' = fs w /\ exists ps, trace w' = trace w ++ ps /\ Forall is_print ps.
Proof.
  unfold verify_hash, calculate_file_hash, bind, print, raise. simpl.
  destruct (fs w !! file_path) as [[|content]|].
  - intros [= <- <-]. simpl. split; [reflexivity |].
    eexists. split; [reflexivity |]. repeat constructor.
  - destruct (negb _).
    + intros [= <- <-]. simpl. split; [reflexivity |].
      eexists. split; [reflexivity |]. repeat constructor.
    + intros [= <- <-]. simpl. split; [reflexivity |].
      eexists. rewrite <- app_assoc. split; [reflexivity |]. repeat constructor.
  - intros [= <- <-]. simpl. split; [reflexivity |].
    eexists. split; [reflexivity |]. repeat constructor.
Qed.

Lemma verify_hash_mismatch (file_path : list string) (expected_hash : string)
      (content : list byte) (w : world) :
  fs w !! file_path = Some (File content) ->
  SHA256.sha256_hex content <> expected_hash ->
  verify_hash file_path expected_hash w
  = (Raise (RuntimeError ("Hash verification failed!" +:+ Py.newline
                          +:+ "Expected: " +:+ expected_hash +:+ Py.newline
                          +:+ "Actual:   " +:+ SHA256.sha256_hex content)),
     mk_world (fs w) (trace w ++ [Printed "Verifying SHA256 hash..."])).
Proof.
  intros Hfile Hne.
  unfold verify_hash, bind, print. simpl.
  pose proof (calculate_file_hash_spec file_path content
                (mk_world (fs w) (trace w ++ [Printed "Verifying SHA256 hash..."])) Hfile)
    as Hhash.
  rewrite Hhash.
  apply String.eqb_neq in Hne. rewrite Hne. reflexivity.
Qed.

End Steps.

Section Later_steps.

Variable unzip : list byte -> extraction.
Variable untar_gz : list byte -> extraction.

(** [extract_archive] only prints, and when it stops with the error of
    an unrecognised suffix nothing has been written. *)
Lemma extract_archive_spec (archive_path extract_to : list string) (w w' : world)
      (r : result unit) :
  extract_archive unzip untar_gz archive_path extract_to w = (r, w') ->
  (exists ps, trace w' = trace w ++ ps /\ Forall is_print ps)
  /\ (forall e, r = Raise e ->
        is_integrity_error e = true \/ is_unsupported_format_error e = true ->
        fs w' = fs w).
Proof.
  destruct w as [f t]. unfold extract_archive, read_file, extractall. run_step.
  destruct (String.eqb (Path.suffix archive_path) ".zip").
  - destruct (f !! archive_path) as [[|content]|].
    + intros [= <- <-]. simpl. split.
      * eexists. split; [reflexivity |]. repeat constructor.
      * intros e [= <-] [H | H]; discriminate.
    + destruct (failure (unzip content)).
      * intros [= <- <-]. simpl. split.
        -- eexists. split; [reflexivity |]. repeat constructor.
        -- intros e [= <-] [H | H]; discriminate.
      * intros [= <- <-]. simpl. split.
        -- eexists. rewrite <- app_assoc. split; [reflexivity |]. repeat constructor.
        -- intros e He; discriminate.
    + intros [= <- <-]. simpl. split.
      * eexists. split; [reflexivity |]. repeat constructor.
      * intros e [= <-] [H | H]; discriminate.
  - destruct (String.eqb (Path.suffix archive_path) ".gz"
              && Py.endswith (Path.name archive_path) ".tar.gz").
    + destruct (f !! archive_path) as [[|content]|].
      * intros [= <- <-]. simpl. split.
        -- eexists. split; [reflexivity |]. repeat constructor.
        -- intros e [= <-] [H | H]; discriminate.
      * destruct (failure (untar_gz content)).
        -- intros [= <- <-]. simpl. split.
           ++ eexists. split; [reflexivity |]. repeat constructor.
           ++ intros e [= <-] [H | H]; discriminate.
        -- intros [= <- <-]. simpl. split.
           ++ eexists. rewrite <- app_assoc. split; [reflexivity |]. repeat constructor.
           ++ intros e He; discriminate.
      * intros [= <- <-]. simpl. split.
        -- eexists. split; [reflexivity |]. repeat constructor.
        -- intros e [= <-] [H | H]; discriminate.
    + intros [= <- <-]. simpl. split.
      * eexists. split; [reflexivity |]. repeat constructor.
      * intros e _ _. reflexivity.
Qed.

End Later_steps.

(** The errors of the loader are neither of the two errors of the later
    steps. *)
Lemma load_lines_error lines : forall n config e,
  load_lines n lines config = Raise e ->
  is_integrity_error e = false /\ is_unsupported_format_error e = false.
Proof.
  induction lines as [|line lines IH]; intros n config e; simpl; [discriminate |].
  destruct (String.eqb (Py.strip line) EmptyString || Py.startswith (Py.strip line) "#").
  - apply IH.
  - destruct (parse_row (Py.strip line) config) as [config' | e'].
    + apply IH.
    + intros [= <-]. split; reflexivity.
Qed.

Lemma load_platform_config_error (versions_file : text_file) (e : exn) :
  load_platform_config versions_file = Raise e ->
  is_integrity_error e = false /\ is_unsupported_format_error e = false.
Proof.
  unfold load_platform_config. destruct (tf_lines versions_file) as [lines|].
  - apply load_lines_error.
  - intros [= <-]. split; reflexivity.
Qed.

(** C6. A request whose version is absent from the loaded table, or whose
    platform is absent under a present version, fails before anything is
    downloaded: nothing but the platform line has been printed, no URL
    has been asked for and the file system is as it was.  The two cases
    raise errors with different messages. *)
Theorem unlisted_request_fails (urlopen : string -> string + list byte)
        (unzip untar_gz : list byte -> extraction)
        (mkdtemp : gmap (list string) node -> list string)
        (version : string) (output_dir : list string) (platform_triplet : string)
        (versions_file : text_file) (config : version_table) (w : world) :
  load_platform_config versions_file = Ok config ->
  (config !! version = None ->
   download_aic_sdk urlopen unzip untar_gz mkdtemp version output_dir platform_triplet
                    versions_file w
   = (Raise (RuntimeError ("Version " +:+ version +:+ " not found in "
                           +:+ tf_name versions_file)),
      mk_world (fs w) (trace w ++ [Printed ("Platform: " +:+ platform_triplet)])))
  /\ (forall supported,
        config !! version = Some supported ->
        supported !! platform_triplet = None ->
        download_aic_sdk urlopen unzip untar_gz mkdtemp version output_dir platform_triplet
                         versions_file w
        = (Raise (RuntimeError ("Platform " +:+ platform_triplet
                                +:+ " not supported for version " +:+ version)),
           mk_world (fs w) (trace w ++ [Printed ("Platform: " +:+ platform_triplet)])))
  /\ "Version " +:+ version +:+ " not found in " +:+ tf_name versions_file
     <> "Platform " +:+ platform_triplet +:+ " not supported for version " +:+ version.
Proof.
  intros Hload. split; [| split].
  - intros Hv. unfold download_aic_sdk, bind, print, lift. simpl.
    rewrite Hload, Hv. reflexivity.
  - intros supported Hv Hp. unfold download_aic_sdk, bind, print, lift. simpl.
    rewrite Hload, Hv, Hp. reflexivity.
  - apply not_found_messages_differ.
Qed.

Section Whole_run.

Variable urlopen : string -> string + list byte.
Variable unzip : list byte -> extraction.
Variable untar_gz : list byte -> extraction.
Variable mkdtemp : gmap (list string) node -> list string.

(** The three steps inside the [with] block. *)
Lemma with_block_spec (url : string) (temp_path : list string) (expected_hash : string)
      (output_dir : list string) (w w' : world) (r : result unit) :
  (download_file urlopen url temp_path;;
   verify_hash temp_path expected_hash;;
   extract_archive unzip untar_gz temp_path output_dir) w = (r, w') ->
  (exists ps, trace w' = trace w ++ Printed ("Downloading " +:+ url +:+ "...")
                                 :: UrlRetrieve url :: ps
              /\ Forall is_print ps)
  /\ (forall e, r = Raise e ->
         is_integrity_error e = true \/ is_unsupported_format_error e = true ->
         forall k, k <> temp_path -> fs w' !! k = fs w !! k).
Proof.
  unfold bind at 1.
  destruct (download_file urlopen url temp_path w) as [r1 w1] eqn:Hd.
  apply download_file_spec in Hd as ((ps1 & Ht1 & Hp1) & Hf1 & He1).
  destruct r1 as [[] | e1].
  - unfold bind at 1.
    destruct (verify_hash temp_path expected_hash w1) as [r2 w2] eqn:Hv.
    apply verify_hash_spec in Hv as (Hf2 & ps2 & Ht2 & Hp2).
    destruct r2 as [[] | e2].
    + intros Hx. apply extract_archive_spec in Hx as ((ps3 & Ht3 & Hp3) & Hf3).
      split.
      * exists (ps1 ++ ps2 ++ ps3). split.
        -- rewrite Ht3, Ht2, Ht1. rewrite <- !app_assoc. reflexivity.
        -- repeat (apply Forall_app; split); assumption.
      * intros e He Hclass k Hk. rewrite (Hf3 e He Hclass), Hf2. apply Hf1. exact Hk.
    + intros [= <- <-]. split.
      * exists (ps1 ++ ps2). split.
        -- rewrite Ht2, Ht1. rewrite <- !app_assoc. reflexivity.
        -- apply Forall_app; split; assumption.
      * intros e _ _ k Hk. rewrite Hf2. apply Hf1. exact Hk.
  - intros [= <- <-]. split.
    + exists ps1. split; assumption.
    + intros e He [Hc | Hc]; destruct (He1 e He) as [H1 H2]; congruence.
Qed.

(** [download_aic_sdk], one branch per way out of the steps it runs
    before and after the [with] block. *)
Lemma download_aic_sdk_unfold (version : string) (output_dir : list string)
      (platform_triplet : string) (versions_file : text_file) (w : world) :
  download_aic_sdk urlopen unzip untar_gz mkdtemp version output_dir platform_triplet
                   versions_file w
  = let t1 := trace w ++ [Printed ("Platform: " +:+ platform_triplet)] in
    match load_platform_config versions_file with
    | Raise e => (Raise e, mk_world (fs w) t1)
    | Ok config =>
        match config !! version with
        | None =>
            (Raise (RuntimeError ("Version " +:+ version +:+ " not found in "
                                  +:+ tf_name versions_file)), mk_world (fs w) t1)
        | Some supported =>
            match supported !! platform_triplet with
            | None =>
                (Raise (RuntimeError ("Platform " +:+ platform_triplet
                                      +:+ " not supported for version " +:+ version)),
                 mk_world (fs w) t1)
            | Some value =>
                let filename := archive_filename platform_triplet version value.1 in
                let url := download_url version filename in
                let t2 := t1 ++ [Printed ("Download URL: " +:+ url)] in
                if existsb (is_file (fs w)) (Path.ancestors output_dir) then
                  (Raise (OSError ("[Errno 17] File exists: " +:+ Path.str output_dir)),
                   mk_world (fs w) t2)
                else
                  let after :=
                    with_TemporaryDirectory mkdtemp (fun temp_dir =>
                      download_file urlopen url (Path.join temp_dir filename);;
                      verify_hash (Path.join temp_dir filename) value.2;;
                      extract_archive unzip untar_gz (Path.join temp_dir filename)
                                      output_dir)
                      (mk_world (make_dirs output_dir (fs w)) t2) in
                  match after.1 with
                  | Ok _ =>
                      (Ok tt,
                       mk_world (fs after.2)
                         (trace after.2
                          ++ [Printed ("AIC SDK " +:+ version
                                     +:+ " successfully downloaded and extracted to "
                                     +:+ Path.str output_dir)]))
                  | Raise e => (Raise e, after.2)
                  end
            end
        end
    end.
Proof.
  unfold download_aic_sdk. unfold bind at 1 2. unfold print at 1, lift. simpl.
  destruct (load_platform_config versions_file) as [config | e]; [| reflexivity].
  destruct (config !! version) as [supported|]; [| reflexivity].
  destruct (supported !! platform_triplet) as [[archive_ext expected_hash]|];
    [| reflexivity].
  unfold bind at 1 2. unfold print at 1. unfold mkdir_parents at 1. simpl.
  destruct (existsb (is_file (fs w)) (Path.ancestors output_dir)); [reflexivity |].
  unfold bind at 1.
  match goal with
  | |- context [with_TemporaryDirectory mkdtemp ?body ?w0] =>
      destruct (with_TemporaryDirectory mkdtemp body w0) as [[[] | e] w1]
  end; reflexivity.
Qed.

End Whole_run.

(** C8. However [download_aic_sdk] ends, with success or with an error of
    any step, nothing is left at or below the temporary directory. *)
Theorem temporary_directory_removed (urlopen : string -> string + list byte)
        (unzip untar_gz : list byte -> extraction)
        (mkdtemp : gmap (list string) node -> list string)
        (version : string) (output_dir : list string) (platform_triplet : string)
        (versions_file : text_file) (w : world) :
  fresh_dir (mkdtemp (make_dirs output_dir (fs w))) (make_dirs output_dir (fs w)) = true ->
  forall p : list string,
    mkdtemp (make_dirs output_dir (fs w)) `prefix_of` p ->
    fs (download_aic_sdk urlopen unzip untar_gz mkdtemp version output_dir platform_triplet
                         versions_file w).2 !! p = None.
Proof.
  intros Hfresh p Hp.
  pose proof (fresh_dir_lookup _ _ p (fresh_dir_make_dirs _ _ _ Hfresh) Hp) as Hbefore.
  rewrite download_aic_sdk_unfold. cbv zeta.
  destruct (load_platform_config versions_file) as [config | e]; [| exact Hbefore].
  destruct (config !! version) as [supported|]; [| exact Hbefore].
  destruct (supported !! platform_triplet) as [[archive_ext expected_hash]|];
    [| exact Hbefore].
  destruct (existsb (is_file (fs w)) (Path.ancestors output_dir)); [exact Hbefore |].
  unfold with_TemporaryDirectory. cbn [fs trace].
  match goal with |- context [bind ?m ?k ?w0] => destruct (bind m k w0) as [r w1] end.
  destruct r as [[] | e]; cbn [fst snd fs];
    rewrite rmtree_lookup, decide_True by exact Hp; reflexivity.
Qed.

Lemma join_from_root (p : list string) (s : string) : Path.join p s = p ++ Path.join [] s.
Proof. reflexivity. Qed.

Lemma join_under (p : list string) (s : string) : p `prefix_of` Path.join p s.
Proof. unfold Path.join. apply prefix_app_r. reflexivity. Qed.

(** C1. When the archive is downloaded and its SHA-256 differs from the
    checksum that the table records for the requested version and
    platform, [download_aic_sdk] raises the error "Hash verification
    failed!", whose message shows the expected and the actual hash.  The
    run stops after the line "Verifying SHA256 hash...": the extraction
    step is not entered and nothing is extracted. *)
Theorem checksum_mismatch_stops_fetch (urlopen : string -> string + list byte)
        (unzip untar_gz : list byte -> extraction)
        (mkdtemp : gmap (list string) node -> list string)
        (version : string) (output_dir : list string) (platform_triplet : string)
        (versions_file : text_file) (config : version_table)
        (supported : gmap string (string * string)) (archive_ext expected_hash : string)
        (name : string) (body : list byte) (w : world) :
  load_platform_config versions_file = Ok config ->
  config !! version = Some supported ->
  supported !! platform_triplet = Some (archive_ext, expected_hash) ->
  existsb (is_file (fs w)) (Path.ancestors output_dir) = false ->
  fresh_dir (mkdtemp (make_dirs output_dir (fs w))) (make_dirs output_dir (fs w)) = true ->
  Path.join [] (archive_filename platform_triplet version archive_ext) = [name] ->
  urlopen (download_url version (archive_filename platform_triplet version archive_ext))
  = inr body ->
  SHA256.sha256_hex body <> expected_hash ->
  let url := download_url version (archive_filename platform_triplet version archive_ext) in
  let temp_path := mkdtemp (make_dirs output_dir (fs w)) ++ [name] in
  download_aic_sdk urlopen unzip untar_gz mkdtemp version output_dir platform_triplet
                   versions_file w
  = (Raise (RuntimeError ("Hash verification failed!" +:+ Py.newline
                          +:+ "Expected: " +:+ expected_hash +:+ Py.newline
                          +:+ "Actual:   " +:+ SHA256.sha256_hex body)),
     mk_world (make_dirs output_dir (fs w))
              (trace w ++ [Printed ("Platform: " +:+ platform_triplet);
                           Printed ("Download URL: " +:+ url);
                           Printed ("Downloading " +:+ url +:+ "...");
                           UrlRetrieve url;
                           Printed ("Downloaded to " +:+ Path.str temp_path);
                           Printed "Verifying SHA256 hash..."])).
Proof.
  intros Hload Hv Hp Hmk Hfresh Hname Hopen Hne url temp_path.
  rewrite download_aic_sdk_unfold. cbv zeta. rewrite Hload, Hv, Hp, Hmk.
  cbn [fst snd]. fold url.
  set (f1 := make_dirs output_dir (fs w)) in *.
  set (tmp := mkdtemp f1) in *.
  match goal with
  | |- context [with_TemporaryDirectory mkdtemp ?b ?w0] =>
      assert (with_TemporaryDirectory mkdtemp b w0
              = (Raise (RuntimeError ("Hash verification failed!" +:+ Py.newline
                                      +:+ "Expected: " +:+ expected_hash +:+ Py.newline
                                      +:+ "Actual:   " +:+ SHA256.sha256_hex body)),
                 mk_world f1
                   (trace w ++ [Printed ("Platform: " +:+ platform_triplet);
                                Printed ("Download URL: " +:+ url);
                                Printed ("Downloading " +:+ url +:+ "...");
                                UrlRetrieve url;
                                Printed ("Downloaded to " +:+ Path.str temp_path);
                                Printed "Verifying SHA256 hash..."]))) as Hafter
  end.
  { unfold with_TemporaryDirectory. cbn [fs trace]. fold tmp.
    rewrite (join_from_root tmp), Hname. fold temp_path.
    unfold bind at 1.
    rewrite (download_file_ok urlopen url temp_path body
               (<[temp_path := File body]> (<[tmp := Dir]> f1))
               (mk_world (<[tmp := Dir]> f1) _) Hopen
               (write_file_in_fresh_dir tmp name body f1 Hfresh)).
    unfold bind at 1.
    rewrite (verify_hash_mismatch temp_path expected_hash body);
      [| apply lookup_insert_eq | exact Hne].
    cbn [fst snd fs trace].
    f_equal. f_equal.
    - apply rmtree_restore; [exact Hfresh |].
      intros k Hk. rewrite !lookup_insert_ne; [reflexivity | |].
      + intros <-. apply Hk. reflexivity.
      + intros <-. apply Hk. apply prefix_app_r. reflexivity.
    - rewrite <- !app_assoc. reflexivity. }
  rewrite Hafter. reflexivity.
Qed.

Lemma checksum_mismatch_stops_fetch_witness :
  Demo.fetch "1.0.0" "x86_64-pc-windows-msvc" Demo.start
  = (Raise (RuntimeError ("Hash verification failed!" +:+ Py.newline
                          +:+ "Expected: " +:+ "0000" +:+ Py.newline
                          +:+ "Actual:   " +:+ SHA256.sha256_hex Demo.hello)),
     mk_world (make_dirs Demo.out ∅)
       ([] ++ [Printed ("Platform: " +:+ "x86_64-pc-windows-msvc");
               Printed ("Download URL: "
                      +:+ download_url "1.0.0"
                            (archive_filename "x86_64-pc-windows-msvc" "1.0.0" "zip"));
               Printed ("Downloading "
                      +:+ download_url "1.0.0"
                            (archive_filename "x86_64-pc-windows-msvc" "1.0.0" "zip")
                      +:+ "...");
               UrlRetrieve (download_url "1.0.0"
                              (archive_filename "x86_64-pc-windows-msvc" "1.0.0" "zip"));
               Printed ("Downloaded to "
                      +:+ Path.str (["tmp"; "tmpq3k8xw"]
                                    ++ ["aic-sdk-x86_64-pc-windows-msvc-1.0.0.zip"]));
               Printed "Verifying SHA256 hash..."])).
Proof.
  apply (checksum_mismatch_stops_fetch Demo.urlopen Demo.unpack Demo.unpack Demo.mkdtemp
           "1.0.0" Demo.out "x86_64-pc-windows-msvc" Demo.versions Demo.table
           Demo.supported "zip" "0000" "aic-sdk-x86_64-pc-windows-msvc-1.0.0.zip"
           Demo.hello Demo.start).
  - reflexivity.
  - reflexivity.
  - reflexivity.
  - reflexivity.
  - reflexivity.
  - reflexivity.
  - reflexivity.
  - intros H. vm_compute in H. discriminate H.
Defined.

Lemma unlisted_request_fails_witness :
  (Demo.table !! "9.9.9" = None ->
   Demo.fetch "9.9.9" "x86_64-unknown-linux-gnu" Demo.start
   = (Raise (RuntimeError ("Version " +:+ "9.9.9" +:+ " not found in "
                           +:+ tf_name Demo.versions)),
      mk_world ∅ ([] ++ [Printed ("Platform: " +:+ "x86_64-unknown-linux-gnu")])))
  /\ (forall supported,
        Demo.table !! "9.9.9" = Some supported ->
        supported !! "x86_64-unknown-linux-gnu" = None ->
        Demo.fetch "9.9.9" "x86_64-unknown-linux-gnu" Demo.start
        = (Raise (RuntimeError ("Platform " +:+ "x86_64-unknown-linux-gnu"
                                +:+ " not supported for version " +:+ "9.9.9")),
           mk_world ∅ ([] ++ [Printed ("Platform: " +:+ "x86_64-unknown-linux-gnu")])))
  /\ "Version " +:+ "9.9.9" +:+ " not found in " +:+ tf_name Demo.versions
     <> "Platform " +:+ "x86_64-unknown-linux-gnu" +:+ " not supported for version "
        +:+ "9.9.9".
Proof.
  apply (unlisted_request_fails Demo.urlopen Demo.unpack Demo.unpack Demo.mkdtemp
           "9.9.9" Demo.out "x86_64-unknown-linux-gnu" Demo.versions Demo.table
           Demo.start).
  reflexivity.
Defined.

(** The two scenarios of a request that is not listed, evaluated. *)
Example unlisted_version :
  (Demo.fetch "9.9.9" "x86_64-unknown-linux-gnu" Demo.start).1
  = Raise (RuntimeError "Version 9.9.9 not found in VERSIONS.txt").
Proof. vm_compute. reflexivity. Qed.

Example unlisted_platform :
  (Demo.fetch "1.0.0" "riscv64-unknown-linux-gnu" Demo.start).1
  = Raise (RuntimeError
             "Platform riscv64-unknown-linux-gnu not supported for version 1.0.0").
Proof. vm_compute. reflexivity. Qed.

Lemma temporary_directory_removed_witness :
  fs (Demo.fetch "1.0.0" "x86_64-unknown-linux-gnu" Demo.start).2
    !! ["tmp"; "tmpq3k8xw"; "aic-sdk-x86_64-unknown-linux-gnu-1.0.0.tar.gz"] = None.
Proof.
  apply (temporary_directory_removed Demo.urlopen Demo.unpack Demo.unpack Demo.mkdtemp
           "1.0.0" Demo.out "x86_64-unknown-linux-gnu" Demo.versions Demo.start).
  - reflexivity.
  - exists ["aic-sdk-x86_64-unknown-linux-gnu-1.0.0.tar.gz"]. reflexivity.
Defined.

(** A successful run, evaluated: the archive is in the output directory,
    the temporary directory is gone. *)
Example successful_run :
  let w := (Demo.fetch "1.0.0" "x86_64-unknown-linux-gnu" Demo.start).2 in
  fs w !! ["build"; "sdk"; "lib"; "libaic.a"] = Some (File Demo.hello)
  /\ fs w !! ["tmp"; "tmpq3k8xw"] = None
  /\ fs w !! ["tmp"; "tmpq3k8xw"; "aic-sdk-x86_64-unknown-linux-gnu-1.0.0.tar.gz"] = None.
Proof. vm_compute. repeat split. Qed.

(** ** The output directory after a failed run *)

Lemma no_file_among (f : fs_map) (dirs : list (list string)) (p : list string) (n : node) :
  existsb (is_file f) dirs = false -> p ∈ dirs -> f !! p = Some n -> n = Dir.
Proof.
  intros Hex Hin Hp.
  destruct n as [|content]; [reflexivity |].
  assert (existsb (is_file f) dirs = true) as Htrue; [| congruence].
  apply existsb_exists. exists p. split.
  - apply list_elem_of_In. exact Hin.
  - unfold is_file. rewrite Hp. reflexivity.
Qed.

(** C3, as the code has it.  When [download_aic_sdk] fails with the
    checksum error or with the unsupported-format error, nothing has been
    extracted and nothing temporary is left: the file system is the one
    before the call with the output directory (and the directories above
    it) created where they were missing.  Whatever existed before is
    unchanged, and every path other than the output directory and the
    directories above it is as it was. *)
Theorem failed_fetch_extracts_nothing (urlopen : string -> string + list byte)
        (unzip untar_gz : list byte -> extraction)
        (mkdtemp : gmap (list string) node -> list string)
        (version : string) (output_dir : list string) (platform_triplet : string)
        (versions_file : text_file) (w w' : world) (e : exn) :
  fresh_dir (mkdtemp (make_dirs output_dir (fs w))) (make_dirs output_dir (fs w)) = true ->
  download_aic_sdk urlopen unzip untar_gz mkdtemp version output_dir platform_triplet
                   versions_file w = (Raise e, w') ->
  is_integrity_error e = true \/ is_unsupported_format_error e = true ->
  fs w' = make_dirs output_dir (fs w)
  /\ (forall p, p ∈ Path.ancestors output_dir -> fs w' !! p = Some Dir)
  /\ (forall p, p ∉ Path.ancestors output_dir -> fs w' !! p = fs w !! p)
  /\ (forall p n, fs w !! p = Some n -> fs w' !! p = Some n).
Proof.
  intros Hfresh Hrun Hclass.
  rewrite download_aic_sdk_unfold in Hrun. cbv zeta in Hrun.
  destruct (load_platform_config versions_file) as [config | e0] eqn:Hload.
  2: { injection Hrun as <- <-.
       destruct (load_platform_config_error _ _ Hload) as [H1 H2].
       destruct Hclass; congruence. }
  destruct (config !! version) as [supported|].
  2: { injection Hrun as <- <-. destruct Hclass as [H | H]; discriminate H. }
  destruct (supported !! platform_triplet) as [[archive_ext expected_hash]|].
  2: { injection Hrun as <- <-. destruct Hclass as [H | H]; discriminate H. }
  destruct (existsb (is_file (fs w)) (Path.ancestors output_dir)) eqn:Hmk.
  { injection Hrun as <- <-. destruct Hclass as [H | H]; discriminate H. }
  cbn [fst snd] in Hrun.
  set (f1 := make_dirs output_dir (fs w)) in *.
  set (tmp := mkdtemp f1) in *.
  assert (fs w' = f1) as Hfs.
  { unfold with_TemporaryDirectory in Hrun. cbn [fs trace] in Hrun. fold tmp in Hrun.
    match type of Hrun with
    | context [bind ?m ?k ?w0] => destruct (bind m k w0) as [r wb] eqn:Hb
    end.
    apply with_block_spec in Hb as [_ Hframe].
    cbn [fst snd fs trace] in Hrun.
    destruct r as [[] | eb]; [discriminate Hrun |].
    injection Hrun as <- <-. cbn [fs].
    apply rmtree_restore; [exact Hfresh |].
    intros k Hk.
    rewrite (Hframe eb eq_refl Hclass k).
    - cbn [fs]. apply lookup_insert_ne. intros <-. apply Hk. reflexivity.
    - intros ->. apply Hk. apply join_under. }
  split; [exact Hfs |]. rewrite Hfs. unfold f1. split; [| split].
  - intros p Hp. rewrite make_dirs_lookup, decide_True by exact Hp. reflexivity.
  - intros p Hp. rewrite make_dirs_lookup, decide_False by exact Hp. reflexivity.
  - intros p n Hp. rewrite make_dirs_lookup.
    destruct (decide (p ∈ Path.ancestors output_dir)) as [Hin | _]; [| exact Hp].
    rewrite (no_file_among _ _ p n Hmk Hin Hp). reflexivity.
Qed.

Lemma failed_fetch_extracts_nothing_witness :
  let w' := (Demo.fetch "1.0.0" "aarch64-apple-darwin" Demo.start).2 in
  fs w' = make_dirs Demo.out (fs Demo.start)
  /\ (forall p, p ∈ Path.ancestors Demo.out -> fs w' !! p = Some Dir)
  /\ (forall p, p ∉ Path.ancestors Demo.out -> fs w' !! p = fs Demo.start !! p)
  /\ (forall p n, fs Demo.start !! p = Some n -> fs w' !! p = Some n).
Proof.
  apply (failed_fetch_extracts_nothing Demo.urlopen Demo.unpack Demo.unpack Demo.mkdtemp
           "1.0.0" Demo.out "aarch64-apple-darwin" Demo.versions Demo.start
           (Demo.fetch "1.0.0" "aarch64-apple-darwin" Demo.start).2
           (RuntimeError ("Unsupported archive format: "
                          +:+ "/tmp/tmpq3k8xw/aic-sdk-aarch64-apple-darwin-1.0.0.7z"))).
  - reflexivity.
  - vm_compute. reflexivity.
  - right. reflexivity.
Defined.

(** The run of the witness does end in the unsupported-format error. *)
Example unsupported_format_run :
  (Demo.fetch "1.0.0" "aarch64-apple-darwin" Demo.start).1
  = Raise (RuntimeError
             "Unsupported archive format: /tmp/tmpq3k8xw/aic-sdk-aarch64-apple-darwin-1.0.0.7z").
Proof. vm_compute. reflexivity. Qed.

(** C3, as the specification states it, fails: the output directory is
    created before the download, so after a checksum failure a directory
    that did not exist before the call exists. *)
Lemma output_dir_created_before_failure :
  ~ output_dir_untouched (Demo.fetch "1.0.0" "x86_64-pc-windows-msvc") Demo.out Demo.start.
Proof.
  unfold output_dir_untouched. intros Hclaim.
  destruct (Demo.fetch "1.0.0" "x86_64-pc-windows-msvc" Demo.start) as [r w'] eqn:Hrun.
  vm_compute in Hrun. injection Hrun as <- <-.
  specialize (Hclaim _ _ eq_refl (or_introl eq_refl) Demo.out (reflexivity _)).
  vm_compute in Hclaim. discriminate Hclaim.
Qed.

(** ** The download URL *)

Lemma split_nonempty (sep : ascii) (s : string) : Py.split sep s <> [].
Proof.
  destruct s as [|c s]; simpl; [discriminate |].
  destruct (Ascii.eqb c sep); [discriminate |].
  destruct (Py.split sep s); discriminate.
Qed.

(** Splitting at a separator that is known to be there. *)
Lemma split_app_sep (sep : ascii) (a b : string) :
  Py.split sep (a +:+ String sep b) = Py.split sep a ++ Py.split sep b.
Proof.
  induction a as [|c a IH].
  - change (EmptyString +:+ String sep b) with (String sep b).
    simpl. rewrite Ascii.eqb_refl. reflexivity.
  - change (String c a +:+ String sep b) with (String c (a +:+ String sep b)).
    simpl. rewrite IH.
    destruct (Ascii.eqb c sep); [reflexivity |].
    pose proof (split_nonempty sep a) as Hne.
    destruct (Py.split sep a) as [|piece pieces]; [congruence | reflexivity].
Qed.

Lemma repo_segment_of_url (version filename : string) :
  repo_segment (download_url version filename) = "aic-sdk-c".
Proof.
  unfold repo_segment, download_url.
  change ("https://github.com/ai-coustics/aic-sdk-c/releases/download/"
          +:+ version +:+ "/" +:+ filename)
    with ("https://github.com/ai-coustics/aic-sdk-c/releases/download"
          +:+ String "/" (version +:+ "/" +:+ filename)).
  rewrite split_app_sep. reflexivity.
Qed.

Lemma startswith_app (p s : string) : Py.startswith (p +:+ s) p = true.
Proof.
  unfold Py.startswith. induction p as [|a p IH].
  - destruct (EmptyString +:+ s); reflexivity.
  - change (String a p +:+ s) with (String a (p +:+ s)).
    simpl. destruct (ascii_dec a a) as [_ | Hne]; [exact IH | congruence].
Qed.

(** C2, as the code has it.  For every version, platform and resolved
    extension, the one URL that [download_aic_sdk] asks for is
    [https://github.com/ai-coustics/aic-sdk-c/releases/download/<version>/aic-sdk-<platform>-<version>.<ext>]:
    the repository segment is [aic-sdk-c], and the archive file name
    begins with the fixed text [aic-sdk-]. *)
Theorem requested_url (urlopen : string -> string + list byte)
        (unzip untar_gz : list byte -> extraction)
        (mkdtemp : gmap (list string) node -> list string)
        (version : string) (output_dir : list string) (platform_triplet : string)
        (versions_file : text_file) (config : version_table)
        (supported : gmap string (string * string)) (archive_ext expected_hash : string)
        (w : world) :
  load_platform_config versions_file = Ok config ->
  config !! version = Some supported ->
  supported !! platform_triplet = Some (archive_ext, expected_hash) ->
  existsb (is_file (fs w)) (Path.ancestors output_dir) = false ->
  let url := "https://github.com/ai-coustics/aic-sdk-c/releases/download/"
               +:+ version +:+ "/aic-sdk-" +:+ platform_triplet +:+ "-" +:+ version
               +:+ "." +:+ archive_ext in
  (exists ps,
      trace (download_aic_sdk urlopen unzip untar_gz mkdtemp version output_dir
                              platform_triplet versions_file w).2
      = trace w ++ [Printed ("Platform: " +:+ platform_triplet);
                    Printed ("Download URL: " +:+ url);
                    Printed ("Downloading " +:+ url +:+ "...");
                    UrlRetrieve url] ++ ps
      /\ Forall is_print ps)
  /\ download_url version (archive_filename platform_triplet version archive_ext) = url
  /\ repo_segment url = "aic-sdk-c"
  /\ Py.startswith (archive_filename platform_triplet version archive_ext) "aic-sdk-" = true.
Proof.
  intros Hload Hv Hp Hmk url.
  assert (download_url version (archive_filename platform_triplet version archive_ext) = url)
    as Hurl by reflexivity.
  split; [| split; [exact Hurl | split; [| apply startswith_app]]].
  - rewrite download_aic_sdk_unfold. cbv zeta. rewrite Hload, Hv, Hp, Hmk.
    cbn [fst snd]. rewrite Hurl.
    unfold with_TemporaryDirectory. cbn [fs trace].
    match goal with
    | |- context [bind ?m ?k ?w0] => destruct (bind m k w0) as [r wb] eqn:Hb
    end.
    apply with_block_spec in Hb as [(ps & Ht & Hps) _]. cbn [trace] in Ht.
    destruct r as [[] | e]; cbn [fst snd trace]; rewrite Ht.
    + eexists. rewrite <- !app_assoc. split; [reflexivity |].
      apply Forall_app. split; [exact Hps | repeat constructor].
    + exists ps. rewrite <- !app_assoc. split; [reflexivity | exact Hps].
  - rewrite <- Hurl. apply repo_segment_of_url.
Qed.

Lemma requested_url_witness :
  let url := "https://github.com/ai-coustics/aic-sdk-c/releases/download/"
               +:+ "1.0.0" +:+ "/aic-sdk-" +:+ "x86_64-unknown-linux-gnu" +:+ "-"
               +:+ "1.0.0" +:+ "." +:+ "tar.gz" in
  (exists ps,
      trace (download_aic_sdk Demo.urlopen Demo.unpack Demo.unpack Demo.mkdtemp "1.0.0"
               Demo.out "x86_64-unknown-linux-gnu" Demo.versions Demo.start).2
      = trace Demo.start ++ [Printed ("Platform: " +:+ "x86_64-unknown-linux-gnu");
                             Printed ("Download URL: " +:+ url);
                             Printed ("Downloading " +:+ url +:+ "...");
                             UrlRetrieve url] ++ ps
      /\ Forall is_print ps)
  /\ download_url "1.0.0" (archive_filename "x86_64-unknown-linux-gnu" "1.0.0" "tar.gz") = url
  /\ repo_segment url = "aic-sdk-c"
  /\ Py.startswith (archive_filename "x86_64-unknown-linux-gnu" "1.0.0" "tar.gz") "aic-sdk-"
     = true.
Proof.
  apply (requested_url Demo.urlopen Demo.unpack Demo.unpack Demo.mkdtemp "1.0.0" Demo.out
           "x86_64-unknown-linux-gnu" Demo.versions Demo.table Demo.supported "tar.gz"
           "2cf24dba5fb0a30e26e83b2ac5b9e29e1b161e5c1fa7425e73043362938b9824" Demo.start).
  - reflexivity.
  - reflexivity.
  - reflexivity.
  - reflexivity.
Defined.

(** C2, as the specification states it, fails: the repository segment of
    the URL is [aic-sdk-c], and the archive file name begins with
    [aic-sdk-x86_64], not with the repository name. *)
Lemma filename_does_not_begin_with_repo :
  ~ filename_begins_with_repo
      (download_url "0.7.0" (archive_filename "x86_64-unknown-linux-gnu" "0.7.0" "tar.gz"))
  /\ download_url "0.7.0" (archive_filename "x86_64-unknown-linux-gnu" "0.7.0" "tar.gz")
     <> url_template "github.com" "ai-coustics" "aic-sdk-c"
                     "0.7.0" "x86_64-unknown-linux-gnu" "tar.gz".
Proof.
  split.
  - unfold filename_begins_with_repo. vm_compute. discriminate.
  - vm_compute. discriminate.
Qed.


(** * Further properties of the loader *)

(** Every failure of the loop over the lines is the wrapped error of one
    line, whose number lies within the file. *)
Lemma load_lines_error_shape lines : forall n config e,
  load_lines n lines config = Raise e ->
  exists k reason,
    (k < length lines)%nat
    /\ (reason = "Expected format: version\tplatform, ext, hash"
        \/ reason = "Expected format: platform, ext, hash")
    /\ e = RuntimeError ("Error parsing VERSIONS.txt line "
                         +:+ Py.str_of_int (n + k) +:+ ": " +:+ reason).
Proof.
  induction lines as [|line lines IH]; intros n config e; simpl; [discriminate |].
  destruct (String.eqb (Py.strip line) EmptyString || Py.startswith (Py.strip line) "#").
  - intros H. destruct (IH _ _ _ H) as (k & reason & Hk & Hr & ->).
    exists (S k), reason. split; [lia |]. split; [exact Hr |].
    replace (n + S k)%nat with (S n + k)%nat by lia. reflexivity.
  - destruct (parse_row (Py.strip line) config) as [config' | e'] eqn:Hrow.
    + intros H. destruct (IH _ _ _ H) as (k & reason & Hk & Hr & ->).
      exists (S k), reason. split; [lia |]. split; [exact Hr |].
      replace (n + S k)%nat with (S n + k)%nat by lia. reflexivity.
    + intros [= <-].
      destruct (Format.fields line) as [[[v p] x]|] eqn:Hf.
      * rewrite (parse_row_fields line config v p x Hf) in Hrow. discriminate.
      * exists 0%nat. rewrite Nat.add_0_r.
        destruct (parse_row_no_fields line config Hf) as [Hp | Hp];
          rewrite Hp in Hrow; injection Hrow as <-; eexists;
          (split; [lia |]); (split; [| reflexivity]); auto.
Qed.

(** On a file that opens and decodes, the loader on any path is the
    loader. *)
Lemma load_platform_config_reading (versions_file : text_file) :
  load_platform_config versions_file
  = load_platform_config_from (tf_name versions_file) (reading_of versions_file).
Proof.
  unfold load_platform_config, load_platform_config_from, reading_of.
  destruct (tf_lines versions_file) as [lines|]; [| reflexivity].
  destruct (load_lines 1 lines ∅); reflexivity.
Qed.

(** The errors of the loader are of three kinds.  A missing file gives
    the [RuntimeError] that says so.  A rejected row gives the
    [RuntimeError] of its line, with the 1-based number of that line,
    which lies within the lines read, and one of the two format
    reminders: the inner [ValueError] never escapes.  What [open] or the
    decoder raises is not wrapped: it escapes as it is, and only when no
    row read before it was rejected. *)
Theorem load_error_shape (name : string) (r : reading) (e : exn) :
  load_platform_config_from name r = Raise e ->
  (r = Absent /\ e = RuntimeError ("VERSIONS.txt file not found: " +:+ name))
  \/ (exists lines fault n reason,
        r = Yields lines fault
        /\ (1 <= n <= length lines)%nat
        /\ (reason = "Expected format: version\tplatform, ext, hash"
            \/ reason = "Expected format: platform, ext, hash")
        /\ e = RuntimeError ("Error parsing VERSIONS.txt line "
                             +:+ Py.str_of_int n +:+ ": " +:+ reason))
  \/ (exists lines, r = Yields lines (Some e) /\ Format.well_formed lines).
Proof.
  unfold load_platform_config_from. destruct r as [| lines fault].
  - intros [= <-]. left. split; reflexivity.
  - destruct (load_lines 1 lines ∅) as [config | e'] eqn:Hload.
    + destruct fault as [e' |]; [| discriminate]. intros [= <-].
      right. right. exists lines. split; [reflexivity |].
      destruct (Forall_Exists_dec (fun l => Format.malformed l = false)
                  (fun l => Format.malformed l = true)
                  (fun l => match Format.malformed l as b
                                  return ({b = false} + {b = true}) with
                            | true => right eq_refl
                            | false => left eq_refl
                            end) lines) as [Hall | Hex]; [exact Hall |].
      destruct (load_lines_first_malformed lines 1 ∅ Hex)
        as (j & bad & reason & _ & _ & _ & Hfail).
      rewrite Hfail in Hload. discriminate.
    + intros [= <-]. right. left.
      destruct (load_lines_error_shape _ _ _ _ Hload) as (k & reason & Hk & Hr & ->).
      exists lines, fault, (S k), reason. repeat split; try assumption; lia.
Qed.

Lemma load_error_shape_witness :
  (undecodable = Absent
   /\ ValueError "'utf-8' codec can't decode byte 0xff in position 61: invalid start byte"
      = RuntimeError ("VERSIONS.txt file not found: " +:+ "VERSIONS.txt"))
  \/ (exists lines fault n reason,
        undecodable = Yields lines fault
        /\ (1 <= n <= length lines)%nat
        /\ (reason = "Expected format: version\tplatform, ext, hash"
            \/ reason = "Expected format: platform, ext, hash")
        /\ ValueError "'utf-8' codec can't decode byte 0xff in position 61: invalid start byte"
           = RuntimeError ("Error parsing VERSIONS.txt line "
                           +:+ Py.str_of_int n +:+ ": " +:+ reason))
  \/ (exists lines,
        undecodable
        = Yields lines
            (Some (ValueError
                     "'utf-8' codec can't decode byte 0xff in position 61: invalid start byte"))
        /\ Format.well_formed lines).
Proof.
  apply (load_error_shape "VERSIONS.txt" undecodable). reflexivity.
Defined.

(** An existing file loads exactly when none of its rows is rejected:
    every line, after stripping, is blank, a comment or a record.  The
    fields are those of the stripped line, not of the line as written. *)
Theorem load_succeeds_iff_well_formed (versions_file : text_file) (lines : list string) :
  tf_lines versions_file = Some lines ->
  (exists table, load_platform_config versions_file = Ok table)
  <-> Format.well_formed lines.
Proof.
  intros Hlines. unfold load_platform_config. rewrite Hlines. split.
  - intros [table Hload].
    destruct (Forall_Exists_dec (fun l => Format.malformed l = false)
                (fun l => Format.malformed l = true)
                (fun l => match Format.malformed l as b
                                return ({b = false} + {b = true}) with
                          | true => right eq_refl
                          | false => left eq_refl
                          end) lines) as [Hall | Hex]; [exact Hall |].
    destruct (load_lines_first_malformed lines 1 ∅ Hex)
      as (j & bad & reason & _ & _ & _ & Hfail).
    rewrite Hfail in Hload. discriminate.
  - intros Hwf. destruct (load_lines_well_formed lines 1 ∅ Hwf) as (table & Hload & _).
    exists table. exact Hload.
Qed.

Lemma load_succeeds_iff_well_formed_witness :
  (exists table, load_platform_config scenario_file = Ok table)
  <-> Format.well_formed (default [] (tf_lines scenario_file)).
Proof.
  apply (load_succeeds_iff_well_formed scenario_file). reflexivity.
Defined.

(** A successful pass over the lines does not depend on the number the
    first line is given. *)
Lemma load_lines_renumber lines : forall n m config table,
  load_lines n lines config = Ok table -> load_lines m lines config = Ok table.
Proof.
  induction lines as [|line lines IH]; intros n m config table; simpl; [auto |].
  destruct (String.eqb (Py.strip line) EmptyString || Py.startswith (Py.strip line) "#").
  - apply IH.
  - destruct (parse_row (Py.strip line) config); [apply IH | discriminate].
Qed.

Lemma load_lines_skip_ignored before : forall n line after config table,
  Format.ignored line = true ->
  load_lines n (before ++ line :: after) config = Ok table
  <-> load_lines n (before ++ after) config = Ok table.
Proof.
  induction before as [|l before IH]; intros n line after config table Hig.
  - simpl. unfold Format.ignored in Hig. simpl in Hig. rewrite Hig.
    split; apply load_lines_renumber.
  - simpl.
    destruct (String.eqb (Py.strip l) EmptyString || Py.startswith (Py.strip l) "#").
    + apply IH. exact Hig.
    + destruct (parse_row (Py.strip l) config); [apply IH; exact Hig | tauto].
Qed.

(** Blank lines and comment lines carry no information: adding one
    anywhere in a file, or removing it, does not change the table that
    is loaded. *)
Theorem ignored_line_changes_nothing (name : string) (before after : list string)
        (line : string) (table : version_table) :
  Format.ignored line = true ->
  load_platform_config {| tf_name := name; tf_lines := Some (before ++ line :: after) |}
  = Ok table
  <-> load_platform_config {| tf_name := name; tf_lines := Some (before ++ after) |}
      = Ok table.
Proof.
  intros Hig. unfold load_platform_config. simpl.
  apply load_lines_skip_ignored. exact Hig.
Qed.

Lemma ignored_line_changes_nothing_witness :
  load_platform_config
    {| tf_name := "VERSIONS.txt";
       tf_lines := Some ([] ++ ("  # a comment" +:+ Py.newline)
                            :: default [] (tf_lines duplicate_file)) |}
  = Ok (duplicate_table_of duplicate_file)
  <-> load_platform_config
        {| tf_name := "VERSIONS.txt";
           tf_lines := Some ([] ++ default [] (tf_lines duplicate_file)) |}
      = Ok (duplicate_table_of duplicate_file).
Proof.
  apply (ignored_line_changes_nothing "VERSIONS.txt" []
           (default [] (tf_lines duplicate_file)) ("  # a comment" +:+ Py.newline)
           (duplicate_table_of duplicate_file)).
  reflexivity.
Defined.


(** ** Stripping *)

Lemma lstrip_idempotent s : Py.lstrip (Py.lstrip s) = Py.lstrip s.
Proof.
  induction s as [|c s IH]; [reflexivity |].
  simpl. destruct (Py.isspace c) eqn:Hc; [exact IH |].
  simpl. rewrite Hc. reflexivity.
Qed.

Lemma rstrip_idempotent s : Py.rstrip (Py.rstrip s) = Py.rstrip s.
Proof.
  induction s as [|c s IH]; [reflexivity |].
  simpl. destruct (Py.rstrip s) as [|d r] eqn:Hr.
  - destruct (Py.isspace c) eqn:Hc; [reflexivity |].
    simpl. rewrite Hc. reflexivity.
  - change (Py.rstrip (String c (String d r)))
      with (match Py.rstrip (String d r) with
            | EmptyString => if Py.isspace c then EmptyString else String c EmptyString
            | String a b => String c (String a b)
            end).
    rewrite IH. reflexivity.
Qed.

(** Stripping on the left keeps a right end that is already stripped. *)
Lemma rstrip_lstrip s : Py.rstrip s = s -> Py.rstrip (Py.lstrip s) = Py.lstrip s.
Proof.
  induction s as [|c s IH]; [reflexivity |].
  intros Hs. simpl. destruct (Py.isspace c) eqn:Hc; [| exact Hs].
  apply IH. simpl in Hs. rewrite Hc in Hs.
  destruct (Py.rstrip s) as [|d r]; [discriminate |].
  injection Hs as Hs. exact Hs.
Qed.

Lemma strip_idempotent s : Py.strip (Py.strip s) = Py.strip s.
Proof.
  unfold Py.strip.
  rewrite (rstrip_lstrip (Py.rstrip s) (rstrip_idempotent s)).
  apply lstrip_idempotent.
Qed.

(** What the format function returns is stripped. *)
Lemma fields_stripped line v p e h :
  Format.fields line = Some (v, p, (e, h)) ->
  Py.strip v = v /\ Py.strip p = p /\ Py.strip e = e /\ Py.strip h = h.
Proof.
  unfold Format.fields.
  destruct (Py.split Py.tab (Py.strip line)) as [|a [|b [|c parts]]]; try discriminate.
  destruct (Py.split "," (Py.strip b)) as [|p' [|e' [|h' [|q qs]]]]; try discriminate.
  intros [= <- <- <- <-]. repeat split; apply strip_idempotent.
Qed.

Lemma records_stripped lines v p e h :
  (v, p, (e, h)) ∈ Format.records lines ->
  Py.strip v = v /\ Py.strip p = p /\ Py.strip e = e /\ Py.strip h = h.
Proof.
  unfold Format.records. intros Hin.
  apply list_elem_of_omap in Hin as (line & _ & Hline).
  destruct (Format.ignored line); [discriminate |].
  apply (fields_stripped line). exact Hline.
Qed.

(** ** Shape of the loaded table *)

Lemma record_row_non_empty v p x (config : version_table) :
  (forall u s, config !! u = Some s -> s <> ∅) ->
  forall u s, record_row v p x config !! u = Some s -> s <> ∅.
Proof.
  intros Hinv u s. unfold record_row.
  destruct (decide (v = u)) as [<- | Hne].
  - rewrite lookup_alter_eq.
    destruct (config !! v) as [old|] eqn:Hc.
    + rewrite Hc. simpl. intros [= <-]. apply insert_non_empty.
    + rewrite lookup_insert_eq. simpl. intros [= <-]. apply insert_non_empty.
  - rewrite lookup_alter_ne by exact Hne.
    destruct (config !! v) eqn:Hc; [apply Hinv |].
    rewrite lookup_insert_ne by exact Hne. apply Hinv.
Qed.

Lemma load_lines_non_empty lines : forall n (config table : version_table),
  (forall u s, config !! u = Some s -> s <> ∅) ->
  load_lines n lines config = Ok table ->
  forall u s, table !! u = Some s -> s <> ∅.
Proof.
  induction lines as [|line lines IH]; intros n config table Hinv; simpl.
  - intros [= <-]. exact Hinv.
  - destruct (String.eqb (Py.strip line) EmptyString || Py.startswith (Py.strip line) "#").
    + apply IH. exact Hinv.
    + destruct (parse_row (Py.strip line) config) as [config' |] eqn:Hrow; [| discriminate].
      apply IH.
      destruct (Format.fields line) as [[[v p] x]|] eqn:Hf.
      * rewrite (parse_row_fields line config v p x Hf) in Hrow. injection Hrow as <-.
        apply record_row_non_empty. exact Hinv.
      * destruct (parse_row_no_fields line config Hf) as [Hp | Hp];
          rewrite Hp in Hrow; discriminate.
Qed.

(** In a loaded table every version has at least one platform, and every
    version, platform, extension and checksum is free of surrounding
    whitespace: it is its own [strip]. *)
Theorem loaded_table_shape (versions_file : text_file) (table : version_table) :
  load_platform_config versions_file = Ok table ->
  (forall version supported, table !! version = Some supported -> supported <> ∅)
  /\ (forall version platform_triplet archive_ext hash_value,
        resolve table version platform_triplet = Some (archive_ext, hash_value) ->
        Py.strip version = version
        /\ Py.strip platform_triplet = platform_triplet
        /\ Py.strip archive_ext = archive_ext
        /\ Py.strip hash_value = hash_value).
Proof.
  unfold load_platform_config.
  destruct (tf_lines versions_file) as [lines|]; [| discriminate].
  intros Hload. split.
  - apply (load_lines_non_empty lines 1 ∅ table); [| exact Hload].
    intros u s Hu. rewrite lookup_empty in Hu. discriminate.
  - intros v p e h Hres.
    assert (Format.well_formed lines) as Hwf.
    { destruct (Forall_Exists_dec (fun l => Format.malformed l = false)
                  (fun l => Format.malformed l = true)
                  (fun l => match Format.malformed l as b
                                  return ({b = false} + {b = true}) with
                            | true => right eq_refl
                            | false => left eq_refl
                            end) lines) as [Hall | Hex]; [exact Hall |].
      destruct (load_lines_first_malformed lines 1 ∅ Hex)
        as (j & bad & reason & _ & _ & _ & Hfail).
      rewrite Hfail in Hload. discriminate. }
    destruct (load_lines_well_formed lines 1 ∅ Hwf) as (table' & Hload' & Hspec).
    rewrite Hload in Hload'. injection Hload' as <-.
    rewrite Hspec in Hres.
    destruct (Format.last_value (v, p) (Format.records lines)) as [x|] eqn:Hl.
    + injection Hres as ->. apply last_value_elem in Hl.
      apply (records_stripped lines). exact Hl.
    + unfold resolve in Hres. rewrite lookup_empty in Hres. discriminate.
Qed.

Lemma loaded_table_shape_witness :
  (forall version supported, Demo.table !! version = Some supported -> supported <> ∅)
  /\ (forall version platform_triplet archive_ext hash_value,
        resolve Demo.table version platform_triplet = Some (archive_ext, hash_value) ->
        Py.strip version = version
        /\ Py.strip platform_triplet = platform_triplet
        /\ Py.strip archive_ext = archive_ext
        /\ Py.strip hash_value = hash_value).
Proof.
  apply (loaded_table_shape Demo.versions Demo.table). reflexivity.
Defined.


(** ** Reading back a written record line *)

Lemma append_nil_r s : s +:+ EmptyString = s.
Proof.
  induction s as [|c s IH]; [reflexivity |].
  change (String c s +:+ EmptyString) with (String c (s +:+ EmptyString)).
  rewrite IH. reflexivity.
Qed.

Lemma append_assoc a b c : (a +:+ b) +:+ c = a +:+ b +:+ c.
Proof.
  induction a as [|x a IH]; [reflexivity |].
  change ((String x a +:+ b) +:+ c) with (String x ((a +:+ b) +:+ c)).
  rewrite IH. reflexivity.
Qed.

Lemma append_not_empty_r a b : b <> EmptyString -> a +:+ b <> EmptyString.
Proof. destruct a; [auto | discriminate]. Qed.

Lemma lacks_app c a b : lacks c (a +:+ b) = lacks c a && lacks c b.
Proof.
  unfold lacks. induction a as [|x a IH]; [reflexivity |].
  change (String x a +:+ b) with (String x (a +:+ b)). simpl.
  rewrite IH. apply andb_assoc.
Qed.

Lemma lacks_cons c x s : lacks c (String x s) = negb (Ascii.eqb x c) && lacks c s.
Proof. reflexivity. Qed.

Lemma blank_lacks_comma s : blank s = true -> lacks "," s = true.
Proof.
  unfold blank, lacks. induction s as [|x s IH]; [reflexivity |].
  simpl. intros H. apply andb_true_iff in H as [Hx Hs].
  rewrite (IH Hs), andb_true_r.
  destruct (Ascii.eqb x ",") eqn:E; [| reflexivity].
  apply Ascii.eqb_eq in E. subst x. discriminate Hx.
Qed.

Lemma split_none sep s : lacks sep s = true -> Py.split sep s = [s].
Proof.
  induction s as [|x s IH]; [reflexivity |].
  rewrite lacks_cons. intros H. apply andb_true_iff in H as [Hx Hs].
  simpl. apply negb_true_iff in Hx. rewrite Hx, (IH Hs). reflexivity.
Qed.

Lemma lstrip_blank_app ws s : blank ws = true -> Py.lstrip (ws +:+ s) = Py.lstrip s.
Proof.
  unfold blank. induction ws as [|x ws IH]; [reflexivity |].
  simpl. intros H. apply andb_true_iff in H as [Hx Hs].
  change (String x ws +:+ s) with (String x (ws +:+ s)). simpl.
  rewrite Hx. apply IH. exact Hs.
Qed.

Lemma lstrip_length s : (String.length (Py.lstrip s) <= String.length s)%nat.
Proof.
  induction s as [|x s IH]; [reflexivity |].
  simpl. destruct (Py.isspace x); simpl; lia.
Qed.

Lemma lstrip_fixed_head x s : Py.lstrip (String x s) = String x s -> Py.isspace x = false.
Proof.
  simpl. destruct (Py.isspace x); [| reflexivity].
  intros H. pose proof (lstrip_length s) as Hlen. rewrite H in Hlen. simpl in Hlen. lia.
Qed.

Lemma lstrip_fixed_app s t :
  s <> EmptyString -> Py.lstrip s = s -> Py.lstrip (s +:+ t) = s +:+ t.
Proof.
  destruct s as [|x s]; [congruence |]. intros _ H.
  change (String x s +:+ t) with (String x (s +:+ t)). simpl.
  rewrite (lstrip_fixed_head x s H). reflexivity.
Qed.

Lemma rstrip_blank ws : blank ws = true -> Py.rstrip ws = EmptyString.
Proof.
  unfold blank. induction ws as [|x ws IH]; [reflexivity |].
  simpl. intros H. apply andb_true_iff in H as [Hx Hs].
  rewrite (IH Hs), Hx. reflexivity.
Qed.

Lemma rstrip_app_blank s ws : blank ws = true -> Py.rstrip (s +:+ ws) = Py.rstrip s.
Proof.
  intros Hws. induction s as [|x s IH].
  - simpl. apply rstrip_blank. exact Hws.
  - change (String x s +:+ ws) with (String x (s +:+ ws)). simpl.
    rewrite IH. reflexivity.
Qed.

(** A right end that survives [rstrip] protects everything before it. *)
Lemma rstrip_app_kept a s r :
  Py.rstrip s = r -> r <> EmptyString -> Py.rstrip (a +:+ s) = a +:+ r.
Proof.
  intros Hs Hr. induction a as [|x a IH]; [exact Hs |].
  change (String x a +:+ s) with (String x (a +:+ s)).
  change (String x a +:+ r) with (String x (a +:+ r)). simpl. rewrite IH.
  destruct (a +:+ r) eqn:E; [| reflexivity].
  exfalso. apply (append_not_empty_r a r Hr). exact E.
Qed.

Lemma rstrip_cons_kept x s r :
  Py.rstrip s = r -> r <> EmptyString -> Py.rstrip (String x s) = String x r.
Proof. intros Hs Hr. apply (rstrip_app_kept (String x EmptyString) s r Hs Hr). Qed.

Lemma strip_fixed s : Py.strip s = s -> Py.lstrip s = s /\ Py.rstrip s = s.
Proof.
  unfold Py.strip. intros H. split.
  - rewrite <- H at 1. rewrite lstrip_idempotent. exact H.
  - rewrite <- H at 1. rewrite (rstrip_lstrip _ (rstrip_idempotent s)). exact H.
Qed.

Lemma writable_field_inv s :
  writable_field s = true ->
  s <> EmptyString /\ Py.lstrip s = s /\ Py.rstrip s = s
  /\ lacks Py.tab s = true /\ lacks "," s = true.
Proof.
  unfold writable_field. intros H.
  apply andb_true_iff in H as [H Hc]. apply andb_true_iff in H as [H Ht].
  apply andb_true_iff in H as [Hne Hs].
  apply negb_true_iff, String.eqb_neq in Hne. apply String.eqb_eq in Hs.
  destruct (strip_fixed s Hs) as [Hl Hr]. auto.
Qed.

Lemma filler_inv s :
  filler s = true -> blank s = true /\ lacks Py.tab s = true /\ lacks "," s = true.
Proof.
  unfold filler. intros H. apply andb_true_iff in H as [Hb Ht].
  auto using blank_lacks_comma.
Qed.

(** A field between two stretches of whitespace strips to the field. *)
Lemma strip_padded a t b :
  blank a = true -> blank b = true ->
  t <> EmptyString -> Py.lstrip t = t -> Py.rstrip t = t ->
  Py.strip (a +:+ t +:+ b) = t.
Proof.
  intros Ha Hb Hne Hl Hr. unfold Py.strip.
  rewrite (rstrip_app_kept a (t +:+ b) t); [| | exact Hne].
  - rewrite (lstrip_blank_app a t Ha). exact Hl.
  - rewrite (rstrip_app_blank t b Hb). exact Hr.
Qed.

Lemma strip_padded_r t b :
  blank b = true -> t <> EmptyString -> Py.lstrip t = t -> Py.rstrip t = t ->
  Py.strip (t +:+ b) = t.
Proof. intros Hb. apply (strip_padded EmptyString t b eq_refl Hb). Qed.

Lemma strip_padded_l a t :
  blank a = true -> t <> EmptyString -> Py.lstrip t = t -> Py.rstrip t = t ->
  Py.strip (a +:+ t) = t.
Proof.
  intros Ha Hne Hl Hr. rewrite <- (append_nil_r t) at 1.
  apply (strip_padded a t EmptyString Ha eq_refl Hne Hl Hr).
Qed.

Lemma startswith_app_l s t p :
  s <> EmptyString -> Py.startswith (s +:+ t) (String p EmptyString)
                      = Py.startswith s (String p EmptyString).
Proof.
  destruct s as [|x s]; [congruence |]. intros _.
  change (String x s +:+ t) with (String x (s +:+ t)).
  unfold Py.startswith. simpl.
  destruct (ascii_dec p x); [| reflexivity].
  destruct (s +:+ t); destruct s; reflexivity.
Qed.


Ltac not_empty :=
  repeat apply append_not_empty_r; first [discriminate | assumption].

Ltac rstrip_kept :=
  repeat (first [apply rstrip_cons_kept | apply rstrip_app_kept]; [| not_empty]).

Section Record_line.

Variable sp : spacing.
Variables v p e h : string.
Hypothesis Hsp : spacing_ok sp = true.
Hypothesis Hv : writable_field v = true.
Hypothesis Hp : writable_field p = true.
Hypothesis He : writable_field e = true.
Hypothesis Hh : writable_field h = true.

(** The part of the line after the tab, stripped. *)
Let info : string :=
  p +:+ sp_after_platform sp
    +:+ String "," (sp_before_ext sp +:+ e +:+ sp_after_ext sp
                      +:+ String "," (sp_before_hash sp +:+ h)).

Lemma spacing_ok_inv :
  blank (sp_start sp) = true /\ filler (sp_after_version sp) = true
  /\ filler (sp_before_platform sp) = true /\ filler (sp_after_platform sp) = true
  /\ filler (sp_before_ext sp) = true /\ filler (sp_after_ext sp) = true
  /\ filler (sp_before_hash sp) = true /\ blank (sp_end sp) = true.
Proof.
  clear Hv Hp He Hh. unfold spacing_ok in Hsp.
  repeat (apply andb_true_iff in Hsp as [Hsp ?]). repeat split; assumption.
Qed.

Lemma strip_record_line :
  Py.strip (record_line sp v p e h)
  = (v +:+ sp_after_version sp) +:+ String Py.tab (sp_before_platform sp +:+ info).
Proof.
  destruct spacing_ok_inv as (H0 & H1 & H2 & H3 & H4 & H5 & H6 & H7).
  destruct (writable_field_inv v Hv) as (Hvn & Hvl & Hvr & _).
  destruct (writable_field_inv h Hh) as (Hhn & Hhl & Hhr & _).
  unfold Py.strip, record_line.
  assert (Py.rstrip (h +:+ sp_end sp) = h) as Hend.
  { rewrite rstrip_app_blank by exact H7. exact Hhr. }
  match goal with
  | |- Py.lstrip (Py.rstrip ?line) = _ =>
      assert (Py.rstrip line
              = sp_start sp +:+ v +:+ sp_after_version sp
                  +:+ String Py.tab (sp_before_platform sp +:+ info)) as ->
  end.
  { unfold info. rstrip_kept. exact Hend. }
  rewrite (lstrip_blank_app _ _ H0), (lstrip_fixed_app v _ Hvn Hvl).
  symmetry. apply append_assoc.
Qed.

Lemma strip_info : Py.strip (sp_before_platform sp +:+ info) = info.
Proof.
  destruct spacing_ok_inv as (H0 & H1 & H2 & H3 & H4 & H5 & H6 & H7).
  destruct (filler_inv _ H2) as (B2 & _).
  destruct (writable_field_inv p Hp) as (Hpn & Hpl & Hpr & _).
  destruct (writable_field_inv h Hh) as (Hhn & Hhl & Hhr & _).
  unfold Py.strip.
  assert (Py.rstrip (sp_before_platform sp +:+ info) = sp_before_platform sp +:+ info)
    as ->.
  { unfold info. rstrip_kept. exact Hhr. }
  rewrite (lstrip_blank_app _ _ B2). unfold info. apply (lstrip_fixed_app p _ Hpn Hpl).
Qed.

(** The code's view of the written line: its four fields, trimmed. *)
Lemma fields_record_line : Format.fields (record_line sp v p e h) = Some (v, p, (e, h)).
Proof.
  destruct spacing_ok_inv as (H0 & H1 & H2 & H3 & H4 & H5 & H6 & H7).
  destruct (filler_inv _ H1) as (B1 & T1 & C1). destruct (filler_inv _ H2) as (B2 & T2 & C2).
  destruct (filler_inv _ H3) as (B3 & T3 & C3). destruct (filler_inv _ H4) as (B4 & T4 & C4).
  destruct (filler_inv _ H5) as (B5 & T5 & C5). destruct (filler_inv _ H6) as (B6 & T6 & C6).
  destruct (writable_field_inv v Hv) as (Hvn & Hvl & Hvr & Hvt & Hvc).
  destruct (writable_field_inv p Hp) as (Hpn & Hpl & Hpr & Hpt & Hpc).
  destruct (writable_field_inv e He) as (Hen & Hel & Her & Het & Hec).
  destruct (writable_field_inv h Hh) as (Hhn & Hhl & Hhr & Hht & Hhc).
  unfold Format.fields. rewrite strip_record_line, split_app_sep.
  rewrite (split_none Py.tab (v +:+ sp_after_version sp))
    by (rewrite lacks_app, Hvt, T1; reflexivity).
  rewrite (split_none Py.tab (sp_before_platform sp +:+ info)).
  2: { unfold info. rewrite !lacks_app, !lacks_cons, !lacks_app, !lacks_cons, !lacks_app.
       rewrite T2, Hpt, T3, T4, Het, T5, T6, Hht. reflexivity. }
  cbn [app]. rewrite strip_info. unfold info.
  rewrite <- (append_assoc p), split_app_sep.
  rewrite (split_none "," (p +:+ sp_after_platform sp))
    by (rewrite lacks_app, Hpc, C3; reflexivity).
  rewrite <- (append_assoc (sp_before_ext sp)), <- (append_assoc (sp_before_ext sp +:+ e)).
  rewrite split_app_sep.
  rewrite (split_none "," ((sp_before_ext sp +:+ e) +:+ sp_after_ext sp))
    by (rewrite !lacks_app, C4, Hec, C5; reflexivity).
  rewrite (split_none "," (sp_before_hash sp +:+ h))
    by (rewrite lacks_app, C6, Hhc; reflexivity).
  cbn [app].
  rewrite (strip_padded_r v (sp_after_version sp) B1 Hvn Hvl Hvr).
  rewrite (strip_padded_r p (sp_after_platform sp) B3 Hpn Hpl Hpr).
  rewrite (append_assoc (sp_before_ext sp)).
  rewrite (strip_padded (sp_before_ext sp) e (sp_after_ext sp) B4 B5 Hen Hel Her).
  rewrite (strip_padded_l (sp_before_hash sp) h B6 Hhn Hhl Hhr).
  reflexivity.
Qed.

Lemma ignored_record_line :
  Py.startswith v "#" = false -> Format.ignored (record_line sp v p e h) = false.
Proof.
  intros Hhash.
  destruct (writable_field_inv v Hv) as (Hvn & _).
  unfold Format.ignored. cbv zeta. rewrite strip_record_line.
  rewrite append_assoc, (startswith_app_l v _ "#" Hvn), Hhash.
  destruct v; [congruence | reflexivity].
Qed.

End Record_line.


Lemma row_ok_inv sp v p e h :
  row_ok (sp, (v, p, (e, h))) = true ->
  spacing_ok sp = true /\ writable_field v = true /\ writable_field p = true
  /\ writable_field e = true /\ writable_field h = true /\ Py.startswith v "#" = false.
Proof.
  unfold row_ok. intros H.
  apply andb_true_iff in H as [H Hhash]. apply andb_true_iff in H as [H Hh].
  apply andb_true_iff in H as [H He]. apply andb_true_iff in H as [H Hp].
  apply andb_true_iff in H as [Hsp Hv].
  apply negb_true_iff in Hhash. auto 10.
Qed.

Lemma write_rows_records rows :
  Forall (fun r => row_ok r = true) rows ->
  Format.well_formed (write_rows rows)
  /\ Format.records (write_rows rows) = map snd rows.
Proof.
  induction 1 as [|[sp [[v p] [e h]]] rows Hrow _ [IHwf IHrec]].
  - split; [constructor | reflexivity].
  - destruct (row_ok_inv _ _ _ _ _ Hrow) as (Hsp & Hv & Hp & He & Hh & Hhash).
    pose proof (fields_record_line sp v p e h Hsp Hv Hp He Hh) as Hf.
    pose proof (ignored_record_line sp v p e h Hsp Hv Hh Hhash) as Hig.
    split.
    + constructor; [| exact IHwf].
      unfold Format.malformed. rewrite Hig, Hf. reflexivity.
    + change (write_rows ((sp, (v, p, (e, h))) :: rows))
        with ([record_line sp v p e h] ++ write_rows rows).
      rewrite records_app, (records_row _ _ Hig Hf), IHrec. reflexivity.
Qed.

(** Round trip through the file format.  Records whose fields are not
    empty, carry no whitespace at their ends and contain neither tab nor
    comma, written one per line with any whitespace around the fields,
    load to the table that answers every lookup with the last record
    written for the pair (a version must not begin with [#]). *)
Theorem written_rows_load_back (name : string)
        (rows : list (spacing * (string * string * (string * string)))) :
  Forall (fun r => row_ok r = true) rows ->
  exists table,
    load_platform_config {| tf_name := name; tf_lines := Some (write_rows rows) |}
    = Ok table
    /\ forall v p, resolve table v p = Format.last_value (v, p) (map snd rows).
Proof.
  intros Hrows. destruct (write_rows_records rows Hrows) as [Hwf Hrec].
  unfold load_platform_config. simpl.
  destruct (load_lines_well_formed _ 1 ∅ Hwf) as (table & Hload & Hres).
  exists table. split; [exact Hload |].
  intros v p. rewrite Hres, Hrec.
  destruct (Format.last_value (v, p) (map snd rows)); [reflexivity |].
  unfold resolve. rewrite lookup_empty. reflexivity.
Qed.

Lemma written_rows_load_back_witness :
  exists table,
    load_platform_config {| tf_name := "VERSIONS.txt"; tf_lines := Some (write_rows two_rows) |}
    = Ok table
    /\ forall v p, resolve table v p = Format.last_value (v, p) (map snd two_rows).
Proof.
  apply (written_rows_load_back "VERSIONS.txt" two_rows).
  repeat constructor.
Defined.


(** ** The text of a digest *)

Module Hex_facts.
Import SHA256.

Lemma zip_with_length {A B C} (f : A -> B -> C) l : forall k,
  length (zip_with f l k) = Nat.min (length l) (length k).
Proof.
  induction l as [|x l IH]; intros [|y k]; simpl; try reflexivity.
  rewrite IH. reflexivity.
Qed.

Lemma round_length s kw : length (round s kw) = length s.
Proof.
  destruct s as [|a [|b [|c [|d [|e [|f [|g [|h [|i s]]]]]]]]]; reflexivity.
Qed.

Lemma fold_round_length kws : forall s, length (fold_left round kws s) = length s.
Proof.
  induction kws as [|kw kws IH]; intros s; simpl; [reflexivity |].
  rewrite IH. apply round_length.
Qed.

Lemma compress_length h block : length (compress h block) = length h.
Proof.
  unfold compress. rewrite zip_with_length, fold_round_length. apply Nat.min_id.
Qed.

Lemma absorb_chain_length bs : forall h, length (absorb h bs).1 = length h.
Proof.
  induction bs as [bs IH] using (induction_ltof1 _ (@length byte)).
  unfold ltof in IH. intros h.
  destruct (le_lt_dec 64 (length bs)) as [Hle | Hlt].
  - rewrite (SHA256_facts.absorb_block h bs Hle).
    rewrite IH by (rewrite length_skipn; lia). apply compress_length.
  - rewrite (SHA256_facts.absorb_short h bs Hlt). reflexivity.
Qed.

Lemma lower_hex_app a b : lower_hex (a +:+ b) = lower_hex a && lower_hex b.
Proof.
  unfold lower_hex. generalize (list_ascii_of_string "0123456789abcdef") as digits.
  intros digits. induction a as [|x a IH]; [reflexivity |].
  change (String x a +:+ b) with (String x (a +:+ b)). simpl.
  rewrite IH. apply andb_assoc.
Qed.

Lemma length_append a b : String.length (a +:+ b) = (String.length a + String.length b)%nat.
Proof.
  induction a as [|x a IH]; [reflexivity |].
  change (String x a +:+ b) with (String x (a +:+ b)). simpl. rewrite IH. reflexivity.
Qed.

Lemma hex_digit_lower z :
  existsb (Ascii.eqb (hex_digit z)) (list_ascii_of_string "0123456789abcdef") = true.
Proof.
  unfold hex_digit.
  destruct (nth_in_or_default (Z.to_nat z) (list_ascii_of_string "0123456789abcdef")
              "0"%char) as [Hin | ->]; [| reflexivity].
  apply existsb_exists. eexists. split; [exact Hin |]. apply Ascii.eqb_refl.
Qed.

Lemma hex32_shape w : String.length (hex32 w) = 8%nat /\ lower_hex (hex32 w) = true.
Proof.
  unfold hex32, lower_hex. split; [reflexivity |].
  cbn [map string_of_list_ascii list_ascii_of_string forallb].
  rewrite !hex_digit_lower. reflexivity.
Qed.

Lemma hex_of_chain_shape h :
  String.length (hex_of_chain h) = (8 * length h)%nat /\ lower_hex (hex_of_chain h) = true.
Proof.
  unfold hex_of_chain. induction h as [|w h [IHl IHx]]; [split; reflexivity |].
  destruct (hex32_shape w) as [Hl Hx]. cbn [fold_right]. split.
  - rewrite length_append, Hl, IHl. simpl. lia.
  - rewrite lower_hex_app, Hx, IHx. reflexivity.
Qed.

(** A digest is 64 characters long, all of them digits or [a]-[f]. *)
Lemma sha256_hex_shape msg :
  String.length (sha256_hex msg) = 64%nat /\ lower_hex (sha256_hex msg) = true.
Proof.
  unfold sha256_hex.
  destruct (hex_of_chain_shape (absorb H0 (msg ++ padding (N.of_nat (length msg)))).1)
    as [Hl Hx].
  rewrite absorb_chain_length in Hl. split; [exact Hl | exact Hx].
Qed.

End Hex_facts.

(** ** Verifying the checksum *)

(** [verify_hash] on an existing file accepts exactly the SHA-256 digest
    of its content; accepting or not, it changes no file. *)
Theorem verify_hash_accepts_the_digest_only (file_path : list string)
        (expected_hash : string) (content : list byte) (w : world) :
  fs w !! file_path = Some (File content) ->
  ((verify_hash file_path expected_hash w).1 = Ok tt
   <-> expected_hash = SHA256.sha256_hex content)
  /\ fs (verify_hash file_path expected_hash w).2 = fs w.
Proof.
  intros Hfile. split.
  - destruct (String.eqb (SHA256.sha256_hex content) expected_hash) eqn:E.
    + apply String.eqb_eq in E. split; [intros _; congruence |]. intros _.
      unfold verify_hash, bind, print. simpl.
      rewrite (calculate_file_hash_spec file_path content
                 (mk_world (fs w) (trace w ++ [Printed "Verifying SHA256 hash..."])) Hfile).
      subst expected_hash. rewrite String.eqb_refl. reflexivity.
    + apply String.eqb_neq in E.
      rewrite (verify_hash_mismatch file_path expected_hash content w Hfile E).
      split; [discriminate | congruence].
  - destruct (verify_hash file_path expected_hash w) as [r w'] eqn:Hv.
    apply verify_hash_spec in Hv as [Hfs _]. exact Hfs.
Qed.

Lemma verify_hash_accepts_the_digest_only_witness :
  ((verify_hash ["tmp"; "hello.bin"] "0000" hello_world).1 = Ok tt
   <-> "0000" = SHA256.sha256_hex (bytes_of_string "hello"))
  /\ fs (verify_hash ["tmp"; "hello.bin"] "0000" hello_world).2 = fs hello_world.
Proof.
  apply (verify_hash_accepts_the_digest_only ["tmp"; "hello.bin"] "0000"
           (bytes_of_string "hello") hello_world).
  reflexivity.
Defined.

(** The comparison is exact: an expected checksum that is not 64
    characters long, or that contains an upper-case letter or any other
    character that is not a lower-case hexadecimal digit, fails the
    verification of every file. *)
Theorem ill_formed_checksum_never_verifies (file_path : list string)
        (expected_hash : string) (content : list byte) (w : world) :
  fs w !! file_path = Some (File content) ->
  String.length expected_hash <> 64%nat \/ lower_hex expected_hash = false ->
  verify_hash file_path expected_hash w
  = (Raise (RuntimeError ("Hash verification failed!" +:+ Py.newline
                          +:+ "Expected: " +:+ expected_hash +:+ Py.newline
                          +:+ "Actual:   " +:+ SHA256.sha256_hex content)),
     mk_world (fs w) (trace w ++ [Printed "Verifying SHA256 hash..."])).
Proof.
  intros Hfile Hbad. apply (verify_hash_mismatch file_path expected_hash content w Hfile).
  intros Heq. destruct (Hex_facts.sha256_hex_shape content) as [Hl Hx].
  rewrite Heq in Hl, Hx. destruct Hbad as [Hbad | Hbad]; congruence.
Qed.

Lemma ill_formed_checksum_never_verifies_witness :
  verify_hash ["tmp"; "hello.bin"]
              "2CF24DBA5FB0A30E26E83B2AC5B9E29E1B161E5C1FA7425E73043362938B9824" hello_world
  = (Raise (RuntimeError
              ("Hash verification failed!" +:+ Py.newline +:+ "Expected: "
               +:+ "2CF24DBA5FB0A30E26E83B2AC5B9E29E1B161E5C1FA7425E73043362938B9824"
               +:+ Py.newline +:+ "Actual:   "
               +:+ SHA256.sha256_hex (bytes_of_string "hello"))),
     mk_world (fs hello_world) (trace hello_world ++ [Printed "Verifying SHA256 hash..."])).
Proof.
  apply (ill_formed_checksum_never_verifies ["tmp"; "hello.bin"]
           "2CF24DBA5FB0A30E26E83B2AC5B9E29E1B161E5C1FA7425E73043362938B9824"
           (bytes_of_string "hello") hello_world).
  - reflexivity.
  - right. reflexivity.
Defined.


(** ** Downloading *)

(** [download_file] asks for the URL exactly once and never retries.  When
    it returns, the destination holds exactly the bytes that were served.
    When it fails, the error is a [RuntimeError] that names the URL and
    carries the text of the cause; a transport error is passed on word for
    word. *)
Theorem download_file_outcome (urlopen : string -> string + list byte)
        (url : string) (dest_path : list string) (w w' : world) (r : result unit) :
  download_file urlopen url dest_path w = (r, w') ->
  (exists ps, trace w' = trace w ++ Printed ("Downloading " +:+ url +:+ "...")
                                 :: UrlRetrieve url :: ps
              /\ Forall is_print ps)
  /\ (r = Ok tt ->
      exists body, urlopen url = inr body /\ fs w' = <[dest_path := File body]> (fs w))
  /\ (forall e, r = Raise e ->
        exists cause,
          e = RuntimeError ("Failed to download " +:+ url +:+ ": " +:+ cause)
          /\ forall err, urlopen url = inl err -> cause = err).
Proof.
  intros Hrun. split; [apply (download_file_spec urlopen url dest_path w w' r Hrun) |].
  revert Hrun. unfold download_file, try_except, urlretrieve, bind, print. simpl.
  destruct (urlopen url) as [err | body].
  - intros [= <- <-]. split; [discriminate |].
    intros e [= <-]. exists err. split; [reflexivity |]. intros err' [= <-]. reflexivity.
  - destruct (write_file dest_path body (fs w)) as [f' | e'] eqn:Hw.
    + apply write_file_inv in Hw. subst f'. intros [= <- <-]. split.
      * intros _. exists body. split; reflexivity.
      * intros e He. discriminate He.
    + intros [= <- <-]. split; [discriminate |].
      intros e [= <-]. exists (str_of_exn e'). split; [reflexivity |].
      intros err Herr. discriminate Herr.
Qed.

Lemma download_file_outcome_witness :
  (exists ps,
      trace (mk_world (<[ ["sdk.zip"] := File Demo.hello ]> ∅)
               [Printed "Downloading https://example.org/sdk.zip...";
                UrlRetrieve "https://example.org/sdk.zip";
                Printed "Downloaded to /sdk.zip"])
      = trace Demo.start ++ Printed ("Downloading " +:+ "https://example.org/sdk.zip" +:+ "...")
                         :: UrlRetrieve "https://example.org/sdk.zip" :: ps
      /\ Forall is_print ps)
  /\ (Ok tt = Ok tt ->
      exists body,
        Demo.urlopen "https://example.org/sdk.zip" = inr body
        /\ fs (mk_world (<[ ["sdk.zip"] := File Demo.hello ]> ∅)
                 [Printed "Downloading https://example.org/sdk.zip...";
                  UrlRetrieve "https://example.org/sdk.zip";
                  Printed "Downloaded to /sdk.zip"])
           = <[ ["sdk.zip"] := File body ]> (fs Demo.start))
  /\ (forall e, Ok tt = Raise e ->
        exists cause,
          e = RuntimeError ("Failed to download " +:+ "https://example.org/sdk.zip"
                            +:+ ": " +:+ cause)
          /\ forall err, Demo.urlopen "https://example.org/sdk.zip" = inl err -> cause = err).
Proof.
  apply (download_file_outcome Demo.urlopen "https://example.org/sdk.zip" ["sdk.zip"]
           Demo.start).
  reflexivity.
Defined.

(** ** Choosing the decoder *)

Lemma rfind_absent c s : lacks c s = true -> Py.rfind c s = None.
Proof.
  induction s as [|x s IH]; [reflexivity |].
  rewrite lacks_cons. intros H. apply andb_true_iff in H as [Hx Hs].
  simpl. rewrite (IH Hs). apply negb_true_iff in Hx. rewrite Hx. reflexivity.
Qed.

(** The last occurrence of a character that is followed by none. *)
Lemma rfind_last c a b :
  lacks c b = true -> Py.rfind c (a +:+ String c b) = Some (String.length a).
Proof.
  intros Hb. induction a as [|x a IH].
  - change (EmptyString +:+ String c b) with (String c b). simpl.
    rewrite (rfind_absent c b Hb), Ascii.eqb_refl. reflexivity.
  - change (String x a +:+ String c b) with (String x (a +:+ String c b)). simpl.
    rewrite IH. reflexivity.
Qed.

Lemma slice_from_length a s : Py.slice_from (String.length a) (a +:+ s) = s.
Proof.
  induction a as [|x a IH]; [destruct s; reflexivity |].
  change (String x a +:+ s) with (String x (a +:+ s)). simpl. exact IH.
Qed.

Lemma endswith_app a s : Py.endswith (a +:+ s) s = true.
Proof.
  induction a as [|x a IH]; [apply endswith_refl |].
  change (String x a +:+ s) with (String x (a +:+ s)).
  change (Py.endswith (String x (a +:+ s)) s)
    with (if String.eqb (String x (a +:+ s)) s then true else Py.endswith (a +:+ s) s).
  rewrite IH. destruct (String.eqb (String x (a +:+ s)) s); reflexivity.
Qed.

(** The suffix of a name made of a stem, a dot and an extension without
    dot: the dot and the extension, unless the stem or the extension is
    empty. *)
Lemma suffix_of_name (dir : list string) (stem ext : string) :
  lacks "." ext = true -> stem <> EmptyString -> ext <> EmptyString ->
  Path.suffix (dir ++ [stem +:+ String "." ext]) = String "." ext.
Proof.
  intros Hext Hstem Hne. unfold Path.suffix, Path.name. rewrite last_last.
  rewrite (rfind_last "." stem ext Hext).
  assert ((0 <? String.length stem) = true) as ->.
  { apply Nat.ltb_lt. destruct stem; [congruence | simpl; lia]. }
  assert ((String.length stem <? String.length (stem +:+ String "." ext) - 1) = true) as ->.
  { apply Nat.ltb_lt. rewrite Hex_facts.length_append. simpl.
    destruct ext; [congruence | simpl; lia]. }
  simpl. apply slice_from_length.
Qed.

Section Decoder.

Variable unzip : list byte -> extraction.
Variable untar_gz : list byte -> extraction.

Lemma extract_archive_zip (dir : list string) (stem : string) (extract_to : list string)
      (content : list byte) (w : world) :
  stem <> EmptyString ->
  fs w !! (dir ++ [stem +:+ ".zip"]) = Some (File content) ->
  extract_archive unzip untar_gz (dir ++ [stem +:+ ".zip"]) extract_to w
  = unpack_with (unzip content) (dir ++ [stem +:+ ".zip"]) extract_to w.
Proof.
  intros Hstem Hfile. unfold extract_archive, unpack_with.
  rewrite (suffix_of_name dir stem "zip" eq_refl Hstem) by discriminate.
  unfold bind at 1. unfold print at 1. cbv beta iota zeta.
  rewrite String.eqb_refl. unfold bind at 1 2. unfold read_file. cbn [fs trace].
  rewrite Hfile. cbv beta iota zeta.
  destruct (extractall (unzip content) extract_to _) as [[[] | e] w2]; reflexivity.
Qed.

Lemma extract_archive_tar_gz (dir : list string) (stem : string) (extract_to : list string)
      (content : list byte) (w : world) :
  fs w !! (dir ++ [stem +:+ ".tar.gz"]) = Some (File content) ->
  extract_archive unzip untar_gz (dir ++ [stem +:+ ".tar.gz"]) extract_to w
  = unpack_with (untar_gz content) (dir ++ [stem +:+ ".tar.gz"]) extract_to w.
Proof.
  intros Hfile. unfold extract_archive, unpack_with.
  assert (stem +:+ ".tar.gz" = (stem +:+ ".tar") +:+ ".gz") as Hname
    by (rewrite append_assoc; reflexivity).
  assert (Path.suffix (dir ++ [stem +:+ ".tar.gz"]) = ".gz") as ->.
  { rewrite Hname. apply (suffix_of_name dir (stem +:+ ".tar") "gz" eq_refl).
    - apply append_not_empty_r. discriminate.
    - discriminate. }
  assert (Py.endswith (Path.name (dir ++ [stem +:+ ".tar.gz"])) ".tar.gz" = true) as ->.
  { unfold Path.name. rewrite last_last. apply endswith_app. }
  unfold bind at 1. unfold print at 1. cbv beta iota zeta.
  change (String.eqb ".gz" ".zip") with false.
  change (String.eqb ".gz" ".gz" && true) with true. cbv iota.
  unfold bind at 1 2. unfold read_file. cbn [fs trace].
  rewrite Hfile. cbv beta iota zeta.
  destruct (extractall (untar_gz content) extract_to _) as [[[] | e] w2]; reflexivity.
Qed.

End Decoder.


(** A name that ends in [.zip] after a non-empty stem is unpacked as a zip
    archive, whatever dots the stem contains; the bare name [.zip] is
    not recognised. *)
Theorem zip_suffix_selects_unzip (unzip untar_gz : list byte -> extraction)
        (dir : list string) (stem : string) (extract_to : list string)
        (content : list byte) (w : world) :
  fs w !! (dir ++ [stem +:+ ".zip"]) = Some (File content) ->
  (stem <> EmptyString ->
   extract_archive unzip untar_gz (dir ++ [stem +:+ ".zip"]) extract_to w
   = unpack_with (unzip content) (dir ++ [stem +:+ ".zip"]) extract_to w)
  /\ (stem = EmptyString ->
      (extract_archive unzip untar_gz (dir ++ [stem +:+ ".zip"]) extract_to w).1
      = Raise (RuntimeError ("Unsupported archive format: "
                             +:+ Path.str (dir ++ [stem +:+ ".zip"])))).
Proof.
  intros Hfile. split.
  - intros Hstem. apply extract_archive_zip; assumption.
  - intros ->. unfold extract_archive, Path.suffix, Path.name. rewrite last_last.
    reflexivity.
Qed.

Lemma zip_suffix_selects_unzip_witness :
  ("sdk.v1" <> EmptyString ->
   extract_archive Demo.unpack Demo.unpack (["tmp"; "t"] ++ ["sdk.v1" +:+ ".zip"]) ["sdk"]
                   archives_world
   = unpack_with (Demo.unpack Demo.hello) (["tmp"; "t"] ++ ["sdk.v1" +:+ ".zip"]) ["sdk"]
                 archives_world)
  /\ ("sdk.v1" = EmptyString ->
      (extract_archive Demo.unpack Demo.unpack (["tmp"; "t"] ++ ["sdk.v1" +:+ ".zip"])
                       ["sdk"] archives_world).1
      = Raise (RuntimeError ("Unsupported archive format: "
                             +:+ Path.str (["tmp"; "t"] ++ ["sdk.v1" +:+ ".zip"])))).
Proof.
  apply (zip_suffix_selects_unzip Demo.unpack Demo.unpack ["tmp"; "t"] "sdk.v1" ["sdk"]
           Demo.hello archives_world).
  reflexivity.
Defined.

(** A name that ends in [.tar.gz] is unpacked as a compressed tar
    archive, even when nothing comes before [.tar.gz]. *)
Theorem tar_gz_suffix_selects_untar (unzip untar_gz : list byte -> extraction)
        (dir : list string) (stem : string) (extract_to : list string)
        (content : list byte) (w : world) :
  fs w !! (dir ++ [stem +:+ ".tar.gz"]) = Some (File content) ->
  extract_archive unzip untar_gz (dir ++ [stem +:+ ".tar.gz"]) extract_to w
  = unpack_with (untar_gz content) (dir ++ [stem +:+ ".tar.gz"]) extract_to w.
Proof. apply extract_archive_tar_gz. Qed.

Lemma tar_gz_suffix_selects_untar_witness :
  extract_archive Demo.unpack Demo.unpack (["tmp"; "t"] ++ ["" +:+ ".tar.gz"]) ["sdk"]
                  archives_world
  = unpack_with (Demo.unpack Demo.hello) (["tmp"; "t"] ++ ["" +:+ ".tar.gz"]) ["sdk"]
                archives_world.
Proof.
  apply (tar_gz_suffix_selects_untar Demo.unpack Demo.unpack ["tmp"; "t"] "" ["sdk"]
           Demo.hello archives_world).
  reflexivity.
Defined.


(** ** A whole run *)







(** ** Where the members of an archive land *)

Lemma parent_prefix (p : list string) : Path.parent p `prefix_of` p.
Proof.
  unfold Path.parent. destruct (decide (p = [])) as [-> | Hne]; [exists []; reflexivity |].
  exists [List.last p EmptyString]. apply app_removelast_last. exact Hne.
Qed.

(** A name that climbs leaves the destination. *)
Example climbing_member_escapes :
  write_member ["build"; "sdk"] ([".."; "escaped.txt"], File Demo.hello) ∅
    !! ["build"; "escaped.txt"] = Some (File Demo.hello)
  /\ write_member ["build"; "sdk"] (["lib"; "libaic.a"], File Demo.hello) ∅
       !! ["build"; "sdk"; "lib"; "libaic.a"] = Some (File Demo.hello).
Proof. split; reflexivity. Qed.











Lemma requests_app (a b : list event) : requests (a ++ b) = requests a ++ requests b.
Proof. unfold requests. apply omap_app. Qed.

Lemma requests_prints (ps : list event) : Forall is_print ps -> requests ps = [].
Proof.
  induction 1 as [|ev ps Hev _ IH]; [reflexivity |].
  destruct ev; [exact IH | destruct Hev].
Qed.

Lemma requests_printed (line : string) (l : list event) :
  requests (Printed line :: l) = requests l.
Proof. reflexivity. Qed.

Lemma requests_url (url : string) (l : list event) :
  requests (UrlRetrieve url :: l) = url :: requests l.
Proof. reflexivity. Qed.

(** No retry and no stray request: a run asks the network at most once,
    and only after the lookup has succeeded, for the URL built from the
    version, the platform and the extension found in the table.  Until
    the lookup has succeeded nothing is created either: the file system
    is as it was. *)
Theorem at_most_one_request (urlopen : string -> string + list byte)
        (unzip untar_gz : list byte -> extraction)
        (mkdtemp : gmap (list string) node -> list string)
        (version : string) (output_dir : list string) (platform_triplet : string)
        (versions_file : text_file) (w : world) :
  exists evs,
    trace (download_aic_sdk urlopen unzip untar_gz mkdtemp version output_dir
                            platform_triplet versions_file w).2 = trace w ++ evs
    /\ ((requests evs = []
         /\ ((exists config archive_ext hash_value,
                 load_platform_config versions_file = Ok config
                 /\ resolve config version platform_triplet
                    = Some (archive_ext, hash_value))
             \/ fs (download_aic_sdk urlopen unzip untar_gz mkdtemp version output_dir
                                     platform_triplet versions_file w).2 = fs w))
        \/ (exists config archive_ext hash_value,
               load_platform_config versions_file = Ok config
               /\ resolve config version platform_triplet = Some (archive_ext, hash_value)
               /\ requests evs
                  = [download_url version
                       (archive_filename platform_triplet version archive_ext)])).
Proof.
  rewrite download_aic_sdk_unfold. cbv zeta.
  destruct (load_platform_config versions_file) as [config | e] eqn:Hload.
  2: { eexists. split; [reflexivity |]. left. split; [reflexivity | right; reflexivity]. }
  destruct (config !! version) as [supported|] eqn:Hv.
  2: { eexists. split; [reflexivity |]. left. split; [reflexivity | right; reflexivity]. }
  destruct (supported !! platform_triplet) as [[archive_ext expected_hash]|] eqn:Hp.
  2: { eexists. split; [reflexivity |]. left. split; [reflexivity | right; reflexivity]. }
  assert (resolve config version platform_triplet = Some (archive_ext, expected_hash))
    as Hres by (unfold resolve; rewrite Hv; exact Hp).
  destruct (existsb (is_file (fs w)) (Path.ancestors output_dir)).
  { eexists. cbn [snd trace]. rewrite <- app_assoc. split; [reflexivity |].
    left. split; [reflexivity | right; reflexivity]. }
  cbn [fst snd].
  unfold with_TemporaryDirectory. cbn [fs trace].
  match goal with
  | |- context [bind ?m ?k ?w0] => destruct (bind m k w0) as [r wb] eqn:Hb
  end.
  apply with_block_spec in Hb as [(ps & Ht & Hps) _]. cbn [trace] in Ht.
  destruct r as [[] | e]; cbn [fst snd trace]; rewrite Ht.
  - eexists. rewrite <- !app_assoc. split; [reflexivity |]. right.
    exists config, archive_ext, expected_hash. split; [reflexivity |]. split; [exact Hres |].
    repeat first [rewrite requests_app | rewrite requests_printed
                 | rewrite requests_url | rewrite (requests_prints ps Hps)].
    reflexivity.
  - eexists. rewrite <- !app_assoc. split; [reflexivity |]. right.
    exists config, archive_ext, expected_hash. split; [reflexivity |]. split; [exact Hres |].
    repeat first [rewrite requests_app | rewrite requests_printed
                 | rewrite requests_url | rewrite (requests_prints ps Hps)].
    reflexivity.
Qed.


(** When the transport fails, the run stops with the error that names the
    URL and the cause; the output directory has been created, nothing is
    in it that was not there, and the temporary directory is gone. *)
Theorem transport_failure_stops_fetch (urlopen : string -> string + list byte)
        (unzip untar_gz : list byte -> extraction)
        (mkdtemp : gmap (list string) node -> list string)
        (version : string) (output_dir : list string) (platform_triplet : string)
        (versions_file : text_file) (config : version_table)
        (supported : gmap string (string * string)) (archive_ext expected_hash : string)
        (cause : string) (w : world) :
  let url := download_url version (archive_filename platform_triplet version archive_ext) in
  load_platform_config versions_file = Ok config ->
  config !! version = Some supported ->
  supported !! platform_triplet = Some (archive_ext, expected_hash) ->
  existsb (is_file (fs w)) (Path.ancestors output_dir) = false ->
  fresh_dir (mkdtemp (make_dirs output_dir (fs w))) (make_dirs output_dir (fs w)) = true ->
  urlopen url = inl cause ->
  download_aic_sdk urlopen unzip untar_gz mkdtemp version output_dir platform_triplet
                   versions_file w
  = (Raise (RuntimeError ("Failed to download " +:+ url +:+ ": " +:+ cause)),
     mk_world (make_dirs output_dir (fs w))
              (trace w ++ [Printed ("Platform: " +:+ platform_triplet);
                           Printed ("Download URL: " +:+ url);
                           Printed ("Downloading " +:+ url +:+ "...");
                           UrlRetrieve url])).
Proof.
  intros url Hload Hv Hp Hmk Hfresh Hopen.
  rewrite download_aic_sdk_unfold. cbv zeta. rewrite Hload, Hv, Hp, Hmk.
  cbn [fst snd]. fold url.
  set (f1 := make_dirs output_dir (fs w)) in *.
  set (tmp := mkdtemp f1) in *.
  unfold with_TemporaryDirectory. cbn [fs trace]. fold tmp.
  unfold bind at 1. unfold download_file, try_except, urlretrieve, bind, print.
  cbn [fs trace]. rewrite Hopen. cbn [fst snd fs trace str_of_exn].
  f_equal. f_equal.
  - apply rmtree_restore; [exact Hfresh |].
    intros k Hk. apply lookup_insert_ne. intros <-. apply Hk. reflexivity.
  - rewrite <- !app_assoc. reflexivity.
Qed.

Lemma transport_failure_stops_fetch_witness :
  download_aic_sdk refusing Demo.unpack Demo.unpack Demo.mkdtemp "1.0.0" Demo.out
                   "x86_64-unknown-linux-gnu" Demo.versions Demo.start
  = (Raise (RuntimeError
              ("Failed to download "
               +:+ download_url "1.0.0"
                     (archive_filename "x86_64-unknown-linux-gnu" "1.0.0" "tar.gz")
               +:+ ": " +:+ "HTTP Error 404: Not Found")),
     mk_world (make_dirs Demo.out (fs Demo.start))
       (trace Demo.start ++
          [Printed ("Platform: " +:+ "x86_64-unknown-linux-gnu");
           Printed ("Download URL: "
                    +:+ download_url "1.0.0"
                          (archive_filename "x86_64-unknown-linux-gnu" "1.0.0" "tar.gz"));
           Printed ("Downloading "
                    +:+ download_url "1.0.0"
                          (archive_filename "x86_64-unknown-linux-gnu" "1.0.0" "tar.gz")
                    +:+ "...");
           UrlRetrieve (download_url "1.0.0"
                          (archive_filename "x86_64-unknown-linux-gnu" "1.0.0" "tar.gz"))])).
Proof.
  apply (transport_failure_stops_fetch refusing Demo.unpack Demo.unpack Demo.mkdtemp "1.0.0"
           Demo.out "x86_64-unknown-linux-gnu" Demo.versions Demo.table Demo.supported
           "tar.gz" "2cf24dba5fb0a30e26e83b2ac5b9e29e1b161e5c1fa7425e73043362938b9824"
           "HTTP Error 404: Not Found" Demo.start).
  - reflexivity.
  - reflexivity.
  - reflexivity.
  - reflexivity.
  - reflexivity.
  - reflexivity.
Defined.

(** ** The entry point *)

Lemma lower_hex_one_line (s : string) :
  lower_hex s = true -> lacks "010" s = true.
Proof.
  unfold lower_hex, lacks. induction s as [| c s IH]; [reflexivity |].
  cbn [list_ascii_of_string forallb]. intros H.
  apply andb_true_iff in H as [Hc Hs]. rewrite (IH Hs), andb_true_r.
  destruct (Ascii.eqb c "010") eqn:Hnl; [| reflexivity].
  apply Ascii.eqb_eq in Hnl. subst c. discriminate Hc.
Qed.

(** The text of the checksum error after [Error: ], line by line. *)
Lemma mismatch_text_lines (expected actual : string) :
  lacks "010" expected = true -> lacks "010" actual = true ->
  Py.split "010" ("Error: " +:+ str_of_exn
                     (RuntimeError ("Hash verification failed!" +:+ Py.newline
                                    +:+ "Expected: " +:+ expected +:+ Py.newline
                                    +:+ "Actual:   " +:+ actual)))
  = ["Error: Hash verification failed!"; "Expected: " +:+ expected;
     "Actual:   " +:+ actual].
Proof.
  intros He Ha. cbn [str_of_exn].
  change ("Error: " +:+ "Hash verification failed!" +:+ Py.newline
          +:+ "Expected: " +:+ expected +:+ Py.newline +:+ "Actual:   " +:+ actual)
    with ("Error: Hash verification failed!"
          +:+ String "010" ("Expected: " +:+ expected +:+ String "010" ("Actual:   " +:+ actual))).
  rewrite split_app_sep.
  rewrite <- (append_assoc "Expected: " expected), split_app_sep.
  rewrite (split_none "010" ("Expected: " +:+ expected))
    by (rewrite lacks_app, He; reflexivity).
  rewrite (split_none "010" ("Actual:   " +:+ actual))
    by (rewrite lacks_app, Ha; reflexivity).
  reflexivity.
Qed.

(** The scenario of a checksum mismatch, at the level of the process:
    status 1 and one message on stderr, which is three lines long. *)
Theorem main_reports_checksum_mismatch (urlopen : string -> string + list byte)
        (unzip untar_gz : list byte -> extraction)
        (mkdtemp : gmap (list string) node -> list string)
        (args : namespace) (config : version_table)
        (supported : gmap string (string * string)) (archive_ext expected_hash : string)
        (name : string) (body : list byte) (w : world) :
  let filename := archive_filename (ns_platform args) (ns_version args) archive_ext in
  let url := download_url (ns_version args) filename in
  let temp_path := mkdtemp (make_dirs (ns_output args) (fs w)) ++ [name] in
  let message :=
    "Error: Hash verification failed!" +:+ Py.newline
      +:+ "Expected: " +:+ expected_hash +:+ Py.newline
      +:+ "Actual:   " +:+ SHA256.sha256_hex body in
  load_platform_config (ns_versions_file args) = Ok config ->
  config !! ns_version args = Some supported ->
  supported !! ns_platform args = Some (archive_ext, expected_hash) ->
  existsb (is_file (fs w)) (Path.ancestors (ns_output args)) = false ->
  fresh_dir (mkdtemp (make_dirs (ns_output args) (fs w))) (make_dirs (ns_output args) (fs w))
  = true ->
  Path.join [] filename = [name] ->
  urlopen url = inr body ->
  SHA256.sha256_hex body <> expected_hash ->
  lacks "010" expected_hash = true ->
  main urlopen unzip untar_gz mkdtemp args w
  = (1%nat, [message],
     mk_world (make_dirs (ns_output args) (fs w))
              (trace w ++ [Printed ("Platform: " +:+ ns_platform args);
                           Printed ("Download URL: " +:+ url);
                           Printed ("Downloading " +:+ url +:+ "...");
                           UrlRetrieve url;
                           Printed ("Downloaded to " +:+ Path.str temp_path);
                           Printed "Verifying SHA256 hash..."]))
  /\ Py.split "010" message
     = ["Error: Hash verification failed!"; "Expected: " +:+ expected_hash;
        "Actual:   " +:+ SHA256.sha256_hex body].
Proof.
  intros filename url temp_path message Hload Hv Hp Hmk Hfresh Hname Hopen Hne Hline.
  split.
  - assert (download_aic_sdk urlopen unzip untar_gz mkdtemp (ns_version args)
              (ns_output args) (ns_platform args) (ns_versions_file args) w
            = (Raise (RuntimeError ("Hash verification failed!" +:+ Py.newline
                                    +:+ "Expected: " +:+ expected_hash +:+ Py.newline
                                    +:+ "Actual:   " +:+ SHA256.sha256_hex body)),
               mk_world (make_dirs (ns_output args) (fs w))
                 (trace w ++ [Printed ("Platform: " +:+ ns_platform args);
                              Printed ("Download URL: " +:+ url);
                              Printed ("Downloading " +:+ url +:+ "...");
                              UrlRetrieve url;
                              Printed ("Downloaded to " +:+ Path.str temp_path);
                              Printed "Verifying SHA256 hash..."]))) as Hrun.
    { rewrite download_aic_sdk_unfold. cbv zeta. rewrite Hload, Hv, Hp, Hmk.
      cbn [fst snd]. fold filename url.
      set (f1 := make_dirs (ns_output args) (fs w)) in *.
      set (tmp := mkdtemp f1) in *.
      match goal with
      | |- context [with_TemporaryDirectory mkdtemp ?b ?w0] =>
          assert (with_TemporaryDirectory mkdtemp b w0
                  = (Raise (RuntimeError ("Hash verification failed!" +:+ Py.newline
                                          +:+ "Expected: " +:+ expected_hash +:+ Py.newline
                                          +:+ "Actual:   " +:+ SHA256.sha256_hex body)),
                     mk_world f1
                       (trace w ++ [Printed ("Platform: " +:+ ns_platform args);
                                    Printed ("Download URL: " +:+ url);
                                    Printed ("Downloading " +:+ url +:+ "...");
                                    UrlRetrieve url;
                                    Printed ("Downloaded to " +:+ Path.str temp_path);
                                    Printed "Verifying SHA256 hash..."]))) as Hafter
      end.
      { unfold with_TemporaryDirectory. cbn [fs trace]. fold tmp.
        rewrite (join_from_root tmp), Hname. fold temp_path.
        unfold bind at 1.
        rewrite (download_file_ok urlopen url temp_path body
                   (<[temp_path := File body]> (<[tmp := Dir]> f1))
                   (mk_world (<[tmp := Dir]> f1) _) Hopen
                   (write_file_in_fresh_dir tmp name body f1 Hfresh)).
        unfold bind at 1.
        rewrite (verify_hash_mismatch temp_path expected_hash body);
          [| apply lookup_insert_eq | exact Hne].
        cbn [fst snd fs trace].
        f_equal. f_equal.
        - apply rmtree_restore; [exact Hfresh |].
          intros k Hk. rewrite !lookup_insert_ne; [reflexivity | |].
          + intros <-. apply Hk. reflexivity.
          + intros <-. apply Hk. apply prefix_app_r. reflexivity.
        - rewrite <- !app_assoc. reflexivity. }
      rewrite Hafter. reflexivity. }
    unfold main. rewrite Hrun. reflexivity.
  - apply (mismatch_text_lines expected_hash (SHA256.sha256_hex body) Hline).
    apply lower_hex_one_line. apply Hex_facts.sha256_hex_shape.
Qed.

Lemma main_reports_checksum_mismatch_witness :
  main Demo.urlopen Demo.unpack Demo.unpack Demo.mkdtemp
       {| ns_version := "1.0.0"; ns_output := Demo.out;
          ns_platform := "x86_64-pc-windows-msvc"; ns_versions_file := Demo.versions |}
       Demo.start
  = (1%nat,
     ["Error: Hash verification failed!" +:+ Py.newline
        +:+ "Expected: " +:+ "0000" +:+ Py.newline
        +:+ "Actual:   " +:+ SHA256.sha256_hex Demo.hello],
     mk_world (make_dirs Demo.out (fs Demo.start))
       (trace Demo.start
        ++ [Printed ("Platform: " +:+ "x86_64-pc-windows-msvc");
            Printed ("Download URL: "
                     +:+ download_url "1.0.0"
                           (archive_filename "x86_64-pc-windows-msvc" "1.0.0" "zip"));
            Printed ("Downloading "
                     +:+ download_url "1.0.0"
                           (archive_filename "x86_64-pc-windows-msvc" "1.0.0" "zip")
                     +:+ "...");
            UrlRetrieve (download_url "1.0.0"
                           (archive_filename "x86_64-pc-windows-msvc" "1.0.0" "zip"));
            Printed ("Downloaded to "
                     +:+ Path.str (Demo.mkdtemp (make_dirs Demo.out (fs Demo.start))
                                   ++ ["aic-sdk-x86_64-pc-windows-msvc-1.0.0.zip"]));
            Printed "Verifying SHA256 hash..."]))
  /\ Py.split "010" ("Error: Hash verification failed!" +:+ Py.newline
                     +:+ "Expected: " +:+ "0000" +:+ Py.newline
                     +:+ "Actual:   " +:+ SHA256.sha256_hex Demo.hello)
     = ["Error: Hash verification failed!"; "Expected: " +:+ "0000";
        "Actual:   " +:+ SHA256.sha256_hex Demo.hello].
Proof.
  apply (main_reports_checksum_mismatch Demo.urlopen Demo.unpack Demo.unpack Demo.mkdtemp
           {| ns_version := "1.0.0"; ns_output := Demo.out;
              ns_platform := "x86_64-pc-windows-msvc";
              ns_versions_file := Demo.versions |}
           Demo.table Demo.supported "zip" "0000"
           "aic-sdk-x86_64-pc-windows-msvc-1.0.0.zip" Demo.hello Demo.start).
  - reflexivity.
  - reflexivity.
  - reflexivity.
  - reflexivity.
  - reflexivity.
  - reflexivity.
  - reflexivity.
  - intros H. vm_compute in H. discriminate H.
  - reflexivity.
Defined.

(** The scenario of an unlisted version, at the level of the process:
    status 1, one line on stderr that names the version and the file,
    nothing downloaded and nothing created. *)
Theorem main_reports_unlisted_version (urlopen : string -> string + list byte)
        (unzip untar_gz : list byte -> extraction)
        (mkdtemp : gmap (list string) node -> list string)
        (args : namespace) (config : version_table) (w : world) :
  load_platform_config (ns_versions_file args) = Ok config ->
  config !! ns_version args = None ->
  main urlopen unzip untar_gz mkdtemp args w
  = (1%nat,
     ["Error: Version " +:+ ns_version args +:+ " not found in "
      +:+ tf_name (ns_versions_file args)],
     mk_world (fs w) (trace w ++ [Printed ("Platform: " +:+ ns_platform args)])).
Proof.
  intros Hload Hv. unfold main. rewrite download_aic_sdk_unfold. cbv zeta.
  rewrite Hload, Hv. reflexivity.
Qed.

Lemma main_reports_unlisted_version_witness :
  main Demo.urlopen Demo.unpack Demo.unpack Demo.mkdtemp
       {| ns_version := "9.9.9"; ns_output := Demo.out;
          ns_platform := "x86_64-unknown-linux-gnu"; ns_versions_file := Demo.versions |}
       Demo.start
  = (1%nat,
     ["Error: Version " +:+ "9.9.9" +:+ " not found in " +:+ tf_name Demo.versions],
     mk_world (fs Demo.start)
              (trace Demo.start ++ [Printed ("Platform: " +:+ "x86_64-unknown-linux-gnu")])).
Proof.
  apply (main_reports_unlisted_version Demo.urlopen Demo.unpack Demo.unpack Demo.mkdtemp
           {| ns_version := "9.9.9"; ns_output := Demo.out;
              ns_platform := "x86_64-unknown-linux-gnu";
              ns_versions_file := Demo.versions |} Demo.table Demo.start).
  - reflexivity.
  - reflexivity.
Defined.


(** * Properties of the symbol renaming script *)

Lemma first_available_spec (which : string -> bool) (candidates : list string) :
  match Rename.first_available which candidates with
  | Some tool =>
      exists before after,
        candidates = before ++ tool :: after
        /\ which tool = true
        /\ Forall (fun t => which t = false) before
  | None => Forall (fun t => which t = false) candidates
  end.
Proof.
  induction candidates as [|t rest IH]; simpl; [constructor |].
  destruct (which t) eqn:Ht.
  - exists [], rest. repeat split; [exact Ht | constructor].
  - destruct (Rename.first_available which rest) as [tool|].
    + destruct IH as (before & after & -> & Htool & Hbefore).
      exists (t :: before), after. repeat split; [exact Htool |].
      constructor; assumption.
    + constructor; assumption.
Qed.

(** The tool search takes the first candidate that is on the search
    path, in the order of preference: the unversioned LLVM tool, its
    versions 18, 17 and 16, then the GNU tool; it finds nothing exactly
    when no candidate is there. *)
Theorem tool_search_order (which : string -> bool) :
  (forall tool, Rename.find_objcopy_tool which = Some tool ->
     exists before after,
       Rename.objcopy_candidates = before ++ tool :: after
       /\ which tool = true /\ Forall (fun t => which t = false) before)
  /\ (Rename.find_objcopy_tool which = None
      <-> Forall (fun t => which t = false) Rename.objcopy_candidates)
  /\ (forall tool, Rename.find_ar_tool which = Some tool ->
        exists before after,
          Rename.ar_candidates = before ++ tool :: after
          /\ which tool = true /\ Forall (fun t => which t = false) before)
  /\ (Rename.find_ar_tool which = None
      <-> Forall (fun t => which t = false) Rename.ar_candidates).
Proof.
  unfold Rename.find_objcopy_tool, Rename.find_ar_tool.
  pose proof (first_available_spec which Rename.objcopy_candidates) as Ho.
  pose proof (first_available_spec which Rename.ar_candidates) as Ha.
  split; [| split; [| split]].
  - intros tool Htool. rewrite Htool in Ho. exact Ho.
  - split.
    + intros Hnone. rewrite Hnone in Ho. exact Ho.
    + intros Hall.
      destruct (Rename.first_available which Rename.objcopy_candidates) as [tool|];
        [| reflexivity].
      destruct Ho as (before & after & Heq & Htool & _).
      rewrite Heq in Hall. apply Forall_app in Hall as [_ Hall].
      apply Forall_cons in Hall as [Hno _]. congruence.
  - intros tool Htool. rewrite Htool in Ha. exact Ha.
  - split.
    + intros Hnone. rewrite Hnone in Ha. exact Ha.
    + intros Hall.
      destruct (Rename.first_available which Rename.ar_candidates) as [tool|];
        [| reflexivity].
      destruct Ha as (before & after & Heq & Htool & _).
      rewrite Heq in Hall. apply Forall_app in Hall as [_ Hall].
      apply Forall_cons in Hall as [Hno _]. congruence.
Qed.

(** Whatever the prefix, the arguments for [objcopy] are thirty-six: for
    the i-th symbol of the table, in the order of the table, the flag,
    the renaming of the symbol to the prefixed symbol, the flag again and
    the same renaming of its [DW.ref.] companion. *)
Theorem redefine_args_layout (prefix : string) :
  length (Rename.redefine_args prefix) = 36%nat
  /\ forall i symbol,
       Rename.RUST_SYMBOLS_TO_RENAME !! i = Some symbol ->
       Rename.redefine_args prefix !! (4 * i)%nat = Some "--redefine-sym"
       /\ Rename.redefine_args prefix !! (4 * i + 1)%nat
          = Some (symbol +:+ "=" +:+ prefix +:+ symbol)
       /\ Rename.redefine_args prefix !! (4 * i + 2)%nat = Some "--redefine-sym"
       /\ Rename.redefine_args prefix !! (4 * i + 3)%nat
          = Some ("DW.ref." +:+ symbol +:+ "=DW.ref." +:+ prefix +:+ symbol).
Proof.
  split; [reflexivity |].
  intros i symbol Hi.
  do 9 (destruct i as [|i]; [injection Hi as <-; repeat split; reflexivity |]).
  discriminate Hi.
Qed.


Lemma tool_search_order_witness :
  exists before after,
    Rename.objcopy_candidates = before ++ "objcopy" :: after
    /\ gnu_only "objcopy" = true /\ Forall (fun t => gnu_only t = false) before.
Proof.
  apply (proj1 (tool_search_order gnu_only) "objcopy"). reflexivity.
Defined.

Lemma redefine_args_layout_witness :
  Rename.redefine_args "aic_" !! (4 * 2)%nat = Some "--redefine-sym"
  /\ Rename.redefine_args "aic_" !! (4 * 2 + 1)%nat
     = Some ("rust_panic" +:+ "=" +:+ "aic_" +:+ "rust_panic")
  /\ Rename.redefine_args "aic_" !! (4 * 2 + 2)%nat = Some "--redefine-sym"
  /\ Rename.redefine_args "aic_" !! (4 * 2 + 3)%nat
     = Some ("DW.ref." +:+ "rust_panic" +:+ "=DW.ref." +:+ "aic_" +:+ "rust_panic").
Proof.
  apply (proj2 (redefine_args_layout "aic_") 2%nat "rust_panic"). reflexivity.
Defined.

(** ** The object files of the archive *)

Lemma endswith_inv s : forall p, Py.endswith s p = true -> exists a, s = a +:+ p.
Proof.
  induction s as [|x s IH]; intros p.
  - simpl. destruct p; [exists EmptyString; reflexivity | discriminate].
  - change (Py.endswith (String x s) p)
      with (if String.eqb (String x s) p then true else Py.endswith s p).
    destruct (String.eqb (String x s) p) eqn:E.
    + intros _. apply String.eqb_eq in E. exists EmptyString. exact E.
    + intros H. destruct (IH p H) as [a ->]. exists (String x a). reflexivity.
Qed.

Lemma endswith_iff s p : Py.endswith s p = true <-> exists a, s = a +:+ p.
Proof.
  split; [apply endswith_inv |]. intros [a ->]. apply endswith_app.
Qed.

Lemma last_char_inj a : forall b c d,
  a +:+ String c EmptyString = b +:+ String d EmptyString -> c = d.
Proof.
  induction a as [|x a IH]; intros [|y b] c d H.
  - injection H as H. exact H.
  - change (EmptyString +:+ String c EmptyString) with (String c EmptyString) in H.
    change (String y b +:+ String d EmptyString)
      with (String y (b +:+ String d EmptyString)) in H.
    injection H as _ H. destruct b; discriminate H.
  - change (EmptyString +:+ String d EmptyString) with (String d EmptyString) in H.
    change (String x a +:+ String c EmptyString)
      with (String x (a +:+ String c EmptyString)) in H.
    injection H as _ H. destruct a; discriminate H.
  - change (String x a +:+ String c EmptyString)
      with (String x (a +:+ String c EmptyString)) in H.
    change (String y b +:+ String d EmptyString)
      with (String y (b +:+ String d EmptyString)) in H.
    injection H as _ H. apply (IH b c d H).
Qed.

Lemma rcgu_is_object name :
  Py.endswith name ".rcgu.o" = true ->
  Py.endswith name ".o" = true /\ Py.endswith name ".obj" = false.
Proof.
  intros H. apply endswith_inv in H as [a ->]. split.
  - apply endswith_iff. exists (a +:+ ".rcgu"). rewrite append_assoc. reflexivity.
  - destruct (Py.endswith (a +:+ ".rcgu.o") ".obj") eqn:E; [| reflexivity].
    apply endswith_inv in E as [b Hb]. exfalso.
    assert ((a +:+ ".rcgu.") +:+ "o" = (b +:+ ".ob") +:+ "j") as Hlast
      by (rewrite !append_assoc; exact Hb).
    apply last_char_inj in Hlast. discriminate Hlast.
Qed.

Lemma object_not_obj name :
  Py.endswith name ".o" = true -> Py.endswith name ".obj" = false.
Proof.
  intros H. apply endswith_inv in H as [a ->].
  destruct (Py.endswith (a +:+ ".o") ".obj") eqn:E; [| reflexivity].
  apply endswith_inv in E as [b Hb]. exfalso.
  assert ((a +:+ ".") +:+ "o" = (b +:+ ".ob") +:+ "j") as Hlast
    by (rewrite !append_assoc; exact Hb).
  apply last_char_inj in Hlast. discriminate Hlast.
Qed.

Lemma occurrences_app name a b :
  occurrences name (a ++ b) = (occurrences name a + occurrences name b)%nat.
Proof. unfold occurrences. rewrite List.filter_app, length_app. reflexivity. Qed.

Lemma occurrences_absent name names : name ∉ names -> occurrences name names = 0%nat.
Proof.
  unfold occurrences. induction names as [|n names IH]; [reflexivity |].
  intros Hnot. simpl. destruct (String.eqb name n) eqn:E.
  - apply String.eqb_eq in E. subst n. exfalso. apply Hnot. left.
  - apply IH. intros Hin. apply Hnot. right. exact Hin.
Qed.

(** In a listing without repetition a name is kept by a filter once or
    not at all. *)
Lemma occurrences_glob name suffix names :
  NoDup names -> name ∈ names ->
  occurrences name (Rename.glob_suffix suffix names)
  = if Py.endswith name suffix then 1%nat else 0%nat.
Proof.
  unfold Rename.glob_suffix. induction 1 as [|n names Hn Hnodup IH].
  - intros Hin. inversion Hin.
  - intros Hin. simpl. destruct (decide (name = n)) as [-> | Hne].
    + destruct (Py.endswith n suffix).
      * change (n :: List.filter (fun x => Py.endswith x suffix) names)
          with ([n] ++ List.filter (fun x => Py.endswith x suffix) names).
        rewrite occurrences_app.
        rewrite (occurrences_absent n (List.filter _ names)).
        -- unfold occurrences. simpl. rewrite String.eqb_refl. reflexivity.
        -- intros Hin'. apply Hn. apply list_elem_of_In in Hin'.
           apply List.filter_In in Hin' as [Hin' _]. apply list_elem_of_In. exact Hin'.
      * apply occurrences_absent. intros Hin'. apply Hn. apply list_elem_of_In in Hin'.
        apply List.filter_In in Hin' as [Hin' _]. apply list_elem_of_In. exact Hin'.
    + apply elem_of_cons in Hin as [-> | Hin]; [congruence |].
      destruct (Py.endswith n suffix).
      * change (n :: List.filter (fun x => Py.endswith x suffix) names)
          with ([n] ++ List.filter (fun x => Py.endswith x suffix) names).
        rewrite occurrences_app. unfold occurrences at 1. simpl.
        apply String.eqb_neq in Hne. rewrite Hne. simpl. apply IH. exact Hin.
      * apply IH. exact Hin.
Qed.

(** The three listings overlap: every extracted file whose name ends in
    [.rcgu.o] is listed twice, once as [*.o] and once as [*.rcgu.o], so it
    is counted twice, given to [objcopy] twice and named twice to [ar];
    any other [.o] file and any [.obj] file is listed once. *)
Theorem codegen_units_listed_twice (names : list string) (name : string) :
  NoDup names -> name ∈ names ->
  (Py.endswith name ".rcgu.o" = true ->
   occurrences name (Rename.object_files names) = 2%nat)
  /\ (Py.endswith name ".o" = true -> Py.endswith name ".rcgu.o" = false ->
      occurrences name (Rename.object_files names) = 1%nat)
  /\ (Py.endswith name ".obj" = true ->
      occurrences name (Rename.object_files names) = 1%nat)
  /\ (Py.endswith name ".o" = false -> Py.endswith name ".obj" = false ->
      occurrences name (Rename.object_files names) = 0%nat).
Proof.
  intros Hnodup Hin. unfold Rename.object_files.
  rewrite !occurrences_app, !(occurrences_glob name _ names Hnodup Hin).
  split; [| split; [| split]].
  - intros H. destruct (rcgu_is_object name H) as [Ho Hobj]. rewrite H, Ho, Hobj. reflexivity.
  - intros Ho Hr. rewrite Ho, Hr, (object_not_obj name Ho). reflexivity.
  - intros Hobj.
    destruct (Py.endswith name ".o") eqn:Ho.
    + rewrite (object_not_obj name Ho) in Hobj. discriminate.
    + destruct (Py.endswith name ".rcgu.o") eqn:Hr.
      * destruct (rcgu_is_object name Hr) as [Ho' _]. congruence.
      * rewrite Hobj. reflexivity.
  - intros Ho Hobj. rewrite Ho, Hobj.
    destruct (Py.endswith name ".rcgu.o") eqn:Hr; [| reflexivity].
    destruct (rcgu_is_object name Hr) as [Ho' _]. congruence.
Qed.

Lemma codegen_units_listed_twice_witness :
  (Py.endswith "core.3f2a.rcgu.o" ".rcgu.o" = true ->
   occurrences "core.3f2a.rcgu.o"
     (Rename.object_files ["aic.o"; "core.3f2a.rcgu.o"; "shim.obj"; "README"]) = 2%nat)
  /\ (Py.endswith "core.3f2a.rcgu.o" ".o" = true ->
      Py.endswith "core.3f2a.rcgu.o" ".rcgu.o" = false ->
      occurrences "core.3f2a.rcgu.o"
        (Rename.object_files ["aic.o"; "core.3f2a.rcgu.o"; "shim.obj"; "README"]) = 1%nat)
  /\ (Py.endswith "core.3f2a.rcgu.o" ".obj" = true ->
      occurrences "core.3f2a.rcgu.o"
        (Rename.object_files ["aic.o"; "core.3f2a.rcgu.o"; "shim.obj"; "README"]) = 1%nat)
  /\ (Py.endswith "core.3f2a.rcgu.o" ".o" = false ->
      Py.endswith "core.3f2a.rcgu.o" ".obj" = false ->
      occurrences "core.3f2a.rcgu.o"
        (Rename.object_files ["aic.o"; "core.3f2a.rcgu.o"; "shim.obj"; "README"]) = 0%nat).
Proof.
  apply (codegen_units_listed_twice ["aic.o"; "core.3f2a.rcgu.o"; "shim.obj"; "README"]
           "core.3f2a.rcgu.o").
  - repeat constructor; intros H; repeat (apply elem_of_cons in H as [H | H];
      [discriminate H |]); inversion H.
  - right. left.
Defined.

Example codegen_unit_twice :
  Rename.object_files ["aic.o"; "core.3f2a.rcgu.o"; "shim.obj"; "README"]
  = ["aic.o"; "core.3f2a.rcgu.o"; "shim.obj"; "core.3f2a.rcgu.o"].
Proof. reflexivity. Qed.


(** ** Falling back to a plain copy *)

Section Fallback.

Variable which : string -> bool.
Variable ar_extract :
  string -> option (list byte) -> Rename.process_failure + list (string * list byte).
Variable objcopy_run : string -> list string -> list byte -> option (list byte).
Variable ar_create :
  string -> list (string * option (list byte)) -> Rename.process_failure + list byte.
Variable mkdtemp : gmap (list string) node -> list string.

Lemma copy2_plain (src dst : list string) (content : list byte) (s : Rename.state) :
  Rename.files s !! src = Some (File content) ->
  is_dir (Rename.files s) dst = false ->
  is_dir (Rename.files s) (Path.parent dst) = true ->
  dst <> src ->
  Rename.copy2 src dst s
  = (Ok tt, Rename.mk_state (<[dst := File content]> (Rename.files s)) (Rename.log s)).
Proof.
  intros Hsrc Hdst Hparent Hne. unfold Rename.copy2. rewrite Hsrc, Hdst.
  rewrite decide_False by exact Hne. unfold write_file. rewrite Hdst, Hparent. reflexivity.
Qed.

(** Without [objcopy] or without [ar] nothing is renamed and no process
    is started: after four lines on stderr the library is copied as it
    is, and the script ends normally, with exit status 0. *)
Theorem missing_tool_copies_library (lib_path output_path : list string) (prefix : string)
        (content : list byte) (s : Rename.state) :
  Rename.find_objcopy_tool which = None \/ Rename.find_ar_tool which = None ->
  Rename.files s !! lib_path = Some (File content) ->
  is_dir (Rename.files s) output_path = false ->
  is_dir (Rename.files s) (Path.parent output_path) = true ->
  output_path <> lib_path ->
  let s' :=
    Rename.mk_state (<[output_path := File content]> (Rename.files s))
      (Rename.log s
       ++ [Rename.Err "Error: Required tools not found.";
           Rename.Err ("  objcopy: "
                       +:+ default "NOT FOUND" (Rename.find_objcopy_tool which));
           Rename.Err ("  ar: " +:+ default "NOT FOUND" (Rename.find_ar_tool which));
           Rename.Err "Cannot rename symbols. Copying library as-is."]) in
  Rename.rename_symbols_in_archive which ar_extract objcopy_run ar_create mkdtemp
    lib_path output_path prefix s = (Ok tt, s')
  /\ Rename.main which ar_extract objcopy_run ar_create mkdtemp
       lib_path output_path prefix s = (0%nat, s').
Proof.
  intros Hmissing Hlib Hout Hparent Hne s'.
  assert (Rename.rename_symbols_in_archive which ar_extract objcopy_run ar_create mkdtemp
            lib_path output_path prefix s = (Ok tt, s')) as Hrun.
  { unfold Rename.rename_symbols_in_archive, s'.
    destruct (Rename.find_objcopy_tool which) as [objcopy|] eqn:Ho;
      destruct (Rename.find_ar_tool which) as [ar|] eqn:Ha;
      try (destruct Hmissing; discriminate);
      (rewrite (copy2_plain lib_path output_path content); try assumption;
       unfold Rename.emit; cbn [Rename.files Rename.log];
       rewrite <- !app_assoc; reflexivity). }
  split; [exact Hrun |]. unfold Rename.main. rewrite Hlib, Hrun. reflexivity.
Qed.

(** With both tools found, nothing is left at or below the temporary
    directory, however the run ends. *)
Theorem rename_removes_temporary_directory (lib_path output_path : list string)
        (prefix objcopy ar : string) (s : Rename.state) (p : list string) :
  Rename.find_objcopy_tool which = Some objcopy ->
  Rename.find_ar_tool which = Some ar ->
  mkdtemp (Rename.files s) `prefix_of` p ->
  Rename.files (Rename.rename_symbols_in_archive which ar_extract objcopy_run ar_create
                  mkdtemp lib_path output_path prefix s).2 !! p = None.
Proof.
  intros Ho Ha Hp. unfold Rename.rename_symbols_in_archive. rewrite Ho, Ha.
  cbv zeta. unfold Rename.emit at 1 2. cbn [Rename.files Rename.log].
  match goal with
  | |- context [Rename.try_block ?a ?b ?c ?d ?e ?f ?g ?h ?i ?j] =>
      destruct (Rename.try_block a b c d e f g h i j) as [[|failure|e0] s1]
  end.
  - cbn [snd Rename.files]. rewrite rmtree_lookup, decide_True by exact Hp. reflexivity.
  - match goal with
    | |- context [Rename.copy2 ?a ?b ?c] => destruct (Rename.copy2 a b c) as [r s2]
    end.
    cbn [snd Rename.files]. rewrite rmtree_lookup, decide_True by exact Hp. reflexivity.
  - match goal with
    | |- context [Rename.copy2 ?a ?b ?c] => destruct (Rename.copy2 a b c) as [r s2]
    end.
    cbn [snd Rename.files]. rewrite rmtree_lookup, decide_True by exact Hp. reflexivity.
Qed.

End Fallback.

Lemma missing_tool_copies_library_witness :
  let s' :=
    Rename.mk_state (<[Rename_demo.out := File Demo.hello]> (Rename.files Rename_demo.start))
      (Rename.log Rename_demo.start
       ++ [Rename.Err "Error: Required tools not found.";
           Rename.Err ("  objcopy: "
                       +:+ default "NOT FOUND"
                             (Rename.find_objcopy_tool Rename_demo.nothing_found));
           Rename.Err ("  ar: "
                       +:+ default "NOT FOUND"
                             (Rename.find_ar_tool Rename_demo.nothing_found));
           Rename.Err "Cannot rename symbols. Copying library as-is."]) in
  Rename.rename_symbols_in_archive Rename_demo.nothing_found Rename_demo.broken_ar
    Rename_demo.objcopy_run Rename_demo.ar_create Rename_demo.mkdtemp
    Rename_demo.lib Rename_demo.out "aic_" Rename_demo.start = (Ok tt, s')
  /\ Rename.main Rename_demo.nothing_found Rename_demo.broken_ar
       Rename_demo.objcopy_run Rename_demo.ar_create Rename_demo.mkdtemp
       Rename_demo.lib Rename_demo.out "aic_" Rename_demo.start = (0%nat, s').
Proof.
  apply (missing_tool_copies_library Rename_demo.nothing_found Rename_demo.broken_ar
           Rename_demo.objcopy_run Rename_demo.ar_create Rename_demo.mkdtemp
           Rename_demo.lib Rename_demo.out "aic_" Demo.hello Rename_demo.start).
  - left. reflexivity.
  - reflexivity.
  - reflexivity.
  - reflexivity.
  - discriminate.
Defined.

Lemma rename_removes_temporary_directory_witness :
  Rename.files (Rename.rename_symbols_in_archive gnu_only Rename_demo.broken_ar
                  Rename_demo.objcopy_run Rename_demo.ar_create Rename_demo.mkdtemp
                  Rename_demo.lib Rename_demo.out "aic_" Rename_demo.start).2
    !! ["tmp"; "tmpr7"; "aic.o"] = None.
Proof.
  apply (rename_removes_temporary_directory gnu_only Rename_demo.broken_ar
           Rename_demo.objcopy_run Rename_demo.ar_create Rename_demo.mkdtemp
           Rename_demo.lib Rename_demo.out "aic_" "objcopy" "ar" Rename_demo.start).
  - reflexivity.
  - reflexivity.
  - exists ["aic.o"]. reflexivity.
Defined.


(** ** The renaming run, whatever the tools do *)

Lemma extracted_lookup (tmp : list string) (extracted : list (string * list byte))
      (f : fs_map) (p : list string) :
  ¬ tmp `prefix_of` p ->
  fold_left (fun f m => <[tmp ++ [m.1] := File m.2]> f) extracted f !! p = f !! p.
Proof.
  intros Hp. revert f. induction extracted as [| m ms IH]; intros f; [reflexivity |].
  cbn [fold_left]. rewrite IH. apply lookup_insert_ne.
  intros <-. apply Hp. exists [m.1]. reflexivity.
Qed.

Section Loop.

Variable objcopy_run : string -> list string -> list byte -> option (list byte).
Variables (objcopy : string) (args : list string) (tmp : list string).

Lemma rename_loop_spec (objs : list string) (acc : Rename.state * nat) :
  let r := fold_left (Rename.rename_in_object objcopy_run objcopy args tmp) objs acc in
  Rename.log r.1 = Rename.log acc.1 ++ map (objcopy_call objcopy args tmp) objs
  /\ (acc.2 <= r.2 <= acc.2 + length objs)%nat
  /\ forall p : list string,
       ¬ tmp `prefix_of` p -> Rename.files r.1 !! p = Rename.files acc.1 !! p.
Proof.
  revert acc. induction objs as [| name objs IH]; intros acc; cbn zeta.
  - cbn [fold_left map length]. rewrite app_nil_r. split; [reflexivity |].
    split; [lia | reflexivity].
  - cbn [fold_left map length].
    destruct (IH (Rename.rename_in_object objcopy_run objcopy args tmp acc name))
      as (Hlog & Hcount & Hfiles).
    rewrite Hlog. clear IH Hlog.
    assert (let a := Rename.rename_in_object objcopy_run objcopy args tmp acc name in
            Rename.log a.1 = Rename.log acc.1 ++ [objcopy_call objcopy args tmp name]
            /\ (acc.2 <= a.2 <= S acc.2)%nat
            /\ forall p : list string,
                 ¬ tmp `prefix_of` p -> Rename.files a.1 !! p = Rename.files acc.1 !! p)
      as (Hlog1 & Hcount1 & Hfiles1).
    { unfold Rename.rename_in_object. cbv zeta. unfold Rename.emit.
      cbn [Rename.files Rename.log].
      destruct (Rename.file_content (Rename.files acc.1) (tmp ++ [name])) as [content|].
      - destruct (objcopy_run objcopy args content) as [renamed|];
          cbn [fst snd Rename.files Rename.log].
        + split; [reflexivity |]. split; [lia |]. intros p Hp.
          apply lookup_insert_ne. intros <-. apply Hp. exists [name]. reflexivity.
        + split; [reflexivity |]. split; [lia | reflexivity].
      - cbn [fst snd Rename.files Rename.log].
        split; [reflexivity |]. split; [lia | reflexivity]. }
    rewrite Hlog1, <- app_assoc. split; [reflexivity |]. split; [lia |].
    intros p Hp. rewrite (Hfiles p Hp). apply (Hfiles1 p Hp).
Qed.

End Loop.

Lemma is_dir_same (f f' : fs_map) (p : list string) :
  f' !! p = f !! p -> is_dir f' p = is_dir f p.
Proof. intros H. unfold is_dir. destruct p; [reflexivity | rewrite H; reflexivity]. Qed.

Lemma parent_shorter (p : list string) : p <> [] -> ¬ p `prefix_of` Path.parent p.
Proof.
  intros Hne Hp. apply prefix_length in Hp. unfold Path.parent in Hp.
  rewrite (app_removelast_last EmptyString Hne) in Hp at 1.
  rewrite length_app in Hp. cbn [length] in Hp. lia.
Qed.

Lemma not_dir_nonempty (f : fs_map) (p : list string) :
  is_dir f p = false -> p <> [] /\ f !! p <> Some Dir.
Proof.
  unfold is_dir. destruct p as [| c p]; [discriminate |].
  intros H. split; [discriminate |]. intros Hd. rewrite Hd in H. discriminate.
Qed.

Lemma absent_not_dir (f : fs_map) (p : list string) :
  p <> [] -> f !! p = None -> is_dir f p = false.
Proof.
  intros Hne Hp. unfold is_dir. destruct p; [contradiction |]. rewrite Hp. reflexivity.
Qed.

Section Block.

Variable ar_extract :
  string -> option (list byte) -> Rename.process_failure + list (string * list byte).
Variable objcopy_run : string -> list string -> list byte -> option (list byte).
Variable ar_create :
  string -> list (string * option (list byte)) -> Rename.process_failure + list byte.

Lemma try_block_spec (ar objcopy : string) (lib out : list string) (prefix : string)
      (tmp : list string) (content : list byte) (s s2 : Rename.state) (o : Rename.outcome) :
  Rename.files s !! lib = Some (File content) ->
  is_dir (Rename.files s) out = false ->
  is_dir (Rename.files s) (Path.parent out) = true ->
  out <> lib ->
  ¬ tmp `prefix_of` out ->
  ¬ tmp `prefix_of` lib ->
  Rename.try_block ar_extract objcopy_run ar_create ar objcopy lib out prefix tmp s = (o, s2) ->
  Rename.files s2 !! lib = Some (File content)
  /\ match o with
     | Rename.Done =>
         Rename.files s2 !! out = Some (File content)
         \/ exists ms archive,
              ar_create ar ms = inr archive /\ Rename.files s2 !! out = Some (File archive)
     | _ => is_dir (Rename.files s2) out = false
            /\ is_dir (Rename.files s2) (Path.parent out) = true
     end.
Proof.
  intros Hlib Hout Hparent Hne Htmp Htmplib.
  assert (¬ tmp `prefix_of` Path.parent out) as Htmpparent.
  { intros Hp. apply Htmp. etransitivity; [exact Hp | apply parent_prefix]. }
  destruct (not_dir_nonempty _ _ Hout) as [Hout_ne Hout_nd].
  unfold Rename.try_block. cbv zeta. unfold Rename.emit. cbn [Rename.files Rename.log].
  destruct (ar_extract ar (Rename.file_content (Rename.files s) lib))
    as [failure | extracted].
  { intros [= <- <-]. cbn [Rename.files]. auto. }
  set (f1 := fold_left (fun f m => <[tmp ++ [m.1] := File m.2]> f) extracted (Rename.files s)).
  assert (forall p : list string, ¬ tmp `prefix_of` p -> f1 !! p = Rename.files s !! p)
    as Hf1 by (intros p Hp; apply extracted_lookup; exact Hp).
  destruct (Rename.object_files (Rename.listdir f1 tmp)) as [| o1 objs] eqn:Hobjs.
  { rewrite (copy2_plain lib out content); cbn [Rename.files Rename.log].
    - intros [= <- <-]. cbn [Rename.files]. split.
      + rewrite lookup_insert_ne by exact Hne. rewrite Hf1 by exact Htmplib. exact Hlib.
      + left. apply lookup_insert_eq.
    - rewrite Hf1 by exact Htmplib. exact Hlib.
    - rewrite (is_dir_same (Rename.files s)); [exact Hout | apply Hf1; exact Htmp].
    - rewrite (is_dir_same (Rename.files s)); [exact Hparent | apply Hf1; exact Htmpparent].
    - exact Hne. }
  match goal with
  | |- context [fold_left ?step ?l ?acc] =>
      pose proof (rename_loop_spec objcopy_run objcopy (Rename.redefine_args prefix) tmp l acc)
        as Hloop;
      destruct (fold_left step l acc) as [s3 n] eqn:Hfold
  end.
  cbv zeta in Hloop. destruct Hloop as (_ & _ & Hf3). cbn [fst snd Rename.files] in Hf3.
  assert (forall p : list string, ¬ tmp `prefix_of` p -> Rename.files s3 !! p = Rename.files s !! p)
    as Hs3 by (intros p Hp; rewrite Hf3 by exact Hp; apply Hf1; exact Hp).
  clear Hf3. cbn [Rename.files Rename.log].
  destruct (existsb (is_file (Rename.files s3)) (Path.ancestors (Path.parent out))) eqn:Hex.
  { intros [= <- <-]. cbn [Rename.files]. split; [| split].
    - rewrite Hs3 by exact Htmplib. exact Hlib.
    - rewrite (is_dir_same (Rename.files s)); [exact Hout | apply Hs3; exact Htmp].
    - rewrite (is_dir_same (Rename.files s)); [exact Hparent | apply Hs3; exact Htmpparent]. }
  set (f4 := make_dirs (Path.parent out) (Rename.files s3)).
  assert (f4 !! out = Rename.files s !! out) as H4out.
  { unfold f4. rewrite make_dirs_lookup, decide_False; [apply Hs3; exact Htmp |].
    intros Hin. apply ancestors_prefix in Hin. exact (parent_shorter out Hout_ne Hin). }
  assert (f4 !! lib = Some (File content)) as H4lib.
  { unfold f4. rewrite make_dirs_lookup, decide_False;
      [rewrite Hs3 by exact Htmplib; exact Hlib |].
    intros Hin. apply list_elem_of_In in Hin.
    assert (existsb (is_file (Rename.files s3)) (Path.ancestors (Path.parent out)) = true)
      as Hyes.
    { apply existsb_exists. exists lib. split; [exact Hin |].
      unfold is_file. rewrite Hs3 by exact Htmplib. rewrite Hlib. reflexivity. }
    rewrite Hyes in Hex. discriminate. }
  assert (is_dir (delete out f4) out = false) as Hdel_out.
  { apply absent_not_dir; [exact Hout_ne | apply lookup_delete_eq]. }
  assert (is_dir (delete out f4) (Path.parent out) = true) as Hdel_parent.
  { assert (Path.parent out <> out) as Hpo.
    { intros Heq. apply (parent_shorter out Hout_ne). rewrite Heq. reflexivity. }
    revert Hparent Htmpparent Hpo. unfold is_dir.
    destruct (Path.parent out) as [| c q]; [reflexivity |]. intros Hparent Htmpparent Hpo.
    rewrite lookup_delete_ne by (intros Heq; apply Hpo; symmetry; exact Heq).
    unfold f4. rewrite make_dirs_lookup.
    destruct (decide (c :: q ∈ Path.ancestors (c :: q))); [reflexivity |].
    rewrite Hs3 by exact Htmpparent. exact Hparent. }
  destruct (f4 !! out) as [[| old] |] eqn:H4;
    try (exfalso; apply Hout_nd; rewrite <- H4out; reflexivity);
    cbn [Rename.files Rename.log];
    match goal with
    | |- context [ar_create ar ?ms] =>
        destruct (ar_create ar ms) as [failure | archive] eqn:Har
    end;
    intros [= <- <-]; cbn [Rename.files];
    try (split; [rewrite lookup_delete_ne by exact Hne; exact H4lib
                | split; [exact Hdel_out | exact Hdel_parent]]);
    (split;
     [rewrite lookup_insert_ne by exact Hne; rewrite lookup_delete_ne by exact Hne;
      exact H4lib
     | right; eexists; eexists; split; [exact Har | apply lookup_insert_eq]]).
Qed.


End Block.

Section Robust.

Variable which : string -> bool.
Variable ar_extract :
  string -> option (list byte) -> Rename.process_failure + list (string * list byte).
Variable objcopy_run : string -> list string -> list byte -> option (list byte).
Variable ar_create :
  string -> list (string * option (list byte)) -> Rename.process_failure + list byte.
Variable mkdtemp : gmap (list string) node -> list string.

(** Whatever the tools are and whatever they do, a run with a regular
    input file and a writable output place ends normally, with exit
    status 0: the input is left as it was, and the output is either the
    archive [ar] wrote or a byte-identical copy of the input. *)
Theorem rename_always_produces_output (lib_path output_path : list string) (prefix : string)
        (content : list byte) (s : Rename.state) :
  Rename.files s !! lib_path = Some (File content) ->
  is_dir (Rename.files s) output_path = false ->
  is_dir (Rename.files s) (Path.parent output_path) = true ->
  output_path <> lib_path ->
  fresh_dir (mkdtemp (Rename.files s)) (Rename.files s) = true ->
  ¬ mkdtemp (Rename.files s) `prefix_of` output_path ->
  exists s' : Rename.state,
    Rename.rename_symbols_in_archive which ar_extract objcopy_run ar_create mkdtemp
      lib_path output_path prefix s = (Ok tt, s')
    /\ Rename.main which ar_extract objcopy_run ar_create mkdtemp
         lib_path output_path prefix s = (0%nat, s')
    /\ Rename.files s' !! lib_path = Some (File content)
    /\ (Rename.files s' !! output_path = Some (File content)
        \/ exists tool ms archive,
             ar_create tool ms = inr archive
             /\ Rename.files s' !! output_path = Some (File archive)).
Proof.
  intros Hlib Hout Hparent Hne Hfresh Htmp.
  assert (exists s' : Rename.state,
             Rename.rename_symbols_in_archive which ar_extract objcopy_run ar_create mkdtemp
               lib_path output_path prefix s = (Ok tt, s')
             /\ Rename.files s' !! lib_path = Some (File content)
             /\ (Rename.files s' !! output_path = Some (File content)
                 \/ exists tool ms archive,
                      ar_create tool ms = inr archive
                      /\ Rename.files s' !! output_path = Some (File archive)))
    as (s' & Hrun & Hkept & Hmade).
  { unfold Rename.rename_symbols_in_archive.
    set (tmp := mkdtemp (Rename.files s)) in *.
    assert (¬ tmp `prefix_of` lib_path) as Htmplib.
    { intros Hp. rewrite (fresh_dir_lookup tmp _ lib_path Hfresh Hp) in Hlib. discriminate. }
    assert (¬ tmp `prefix_of` Path.parent output_path) as Htmpparent.
    { intros Hp. apply Htmp. etransitivity; [exact Hp | apply parent_prefix]. }
    assert (forall p : list string,
               ¬ tmp `prefix_of` p ->
               <[tmp := Dir]> (Rename.files s) !! p = Rename.files s !! p) as Hins.
    { intros p Hp. apply lookup_insert_ne. intros <-. apply Hp. reflexivity. }
    destruct (Rename.find_objcopy_tool which) as [objcopy |];
      destruct (Rename.find_ar_tool which) as [ar |];
      try (eexists; rewrite (copy2_plain lib_path output_path content) by assumption;
           split; [reflexivity |];
           unfold Rename.emit; cbn [Rename.files];
           split; [rewrite lookup_insert_ne by exact Hne; exact Hlib
                  | left; apply lookup_insert_eq]).
    cbv zeta. unfold Rename.emit at 1 2. cbn [Rename.files Rename.log]. fold tmp.
    match goal with
    | |- context [Rename.try_block ?a ?b ?c ?d ?e ?f ?g ?h ?i ?j] =>
        destruct (Rename.try_block a b c d e f g h i j) as [o s2] eqn:Hblock
    end.
    apply (try_block_spec _ _ _ _ _ _ _ _ _ content) in Hblock;
      cbn [Rename.files];
      [ | rewrite Hins by exact Htmplib; exact Hlib
        | rewrite (is_dir_same (Rename.files s)); [exact Hout | apply Hins; exact Htmp]
        | rewrite (is_dir_same (Rename.files s));
          [exact Hparent | apply Hins; exact Htmpparent]
        | exact Hne | exact Htmp | exact Htmplib ].
    destruct Hblock as [Hlib2 Hcase].
    destruct o as [| failure | e].
    - eexists. split; [reflexivity |]. cbn [Rename.files].
      rewrite !rmtree_lookup, !decide_False by assumption. split; [exact Hlib2 |].
      destruct Hcase as [Hc | (ms & archive & Har & Hc)]; [left; exact Hc |].
      right. exists ar, ms, archive. split; [exact Har | exact Hc].
    - destruct Hcase as [Hout2 Hparent2].
      rewrite (copy2_plain lib_path output_path content) by (cbn [Rename.files]; assumption).
      eexists. split; [reflexivity |]. unfold Rename.emit. cbn [Rename.files].
      rewrite !rmtree_lookup, !decide_False by assumption.
      split; [rewrite lookup_insert_ne by exact Hne; exact Hlib2
             | left; apply lookup_insert_eq].
    - destruct Hcase as [Hout2 Hparent2].
      rewrite (copy2_plain lib_path output_path content) by (cbn [Rename.files]; assumption).
      eexists. split; [reflexivity |]. unfold Rename.emit. cbn [Rename.files].
      rewrite !rmtree_lookup, !decide_False by assumption.
      split; [rewrite lookup_insert_ne by exact Hne; exact Hlib2
             | left; apply lookup_insert_eq]. }
  exists s'. split; [exact Hrun |]. split; [| split; [exact Hkept | exact Hmade]].
  unfold Rename.main. rewrite Hlib, Hrun. reflexivity.
Qed.

(** When [ar x] fails, the error, its captured output and the fallback
    notice go to stderr, the output becomes a copy of the input, and
    the file system is otherwise what it was: [objcopy] is never
    started. *)
Theorem extraction_failure_falls_back (lib_path output_path : list string)
        (prefix objcopy ar : string) (content : list byte)
        (failure : Rename.process_failure) (s : Rename.state) :
  Rename.find_objcopy_tool which = Some objcopy ->
  Rename.find_ar_tool which = Some ar ->
  ar_extract ar (Some content) = inl failure ->
  Rename.files s !! lib_path = Some (File content) ->
  is_dir (Rename.files s) output_path = false ->
  is_dir (Rename.files s) (Path.parent output_path) = true ->
  output_path <> lib_path ->
  fresh_dir (mkdtemp (Rename.files s)) (Rename.files s) = true ->
  ¬ mkdtemp (Rename.files s) `prefix_of` output_path ->
  Rename.rename_symbols_in_archive which ar_extract objcopy_run ar_create mkdtemp
    lib_path output_path prefix s
  = (Ok tt,
     Rename.mk_state (<[output_path := File content]> (Rename.files s))
       (Rename.log s
        ++ [Rename.Out ("Using " +:+ ar +:+ " and " +:+ objcopy
                        +:+ " to rename Rust symbols...");
            Rename.Out ("Extracting objects from " +:+ Path.str lib_path +:+ "...");
            Rename.Run [ar; "x"; Path.str lib_path] (Some (mkdtemp (Rename.files s)));
            Rename.Err ("Error processing archive: " +:+ Rename.pf_text failure);
            Rename.Err ("stdout: " +:+ Rename.pf_stdout failure);
            Rename.Err ("stderr: " +:+ Rename.pf_stderr failure);
            Rename.Err "Falling back to copying library as-is."])).
Proof.
  intros Ho Ha Hx Hlib Hout Hparent Hne Hfresh Htmp.
  unfold Rename.rename_symbols_in_archive. rewrite Ho, Ha. cbv zeta.
  set (tmp := mkdtemp (Rename.files s)) in *.
  assert (¬ tmp `prefix_of` lib_path) as Htmplib.
  { intros Hp. rewrite (fresh_dir_lookup tmp _ lib_path Hfresh Hp) in Hlib. discriminate. }
  assert (¬ tmp `prefix_of` Path.parent output_path) as Htmpparent.
  { intros Hp. apply Htmp. etransitivity; [exact Hp | apply parent_prefix]. }
  assert (forall p : list string,
             ¬ tmp `prefix_of` p ->
             <[tmp := Dir]> (Rename.files s) !! p = Rename.files s !! p) as Hins.
  { intros p Hp. apply lookup_insert_ne. intros <-. apply Hp. reflexivity. }
  unfold Rename.try_block. cbv zeta. unfold Rename.emit. cbn [Rename.files Rename.log].
  fold tmp. unfold Rename.file_content at 1.
  rewrite Hins by exact Htmplib. rewrite Hlib, Hx. cbn [Rename.files Rename.log].
  rewrite (copy2_plain lib_path output_path content); cbn [Rename.files Rename.log];
    [ | rewrite Hins by exact Htmplib; exact Hlib
      | rewrite (is_dir_same (Rename.files s)); [exact Hout | apply Hins; exact Htmp]
      | rewrite (is_dir_same (Rename.files s)); [exact Hparent | apply Hins; exact Htmpparent]
      | exact Hne ].
  f_equal. f_equal.
  - apply map_eq. intros k. rewrite rmtree_lookup.
    destruct (decide (tmp `prefix_of` k)) as [Hp | Hp].
    + rewrite lookup_insert_ne by (intros <-; exact (Htmp Hp)).
      symmetry. apply (fresh_dir_lookup tmp _ k Hfresh Hp).
    + rewrite !lookup_insert. destruct (decide (output_path = k)); [reflexivity |].
      rewrite decide_False; [reflexivity |]. intros <-. apply Hp. reflexivity.
  - rewrite <- !app_assoc. reflexivity.
Qed.

End Robust.

(** [objcopy] is started once for every listed object, in the order of
    the listing and whatever the earlier runs returned; the count of
    successful runs never exceeds the number of objects, and nothing
    outside the temporary directory changes. *)
Theorem objcopy_started_for_every_object
        (objcopy_run : string -> list string -> list byte -> option (list byte))
        (objcopy : string) (args tmp : list string) (objs : list string)
        (s : Rename.state) :
  let r := fold_left (Rename.rename_in_object objcopy_run objcopy args tmp) objs (s, 0%nat) in
  Rename.log r.1 = Rename.log s ++ map (objcopy_call objcopy args tmp) objs
  /\ (r.2 <= length objs)%nat
  /\ forall p : list string,
       ¬ tmp `prefix_of` p -> Rename.files r.1 !! p = Rename.files s !! p.
Proof.
  destruct (rename_loop_spec objcopy_run objcopy args tmp objs (s, 0%nat))
    as (Hlog & Hcount & Hfiles).
  cbv zeta. split; [exact Hlog |]. split; [cbn [snd] in Hcount; lia | exact Hfiles].
Qed.

Lemma rename_always_produces_output_witness :
  exists s' : Rename.state,
    Rename.rename_symbols_in_archive gnu_only Rename_demo.working_ar
      Rename_demo.objcopy_run Rename_demo.ar_create Rename_demo.mkdtemp
      Rename_demo.lib Rename_demo.out "aic_" Rename_demo.start = (Ok tt, s')
    /\ Rename.main gnu_only Rename_demo.working_ar
         Rename_demo.objcopy_run Rename_demo.ar_create Rename_demo.mkdtemp
         Rename_demo.lib Rename_demo.out "aic_" Rename_demo.start = (0%nat, s')
    /\ Rename.files s' !! Rename_demo.lib = Some (File Demo.hello)
    /\ (Rename.files s' !! Rename_demo.out = Some (File Demo.hello)
        \/ exists tool ms archive,
             Rename_demo.ar_create tool ms = inr archive
             /\ Rename.files s' !! Rename_demo.out = Some (File archive)).
Proof.
  apply (rename_always_produces_output gnu_only Rename_demo.working_ar
           Rename_demo.objcopy_run Rename_demo.ar_create Rename_demo.mkdtemp
           Rename_demo.lib Rename_demo.out "aic_" Demo.hello Rename_demo.start).
  - reflexivity.
  - reflexivity.
  - reflexivity.
  - discriminate.
  - reflexivity.
  - intros [k Hk]. discriminate Hk.
Defined.

Lemma extraction_failure_falls_back_witness :
  Rename.rename_symbols_in_archive gnu_only Rename_demo.broken_ar
    Rename_demo.objcopy_run Rename_demo.ar_create Rename_demo.mkdtemp
    Rename_demo.lib Rename_demo.out "aic_" Rename_demo.start
  = (Ok tt,
     Rename.mk_state (<[Rename_demo.out := File Demo.hello]> (Rename.files Rename_demo.start))
       (Rename.log Rename_demo.start
        ++ [Rename.Out ("Using " +:+ "ar" +:+ " and " +:+ "objcopy"
                        +:+ " to rename Rust symbols...");
            Rename.Out ("Extracting objects from " +:+ Path.str Rename_demo.lib +:+ "...");
            Rename.Run ["ar"; "x"; Path.str Rename_demo.lib]
              (Some (Rename_demo.mkdtemp (Rename.files Rename_demo.start)));
            Rename.Err ("Error processing archive: "
                        +:+ "Command '['ar', 'x', '/build/libaic.a']' "
                        +:+ "returned non-zero exit status 1.");
            Rename.Err "stdout: ";
            Rename.Err "stderr: ar: /build/libaic.a: file format not recognized";
            Rename.Err "Falling back to copying library as-is."])).
Proof.
  apply (extraction_failure_falls_back gnu_only Rename_demo.broken_ar
           Rename_demo.objcopy_run Rename_demo.ar_create Rename_demo.mkdtemp
           Rename_demo.lib Rename_demo.out "aic_" "objcopy" "ar" Demo.hello
           {| Rename.pf_text :=
                "Command '['ar', 'x', '/build/libaic.a']' returned non-zero exit status 1.";
              Rename.pf_stdout := "";
              Rename.pf_stderr := "ar: /build/libaic.a: file format not recognized" |}
           Rename_demo.start).
  - reflexivity.
  - reflexivity.
  - reflexivity.
  - reflexivity.
  - reflexivity.
  - reflexivity.
  - discriminate.
  - reflexivity.
  - intros [k Hk]. discriminate Hk.
Defined.
